(** * Poster-Peta: the fetch-and-cache pipeline of [create_map_poster.py]
      and the job orchestration of [app.py], embedded in Rocq.

    The Python sources are embedded shallowly.  Pure code becomes Rocq
    functions; code with effects (disk cache, provider calls, sleeps,
    progress registry, callbacks) becomes a program in a small free monad
    [Prog] that is interpreted over an explicit [World]; thread pools are
    interpreted by interleaving the workers' programs along an arbitrary
    schedule. *)

From Stdlib Require Import ZArith List String Ascii Bool Lia QArith.
From stdpp Require Import base option list gmap strings.
Import ListNotations.

Local Open Scope string_scope.
Local Open Scope Z_scope.

(* ===================================================================== *)
(** * The Python runtime the sources rely on                              *)
(* ===================================================================== *)

(** A Python [str] is represented by its UTF-8 bytes, which is what
    [key.encode()] hands to the hash functions. *)

Module Runtime.

Definition bytes_of (s : string) : list Z :=
  map (fun c => Z.of_nat (nat_of_ascii c)) (list_ascii_of_string s).

Definition wrap32 (x : Z) : Z := x mod 2 ^ 32.
Definition wrap64 (x : Z) : Z := x mod 2 ^ 64.

Definition rotl32 (x c : Z) : Z :=
  wrap32 (Z.lor (Z.shiftl x c) (Z.shiftr x (32 - c))).

Definition rotl64 (x c : Z) : Z :=
  wrap64 (Z.lor (Z.shiftl x c) (Z.shiftr x (64 - c))).

Definition not32 (x : Z) : Z := Z.lxor x (2 ^ 32 - 1).

(** Little-endian value of a list of bytes. *)
Fixpoint le_value (bs : list Z) : Z :=
  match bs with
  | [] => 0
  | b :: rest => b + 256 * le_value rest
  end.

(** The [n] low bytes of [x], least significant first. *)
Fixpoint le_bytes (n : nat) (x : Z) : list Z :=
  match n with
  | O => []
  | S n' => x mod 256 :: le_bytes n' (x / 256)
  end.

(** Split a list into chunks of [n] elements ([fuel] bounds the number of
    chunks; callers pass the length of the list). *)
Fixpoint chunks {A} (fuel n : nat) (l : list A) : list (list A) :=
  match fuel with
  | O => []
  | S fuel' =>
      match l with
      | [] => []
      | _ => firstn n l :: chunks fuel' n (skipn n l)
      end
  end.

(** ** [hashlib.md5] (RFC 1321) *)

Definition md5_shift : list Z :=
  [7; 12; 17; 22; 7; 12; 17; 22; 7; 12; 17; 22; 7; 12; 17; 22;
   5; 9; 14; 20; 5; 9; 14; 20; 5; 9; 14; 20; 5; 9; 14; 20;
   4; 11; 16; 23; 4; 11; 16; 23; 4; 11; 16; 23; 4; 11; 16; 23;
   6; 10; 15; 21; 6; 10; 15; 21; 6; 10; 15; 21; 6; 10; 15; 21].

Definition md5_sine : list Z :=
  [3614090360; 3905402710; 606105819; 3250441966;
   4118548399; 1200080426; 2821735955; 4249261313;
   1770035416; 2336552879; 4294925233; 2304563134;
   1804603682; 4254626195; 2792965006; 1236535329;
   4129170786; 3225465664; 643717713; 3921069994;
   3593408605; 38016083; 3634488961; 3889429448;
   568446438; 3275163606; 4107603335; 1163531501;
   2850285829; 4243563512; 1735328473; 2368359562;
   4294588738; 2272392833; 1839030562; 4259657740;
   2763975236; 1272893353; 4139469664; 3200236656;
   681279174; 3936430074; 3572445317; 76029189;
   3654602809; 3873151461; 530742520; 3299628645;
   4096336452; 1126891415; 2878612391; 4237533241;
   1700485571; 2399980690; 4293915773; 2240044497;
   1873313359; 4264355552; 2734768916; 1309151649;
   4149444226; 3174756917; 718787259; 3951481745].

Definition md5_pad (msg : list Z) : list Z :=
  let len := Z.of_nat (length msg) in
  let zeros := Z.to_nat ((55 - len) mod 64) in
  msg ++ [128] ++ repeat 0 zeros ++ le_bytes 8 (wrap64 (8 * len)).

Record md5_state := Md5 { md5_a : Z; md5_b : Z; md5_c : Z; md5_d : Z }.

Definition md5_init : md5_state :=
  Md5 1732584193 4023233417 2562383102 271733878.

Definition md5_round (words : list Z) (st : md5_state) (i : nat) : md5_state :=
  let '(Md5 a b c d) := st in
  let zi := Z.of_nat i in
  let '(f, g) :=
    if zi <? 16 then (Z.lor (Z.land b c) (Z.land (not32 b) d), zi)
    else if zi <? 32 then (Z.lor (Z.land d b) (Z.land (not32 d) c), (5 * zi + 1) mod 16)
    else if zi <? 48 then (Z.lxor (Z.lxor b c) d, (3 * zi + 5) mod 16)
    else (Z.lxor c (Z.lor b (not32 d)), (7 * zi) mod 16) in
  let f' := wrap32 (f + a + nth i md5_sine 0 + nth (Z.to_nat g) words 0) in
  Md5 d (wrap32 (b + rotl32 f' (nth i md5_shift 0))) b c.

Definition md5_block (st : md5_state) (block : list Z) : md5_state :=
  let words := map le_value (chunks 16 4 block) in
  let '(Md5 a b c d) := fold_left (md5_round words) (seq 0 64) st in
  Md5 (wrap32 (md5_a st + a)) (wrap32 (md5_b st + b))
      (wrap32 (md5_c st + c)) (wrap32 (md5_d st + d)).

Definition md5_digest (msg : list Z) : list Z :=
  let padded := md5_pad msg in
  let '(Md5 a b c d) :=
    fold_left md5_block (chunks (length padded) 64 padded) md5_init in
  le_bytes 4 a ++ le_bytes 4 b ++ le_bytes 4 c ++ le_bytes 4 d.

Definition hex_digit (n : Z) : ascii :=
  nth (Z.to_nat n) (list_ascii_of_string "0123456789abcdef") "0"%char.

Fixpoint hex_of_bytes (bs : list Z) : string :=
  match bs with
  | [] => EmptyString
  | b :: rest => String (hex_digit (b / 16)) (String (hex_digit (b mod 16)) (hex_of_bytes rest))
  end.

(** [md5(s.encode()).hexdigest()] *)
Definition md5_hexdigest (s : string) : string :=
  hex_of_bytes (md5_digest (bytes_of s)).

(** ** The built-in [hash] on [str] (CPython 3.11+: SipHash-1-3 keyed by the
       per-process secret [_Py_HashSecret]) *)

Record sip_state := Sip { v0 : Z; v1 : Z; v2 : Z; v3 : Z }.

Definition sip_round (s : sip_state) : sip_state :=
  let '(Sip a b c d) := s in
  let a := wrap64 (a + b) in
  let b := Z.lxor (rotl64 b 13) a in
  let a := rotl64 a 32 in
  let c := wrap64 (c + d) in
  let d := Z.lxor (rotl64 d 16) c in
  let a := wrap64 (a + d) in
  let d := Z.lxor (rotl64 d 21) a in
  let c := wrap64 (c + b) in
  let b := Z.lxor (rotl64 b 17) c in
  let c := rotl64 c 32 in
  Sip a b c d.

Definition sip_compress (rounds : nat) (s : sip_state) (m : Z) : sip_state :=
  let '(Sip a b c d) := s in
  let '(Sip a b c d) := Nat.iter rounds sip_round (Sip a b c (Z.lxor d m)) in
  Sip (Z.lxor a m) b c d.

Definition siphash (c_rounds d_rounds : nat) (k0 k1 : Z) (src : list Z) : Z :=
  let len := length src in
  let full := (len / 8)%nat in
  let body := map le_value (chunks full 8 (firstn (full * 8) src)) in
  let tail := le_value (skipn (full * 8) src) in
  let b := Z.lor (wrap64 (Z.shiftl (Z.of_nat len) 56)) tail in
  let s0 := Sip (Z.lxor k0 8317987319222330741) (Z.lxor k1 7237128888997146477)
                (Z.lxor k0 7816392313619706465) (Z.lxor k1 8387220255154660723) in
  let s1 := fold_left (sip_compress c_rounds) body s0 in
  let '(Sip a b' c d) := sip_compress c_rounds s1 b in
  let '(Sip a b' c d) := Nat.iter d_rounds sip_round (Sip a b' (Z.lxor c 255) d) in
  Z.lxor (Z.lxor a b') (Z.lxor c d).

(** The unsigned 64-bit result read as a [Py_hash_t]; [-1] is reserved. *)
Definition as_py_hash (x : Z) : Z :=
  let y := if x <? 2 ^ 63 then x else x - 2 ^ 64 in
  if y =? -1 then -2 else y.

(** [hash(s)] in a process whose secret is [(k0, k1)]. *)
Definition siphash13_str (k0 k1 : Z) (s : string) : Z :=
  match bytes_of s with
  | [] => 0
  | bs => as_py_hash (siphash 1 3 k0 k1 bs)
  end.

(** With [PYTHONHASHSEED=n] ([n > 0]) the secret is drawn from this linear
    congruential generator; [PYTHONHASHSEED=0] gives the all-zero secret,
    and without the variable the secret is drawn from the OS at start-up. *)
Fixpoint lcg_urandom (n : nat) (x : Z) : list Z :=
  match n with
  | O => []
  | S n' =>
      let x' := wrap32 (x * 214013 + 2531011) in
      Z.land (Z.shiftr x' 16) 255 :: lcg_urandom n' x'
  end.

Definition secret_of_seed (seed : Z) : Z * Z :=
  if seed =? 0 then (0, 0)
  else
    let bs := lcg_urandom 16 seed in
    (le_value (firstn 8 bs), le_value (skipn 8 bs)).

(** ** [str(int)] *)

Definition digit_char (n : Z) : ascii := ascii_of_nat (48 + Z.to_nat n).

Fixpoint digits_of (fuel : nat) (n : Z) (acc : string) : string :=
  match fuel with
  | O => acc
  | S fuel' =>
      let acc' := String (digit_char (n mod 10)) acc in
      if n / 10 =? 0 then acc' else digits_of fuel' (n / 10) acc'
  end.

Definition str_int (n : Z) : string :=
  if n <? 0 then String "-"%char (digits_of (Z.to_nat (Z.log2 (- n)) + 1) (- n) EmptyString)
  else digits_of (Z.to_nat (Z.log2 n) + 1) n EmptyString.

End Runtime.


(* ===================================================================== *)
(** * Python values, exceptions and results                               *)
(* ===================================================================== *)

Module Py.

(** The exception classes the sources raise, catch or can receive from the
    libraries they call.  All of them derive from [Exception]. *)
Inductive Exc : Type :=
| ValueError (msg : string)
| RuntimeError (msg : string)
| TypeError (msg : string)
| IndexError (msg : string)
| EOFError (msg : string)
| PickleError (msg : string)     (* pickle.PickleError and its subclasses *)
| OSError (msg : string)         (* OSError, of which IOError is an alias *)
| CacheError (msg : string)      (* create_map_poster.CacheError *)
| OtherException (msg : string). (* any other subclass of Exception *)

(** [str(e)] *)
Definition str_exc (e : Exc) : string :=
  match e with
  | ValueError m | RuntimeError m | TypeError m | IndexError m | EOFError m
  | PickleError m | OSError m | CacheError m | OtherException m => m
  end.

Definition is_CacheError (e : Exc) : bool :=
  match e with CacheError _ => true | _ => false end.
Definition is_PickleError (e : Exc) : bool :=
  match e with PickleError _ => true | _ => false end.
Definition is_OSError (e : Exc) : bool :=
  match e with OSError _ => true | _ => false end.

Inductive Result (A : Type) : Type :=
| Ok (a : A)
| Err (e : Exc).
Arguments Ok {A} a.
Arguments Err {A} e.

(** A [float] is represented by its [repr], the only observation the
    modelled code makes of a coordinate (it formats it into keys and
    messages). *)
Record PyFloat := Float { float_str : string }.

Definition Point : Type := PyFloat * PyFloat.

(** [str(point)] for a tuple of two floats. *)
Definition str_point (p : Point) : string :=
  "(" ++ float_str (fst p) ++ ", " ++ float_str (snd p) ++ ")".

(** A street network: [len(G)] is its number of nodes. *)
Record Graph := { nodes : list Z; edges : list (Z * Z * string) }.
Definition graph_len (G : Graph) : Z := Z.of_nat (length (nodes G)).

(** A geometry is represented by its well-known text, which is what
    [str(geom)] returns. *)
Definition Geometry : Type := string.

Record GeoDataFrame := { geometry : list Geometry }.

(** [gdf.empty] *)
Definition empty (d : GeoDataFrame) : bool :=
  match geometry d with [] => true | _ => false end.

(** [gdf.geometry.iloc[0]] *)
Definition iloc0 (d : GeoDataFrame) : Result Geometry :=
  match geometry d with
  | g :: _ => Ok g
  | [] => Err (IndexError "single positional indexer is out-of-bounds")
  end.

(** An OSM tag filter: a dict in insertion order. *)
Definition Tags : Type := list (string * string).

(** [sep.join(parts)] *)
Fixpoint join (sep : string) (parts : list string) : string :=
  match parts with
  | [] => EmptyString
  | [p] => p
  | p :: rest => p ++ sep ++ join sep rest
  end.

(** The objects that are fetched, cached and returned. *)
Inductive PyObj : Type :=
| PyNone
| PyGraph (G : Graph)
| PyFrame (d : GeoDataFrame)
| PyCoords (lat lon : PyFloat).

Definition is_None (o : PyObj) : bool :=
  match o with PyNone => true | _ => false end.

(** [s.replace(old, new)] for a one-character [old]. *)
Fixpoint replace_char (old : ascii) (new : string) (s : string) : string :=
  match s with
  | EmptyString => EmptyString
  | String c rest =>
      if Ascii.eqb c old then new ++ replace_char old new rest
      else String c (replace_char old new rest)
  end.

(** [s.lower()] for a string of ASCII characters: the letters A to Z are
    lowered.  A character outside ASCII is left as it is, where
    [str.lower] lowers every cased letter. *)
Definition lower_char (c : ascii) : ascii :=
  let n := nat_of_ascii c in
  if (65 <=? n)%nat && (n <=? 90)%nat then ascii_of_nat (n + 32) else c.

Fixpoint lower (s : string) : string :=
  match s with
  | EmptyString => EmptyString
  | String c rest => String (lower_char c) (lower rest)
  end.

(** Truth value of an optional string ([None] and the empty string are
    false). *)
Definition truthy (s : option string) : bool :=
  match s with
  | Some (String _ _) => true
  | _ => false
  end.

End Py.
Export Py.

(* ===================================================================== *)
(** * Effects: the world the code runs in                                 *)
(* ===================================================================== *)

Module Sys.

(** ** The job/progress registry ([progress_status] of app.py) *)

Record OutputFile := { out_file : string; out_theme : string; out_format : string }.

(** The value under ['cache_hits']: the dict built by the orchestrator, or a
    reference to the local dict [cache_hits] of the running fetch round
    (Python stores the object, not a copy). *)
Inductive HitsCell : Type :=
| HitsOfRound
| HitsDict (d : gmap string bool).

(** The value under ['details'] is always the local dict [progress_steps]
    of the running fetch round, by reference. *)
Inductive StepsCell : Type := StepsOfRound.

(** One record of [progress_status], and also the payload of an update: a
    key that is absent is [None]. *)
Record JobStatus := {
  js_status : option string;
  js_message : option string;
  js_started_at : option Z;
  js_cancelled : option bool;
  js_cache_hits : option HitsCell;
  js_details : option StepsCell;
  js_files : option (list OutputFile);
  js_file : option (option string)
}.

Definition no_fields : JobStatus :=
  {| js_status := None; js_message := None; js_started_at := None;
     js_cancelled := None; js_cache_hits := None; js_details := None;
     js_files := None; js_file := None |}.

Definition status_message (status message : string) : JobStatus :=
  {| js_status := Some status; js_message := Some message; js_started_at := None;
     js_cancelled := None; js_cache_hits := None; js_details := None;
     js_files := None; js_file := None |}.

Definition override {A} (new old : option A) : option A :=
  match new with Some _ => new | None => old end.

(** [current.update(payload)] *)
Definition dict_update (current payload : JobStatus) : JobStatus :=
  {| js_status := override (js_status payload) (js_status current);
     js_message := override (js_message payload) (js_message current);
     js_started_at := override (js_started_at payload) (js_started_at current);
     js_cancelled := override (js_cancelled payload) (js_cancelled current);
     js_cache_hits := override (js_cache_hits payload) (js_cache_hits current);
     js_details := override (js_details payload) (js_details current);
     js_files := override (js_files payload) (js_files current);
     js_file := override (js_file payload) (js_file current) |}.

(** The registry, together with the two dicts that are local to a fetch
    round and shared by its closures. *)
Record Registry := {
  progress_status : gmap string JobStatus;
  progress_steps : gmap string Z;
  cache_hits : gmap string bool
}.

(** ** The disk cache, the log and the world *)

(** A file of [CACHE_DIR]: a complete pickle, or a file that was opened for
    writing and not completed. *)
Inductive Entry : Type :=
| Pickled (obj : PyObj)
| Truncated.

Inductive Request : Type :=
| GraphFromPoint (point : Point) (dist : Z) (network_type : string)
| GraphFromPolygon (polygon : Geometry) (network_type : string)
| FeaturesFromPoint (point : Point) (tags : Tags) (dist : Z)
| FeaturesFromPolygon (polygon : Geometry) (tags : Tags)
| GeocodeToGdf (query : string)
| Geocode (query : string).

(** What an observer of one execution sees, oldest first. *)
Inductive Event : Type :=
| EPrint (msg : string)
| ESleep (ms : Z)
| EProvider (req : Request)
| ECacheCb (name : string) (hit : bool)
| EProgressCb (status message : string)
| EUpdate (task_id : string) (payload : JobStatus)
| ERender (stage : string)
| EResolved (worker : nat).

Record World := {
  disk : gmap string Entry;
  registry : Registry;
  temp_outputs : list string;
  temp_created : nat;
  ticks : nat;
  log : list Event
}.

(** What [geolocator.geocode] finds. *)
Record Location := { address : string; loc_latitude : PyFloat; loc_longitude : PyFloat }.

(** How [path.open("wb")] followed by [pickle.dump] can fail.  The object
    cannot be pickled, and [pickle.dump] says so either with
    [pickle.PicklingError] ([SerializationFailure]) or, as it does for a
    lock, a generator or a module, with [TypeError]
    ([UnpicklableFailure]); the file is open by then.  Or the file cannot
    be opened or written ([StorageFailure]), or something else goes wrong
    ([OtherFailure], which holds the [AttributeError] of a local function
    too).  [opened] tells whether the file had been opened, and so
    truncated, before the failure. *)
Inductive DumpFailure : Type :=
| SerializationFailure (msg : string)
| StorageFailure (msg : string) (opened : bool)
| OtherFailure (msg : string) (opened : bool)
| UnpicklableFailure (msg : string).

Definition raised_by (f : DumpFailure) : Exc :=
  match f with
  | SerializationFailure m => PickleError m
  | StorageFailure m _ => OSError m
  | OtherFailure m _ => OtherException m
  | UnpicklableFailure m => TypeError m
  end.

Definition file_opened (f : DumpFailure) : bool :=
  match f with
  | SerializationFailure _ | UnpicklableFailure _ => true
  | StorageFailure _ o | OtherFailure _ o => o
  end.

Inductive DumpOutcome : Type :=
| DumpOk
| DumpFails (f : DumpFailure).

Definition Theme : Type := list (string * string).

(** Everything outside the process: the geodata provider, the geocoder, the
    file system's behaviour on writes, the renderer, the themes directory,
    the clock and the client that may post a cancellation. *)
Record Env := {
  graph_from_point : Point -> Z -> string -> Result (option Graph);
  graph_from_polygon : Geometry -> string -> Result (option Graph);
  features_from_point : Point -> Tags -> Z -> Result (option GeoDataFrame);
  features_from_polygon : Geometry -> Tags -> Result (option GeoDataFrame);
  geocode_to_gdf : string -> Result GeoDataFrame;
  geocode : string -> Result (option Location);
  dump_outcome : string -> PyObj -> DumpOutcome;
  canvas_boundary : Point -> Z -> Result (option GeoDataFrame);
  render_stage : string -> option Exc;
  themes_dir : list (string * Theme);
  time_at : nat -> Z;
  cancel_request : option (nat * string)
}.

(** A callback handed to a fetcher or to the renderer: it may change the
    registry and it may raise. *)
Definition CacheCb : Type := string -> bool -> Registry -> Registry * option Exc.
Definition ProgressCb : Type := string -> string -> Registry -> Registry * option Exc.

(** ** Registry operations of app.py *)

(** [_update_progress(task_id, payload)], the body under [progress_lock]. *)
Definition _update_progress (task_id : string) (payload : JobStatus)
    (r : Registry) : Registry :=
  let current := default no_fields (progress_status r !! task_id) in
  {| progress_status := <[task_id := dict_update current payload]> (progress_status r);
     progress_steps := progress_steps r;
     cache_hits := cache_hits r |}.

(** [_is_cancelled(task_id)] *)
Definition _is_cancelled (task_id : string) (r : Registry) : bool :=
  default false (js_cancelled (default no_fields (progress_status r !! task_id))).

(** [api_cancel(task_id)], without the HTTP reply. *)
Definition api_cancel (task_id : string) (r : Registry) : Registry :=
  match progress_status r !! task_id with
  | Some _ =>
      _update_progress task_id
        {| js_status := None; js_message := None; js_started_at := None;
           js_cancelled := Some true; js_cache_hits := None; js_details := None;
           js_files := None; js_file := None |} r
  | None => r
  end.

(** ** Atomic actions and their meaning *)

Inductive Action : Type -> Type :=
| print (msg : string) : Action unit
| sleep (ms : Z) : Action unit
| path_exists (file : string) : Action bool
| pickle_load (file : string) : Action (Result PyObj)
| pickle_dump (file : string) (obj : PyObj) : Action (Result unit)
| ox_graph_from_point (point : Point) (dist : Z) (network_type : string)
    : Action (Result (option Graph))
| ox_graph_from_polygon (polygon : Geometry) (network_type : string)
    : Action (Result (option Graph))
| ox_features_from_point (point : Point) (tags : Tags) (dist : Z)
    : Action (Result (option GeoDataFrame))
| ox_features_from_polygon (polygon : Geometry) (tags : Tags)
    : Action (Result (option GeoDataFrame))
| ox_geocode_to_gdf (query : string) : Action (Result GeoDataFrame)
| geolocator_geocode (query : string) : Action (Result (option Location))
| build_canvas (point : Point) (dist : Z) : Action (Result (option GeoDataFrame))
| render (stage : string) : Action (Result unit)
| listdir_themes : Action (list string)
| read_theme (theme_name : string) : Action (option Theme)
| named_temporary_file (suffix : string) : Action string
| os_path_exists (file : string) : Action bool
| os_unlink (file : string) : Action unit
| call_cache_cb (cb : CacheCb) (name : string) (hit : bool) : Action (Result unit)
| call_progress_cb (cb : ProgressCb) (status message : string) : Action (Result unit)
| update_progress (task_id : string) (payload : JobStatus) : Action unit
| is_cancelled (task_id : string) : Action bool
| set_progress_step (name : string) (percent : Z) : Action unit
| time_time : Action Z.

Definition emit (ev : Event) (w : World) : World :=
  {| disk := disk w; registry := registry w; temp_outputs := temp_outputs w;
     temp_created := temp_created w; ticks := ticks w; log := log w ++ [ev] |}.

Definition with_registry (r : Registry) (w : World) : World :=
  {| disk := disk w; registry := r; temp_outputs := temp_outputs w;
     temp_created := temp_created w; ticks := ticks w; log := log w |}.

Definition with_disk (d : gmap string Entry) (w : World) : World :=
  {| disk := d; registry := registry w; temp_outputs := temp_outputs w;
     temp_created := temp_created w; ticks := ticks w; log := log w |}.

Definition of_outcome (o : option Exc) : Result unit :=
  match o with Some e => Err e | None => Ok tt end.

(** One tick of the logical clock.  The client's cancellation, if it is due
    now, lands before the action that is about to run. *)
Definition tick (env : Env) (w : World) : World :=
  let r :=
    match cancel_request env with
    | Some (n, task_id) =>
        if Nat.eqb n (ticks w) then api_cancel task_id (registry w) else registry w
    | None => registry w
    end in
  {| disk := disk w; registry := r; temp_outputs := temp_outputs w;
     temp_created := temp_created w; ticks := S (ticks w); log := log w |}.

Definition perform (env : Env) {X} (a : Action X) (w : World) : X * World :=
  match a in Action X return X * World with
  | print msg => (tt, emit (EPrint msg) w)
  | sleep ms => (tt, emit (ESleep ms) w)
  | path_exists file =>
      (match disk w !! file with Some _ => true | None => false end, w)
  | pickle_load file =>
      (match disk w !! file with
       | Some (Pickled obj) => Ok obj
       | Some Truncated => Err (EOFError "Ran out of input")
       | None => Err (OSError "No such file or directory")
       end, w)
  | pickle_dump file obj =>
      match dump_outcome env file obj with
      | DumpOk => (Ok tt, with_disk (<[file := Pickled obj]> (disk w)) w)
      | DumpFails f =>
          (Err (raised_by f),
           if file_opened f then with_disk (<[file := Truncated]> (disk w)) w else w)
      end
  | ox_graph_from_point point dist nt =>
      (graph_from_point env point dist nt, emit (EProvider (GraphFromPoint point dist nt)) w)
  | ox_graph_from_polygon polygon nt =>
      (graph_from_polygon env polygon nt, emit (EProvider (GraphFromPolygon polygon nt)) w)
  | ox_features_from_point point tags dist =>
      (features_from_point env point tags dist,
       emit (EProvider (FeaturesFromPoint point tags dist)) w)
  | ox_features_from_polygon polygon tags =>
      (features_from_polygon env polygon tags,
       emit (EProvider (FeaturesFromPolygon polygon tags)) w)
  | ox_geocode_to_gdf query =>
      (geocode_to_gdf env query, emit (EProvider (GeocodeToGdf query)) w)
  | geolocator_geocode query =>
      (geocode env query, emit (EProvider (Geocode query)) w)
  | build_canvas point dist => (canvas_boundary env point dist, w)
  | render stage => (of_outcome (render_stage env stage), emit (ERender stage) w)
  | listdir_themes => (map fst (themes_dir env), w)
  | read_theme theme_name =>
      (snd <$> List.find (fun t => String.eqb (fst t) theme_name) (themes_dir env), w)
  | named_temporary_file suffix =>
      let file := "tmp" ++ Runtime.str_int (Z.of_nat (temp_created w)) ++ suffix in
      (file,
       {| disk := disk w; registry := registry w;
          temp_outputs := file :: temp_outputs w;
          temp_created := S (temp_created w); ticks := ticks w; log := log w |})
  | os_path_exists file =>
      (existsb (String.eqb file) (temp_outputs w), w)
  | os_unlink file =>
      (tt,
       {| disk := disk w; registry := registry w;
          temp_outputs := List.filter (fun f => negb (String.eqb file f)) (temp_outputs w);
          temp_created := temp_created w; ticks := ticks w; log := log w |})
  | call_cache_cb cb name hit =>
      let '(r, o) := cb name hit (registry w) in
      (of_outcome o, with_registry r (emit (ECacheCb name hit) w))
  | call_progress_cb cb status message =>
      let '(r, o) := cb status message (registry w) in
      (of_outcome o, with_registry r (emit (EProgressCb status message) w))
  | update_progress task_id payload =>
      (tt, with_registry (_update_progress task_id payload (registry w))
             (emit (EUpdate task_id payload) w))
  | is_cancelled task_id => (_is_cancelled task_id (registry w), w)
  | set_progress_step name percent =>
      (tt, with_registry
             {| progress_status := progress_status (registry w);
                progress_steps := <[name := percent]> (progress_steps (registry w));
                cache_hits := cache_hits (registry w) |} w)
  | time_time => (time_at env (ticks w), w)
  end.

Definition step (env : Env) {X} (a : Action X) (w : World) : X * World :=
  perform env a (tick env w).

(** ** Programs of one thread *)

Inductive Prog (R : Type) : Type :=
| Ret (r : R)
| Raise (e : Exc)
| Do {X : Type} (a : Action X) (k : X -> Prog R).
Arguments Ret {R} r.
Arguments Raise {R} e.
Arguments Do {R X} a k.

Declare Scope prog_scope.
Delimit Scope prog_scope with prog.
Bind Scope prog_scope with Prog.

Fixpoint bind {A B} (p : Prog A) (f : A -> Prog B) : Prog B :=
  match p with
  | Ret a => f a
  | Raise e => Raise e
  | Do a k => Do a (fun x => bind (k x) f)
  end.

(** [try: p  except Exception as e: handler e] *)
Fixpoint try_except {A} (p : Prog A) (handler : Exc -> Prog A) : Prog A :=
  match p with
  | Ret a => Ret a
  | Raise e => handler e
  | Do a k => Do a (fun x => try_except (k x) handler)
  end.

(** An action that cannot raise. *)
Definition act {X} (a : Action X) : Prog X := Do a Ret.

(** An action that returns or raises. *)
Definition call {X} (a : Action (Result X)) : Prog X :=
  Do a (fun r => match r with Ok x => Ret x | Err e => Raise e end).

(** A value computed without effects that may raise. *)
Definition lift {X} (r : Result X) : Prog X :=
  match r with Ok x => Ret x | Err e => Raise e end.

(** Running a thread to completion, alone. *)
Fixpoint run (env : Env) {R} (p : Prog R) (w : World) : Result R * World :=
  match p with
  | Ret r => (Ok r, w)
  | Raise e => (Err e, w)
  | Do a k => let '(x, w') := step env a w in run env (k x) w'
  end.

(** ** Thread pools *)

Definition finished {R} (p : Prog R) : bool :=
  match p with Do _ _ => false | _ => true end.

(** Worker [i] runs its next action; the future resolves when nothing is
    left to run. *)
Definition advance (env : Env) {R} (i : nat) (p : Prog R) (w : World)
    : Prog R * World :=
  match p with
  | Do a k =>
      let '(x, w') := step env a w in
      (k x, if finished (k x) then emit (EResolved i) w' else w')
  | _ => (p, w)
  end.

(** The workers run in the order the schedule names them. *)
Fixpoint interleave (env : Env) {R} (schedule : list nat) (tasks : list (Prog R))
    (w : World) : list (Prog R) * World :=
  match schedule with
  | [] => (tasks, w)
  | i :: rest =>
      match tasks !! i with
      | Some p =>
          let '(p', w') := advance env i p w in
          interleave env rest (<[i := p']> tasks) w'
      | None => interleave env rest tasks w
      end
  end.

(** Whatever is still running when the schedule ends runs to completion,
    lowest worker first. *)
Fixpoint join_all (env : Env) {R} (i : nat) (tasks : list (Prog R)) (w : World)
    : list (Result R) * World :=
  match tasks with
  | [] => ([], w)
  | p :: rest =>
      let '(r, w') := run env p w in
      let w'' := if finished p then w' else emit (EResolved i) w' in
      let '(rs, w''') := join_all env (S i) rest w'' in
      (r :: rs, w''')
  end.

(** [ThreadPoolExecutor]: submit every task, and leave the [with] block
    when every future has resolved. *)
Definition pool (env : Env) {R} (schedule : list nat) (tasks : list (Prog R))
    (w : World) : list (Result R) * World :=
  let '(tasks', w') := interleave env schedule tasks w in
  join_all env 0 tasks' w'.

(** ** Code that drives threads: state and exceptions passed explicitly *)

Definition Job (A : Type) : Type := World -> Result A * World.

Declare Scope job_scope.
Delimit Scope job_scope with job.
Bind Scope job_scope with Job.

Definition jret {A} (a : A) : Job A := fun w => (Ok a, w).
Definition jraise {A} (e : Exc) : Job A := fun w => (Err e, w).
Definition jbind {A B} (m : Job A) (f : A -> Job B) : Job B :=
  fun w => match m w with
           | (Ok a, w') => f a w'
           | (Err e, w') => (Err e, w')
           end.
Definition jtry {A} (m : Job A) (handler : Exc -> Job A) : Job A :=
  fun w => match m w with
           | (Ok a, w') => (Ok a, w')
           | (Err e, w') => handler e w'
           end.

(** [future.result()] *)
Definition result {A} (r : Result A) : Job A :=
  match r with Ok a => jret a | Err e => jraise e end.

Definition jpool (env : Env) {R} (schedule : list nat) (tasks : list (Prog R))
    : Job (list (Result R)) :=
  fun w => let '(rs, w') := pool env schedule tasks w in (Ok rs, w').

(** The result of the [i]-th future submitted to the pool. *)
Definition future {A} (i : nat) (futures : list (Result A)) : Job A :=
  match futures !! i with
  | Some r => result r
  | None => jraise (IndexError "list index out of range")
  end.

End Sys.
Export Sys.

Notation "'let*' x := p 'in' k" := (bind p%prog (fun x => k%prog))
  (at level 10, x name, p at level 100, k at level 200, only parsing) : prog_scope.
Notation "p ;; k" := (bind p%prog (fun _ => k%prog))
  (at level 100, k at level 200, right associativity, only parsing) : prog_scope.
Notation "'let*' x := m 'in' k" := (jbind m%job (fun x => k%job))
  (at level 10, x name, m at level 100, k at level 200, only parsing) : job_scope.
Notation "m ;; k" := (jbind m%job (fun _ => k%job))
  (at level 100, k at level 200, right associativity, only parsing) : job_scope.


(* ===================================================================== *)
(** * create_map_poster.py                                                *)
(* ===================================================================== *)

Module create_map_poster.

Local Open Scope prog_scope.

(** What is fixed when the interpreter starts and the module is imported:
    [OSM_NETWORK_TYPE] (read from the environment, default ["drive"]) and
    the secret that keys the built-in [hash]. *)
Record Process := {
  OSM_NETWORK_TYPE : string;
  hash_secret : Z * Z
}.

(** The built-in [hash] on a [str]. *)
Definition hash (proc : Process) (s : string) : Z :=
  Runtime.siphash13_str (fst (hash_secret proc)) (snd (hash_secret proc)) s.

(** ** The cache *)

Definition cache_file (key : string) : string :=
  let encoded := Runtime.md5_hexdigest key in
  encoded ++ ".pkl".

Definition cache_get (name : string) : Prog PyObj :=
  let path := cache_file name in
  let* present := act (path_exists path) in
  if (present : bool) then call (pickle_load path) else Ret PyNone.

Definition _report_cache (cache_cb : option CacheCb) (name : string) (hit : bool)
    : Prog unit :=
  match cache_cb with
  | Some cb => try_except (call (call_cache_cb cb name hit)) (fun _ => Ret tt)
  | None => Ret tt
  end.

Definition cache_set (name : string) (obj : PyObj) : Prog unit :=
  let path := cache_file name in
  try_except (call (pickle_dump path obj))
    (fun e =>
       if is_PickleError e then
         Raise (CacheError ("Serialization error while saving cache for '" ++ name
                            ++ "': " ++ str_exc e))
       else if is_OSError e then
         Raise (CacheError ("File error while saving cache for '" ++ name
                            ++ "': " ++ str_exc e))
       else Raise e).

(** [try: cache_set(key, obj)  except CacheError as e: print(e)] *)
Definition try_cache_set (key : string) (obj : PyObj) : Prog unit :=
  try_except (cache_set key obj)
    (fun e => if is_CacheError e then act (print (str_exc e)) else Raise e).

Definition obj_of_graph (G : option Graph) : PyObj :=
  match G with Some g => PyGraph g | None => PyNone end.

Definition obj_of_frame (data : option GeoDataFrame) : PyObj :=
  match data with Some d => PyFrame d | None => PyNone end.

(** ** Lookups of coordinates and boundaries *)

(** The truth value of an object ([if cached:]). *)
Definition truth (o : PyObj) : Result bool :=
  match o with
  | PyNone => Ok false
  | PyGraph G => Ok (negb (graph_len G =? 0))
  | PyFrame _ => Err (ValueError "The truth value of a DataFrame is ambiguous.")
  | PyCoords _ _ => Ok true
  end.

Definition get_coordinates (city country : string) : Prog PyObj :=
  let coords := "coords_" ++ lower city ++ "_" ++ lower country in
  let* cached := cache_get coords in
  let* hit := lift (truth cached) in
  if (hit : bool) then
    act (print ("✓ Menggunakan koordinat cache untuk " ++ city ++ ", " ++ country));;
    Ret cached
  else
    act (print "Mencari koordinat...");;
    act (sleep 500);;
    let* location := call (geolocator_geocode (city ++ ", " ++ country)) in
    match location with
    | Some loc =>
        act (print ("✓ Ditemukan: " ++ address loc));;
        act (print ("✓ Koordinat: " ++ float_str (loc_latitude loc) ++ ", "
                    ++ float_str (loc_longitude loc)));;
        try_cache_set coords (PyCoords (loc_latitude loc) (loc_longitude loc));;
        Ret (PyCoords (loc_latitude loc) (loc_longitude loc))
    | None =>
        Raise (ValueError ("Could not find coordinates for " ++ city ++ ", " ++ country))
    end.

Definition boundary_slug (name : string) : string :=
  replace_char ","%char EmptyString (replace_char " "%char "_" name).

Definition fetch_subdistrict_boundary (subdistrict_name : string) : Prog PyObj :=
  let boundary_key := "boundary_" ++ boundary_slug subdistrict_name in
  let* cached := cache_get boundary_key in
  if negb (is_None cached) then
    act (print "✓ Menggunakan batas kecamatan cache");;
    Ret cached
  else
    try_except
      (let* gdf := call (ox_geocode_to_gdf subdistrict_name) in
       if empty gdf then
         act (print ("⚠ Tidak dapat menemukan batas untuk '" ++ subdistrict_name ++ "'"));;
         Ret PyNone
       else
         act (sleep 200);;
         try_cache_set boundary_key (PyFrame gdf);;
         Ret (PyFrame gdf))
      (fun e =>
         act (print ("Error OSMnx saat mengambil batas kecamatan: " ++ str_exc e));;
         Ret PyNone).

Definition fetch_city_boundary (city_name : string) : Prog PyObj :=
  let boundary_key := "boundary_city_" ++ boundary_slug city_name in
  let* cached := cache_get boundary_key in
  if negb (is_None cached) then
    act (print "✓ Menggunakan batas kota cache");;
    Ret cached
  else
    try_except
      (let* gdf := call (ox_geocode_to_gdf city_name) in
       if empty gdf then
         act (print ("⚠ Tidak dapat menemukan batas untuk '" ++ city_name ++ "'"));;
         Ret PyNone
       else
         act (sleep 200);;
         try_cache_set boundary_key (PyFrame gdf);;
         Ret (PyFrame gdf))
      (fun e =>
         act (print ("Error OSMnx saat mengambil batas kota: " ++ str_exc e));;
         Ret PyNone).

(** ** The four fetchers *)

Definition tag_keys (tags : Tags) : string := join "_" (map fst tags).

(** The keys, as the f-strings of the four fetchers build them. *)
Definition graph_key (proc : Process) (point : Point) (dist : Z) : string :=
  let '(lat, lon) := point in
  "graph_" ++ float_str lat ++ "_" ++ float_str lon ++ "_"
  ++ Runtime.str_int dist ++ "_" ++ OSM_NETWORK_TYPE proc.

Definition features_key (point : Point) (dist : Z) (tags : Tags) (name : string)
    : string :=
  let '(lat, lon) := point in
  let tag_str := tag_keys tags in
  name ++ "_" ++ float_str lat ++ "_" ++ float_str lon ++ "_"
  ++ Runtime.str_int dist ++ "_" ++ tag_str.

Definition graph_polygon_key (proc : Process) (geom : Geometry) : string :=
  "graph_polygon_" ++ Runtime.str_int (hash proc geom) ++ "_" ++ OSM_NETWORK_TYPE proc.

Definition features_polygon_key (proc : Process) (geom : Geometry) (tags : Tags)
    (name : string) : string :=
  let tag_str := tag_keys tags in
  name ++ "_polygon_" ++ Runtime.str_int (hash proc geom) ++ "_" ++ tag_str.

(** Each fetcher is its lookup (key, [cache_get], report) followed, on a
    miss, by its [try] block, which is named here. *)

(** The [try] block of [fetch_graph] (lines 298-312). *)
Definition download_graph (proc : Process) (point : Point) (dist : Z) (graph : string)
    : Prog PyObj :=
  try_except
    (let* G := call (ox_graph_from_point point dist (OSM_NETWORK_TYPE proc)) in
     match G with
     | Some g =>
         if graph_len g =? 0 then
           act (print ("Warning: Empty graph returned for point " ++ str_point point));;
           Ret PyNone
         else
           act (sleep 300);;
           try_cache_set graph (PyGraph g);;
           Ret (PyGraph g)
     | None =>
         act (print ("Warning: Empty graph returned for point " ++ str_point point));;
         Ret PyNone
     end)
    (fun e =>
       act (print ("Error OSMnx saat mengambil graph: " ++ str_exc e));;
       Ret PyNone).

Definition fetch_graph (proc : Process) (point : Point) (dist : Z)
    (cache_cb : option CacheCb) : Prog PyObj :=
  let graph := graph_key proc point dist in
  let* cached := cache_get graph in
  if negb (is_None cached) then
    act (print "✓ Menggunakan jaringan jalan cache");;
    _report_cache cache_cb "streets" true;;
    Ret cached
  else
    _report_cache cache_cb "streets" false;;
    download_graph proc point dist graph.

(** The [try] block of [fetch_features] (lines 325-340). *)
Definition download_features (point : Point) (dist : Z) (tags : Tags) (name : string)
    (features : string) : Prog PyObj :=
  try_except
    (let* data := call (ox_features_from_point point tags dist) in
     match data with
     | Some d =>
         if empty d then
           act (print ("No " ++ name ++ " features found"));;
           Ret PyNone
         else
           act (sleep 200);;
           try_cache_set features (PyFrame d);;
           Ret (PyFrame d)
     | None =>
         act (print ("No " ++ name ++ " features found"));;
         Ret PyNone
     end)
    (fun e =>
       act (print ("Error OSMnx saat mengambil fitur " ++ name ++ ": " ++ str_exc e));;
       Ret PyNone).

Definition fetch_features (point : Point) (dist : Z) (tags : Tags) (name : string)
    (cache_cb : option CacheCb) : Prog PyObj :=
  let features := features_key point dist tags name in
  let* cached := cache_get features in
  if negb (is_None cached) then
    act (print ("✓ Menggunakan cache " ++ name));;
    _report_cache cache_cb name true;;
    Ret cached
  else
    _report_cache cache_cb name false;;
    download_features point dist tags name features.

(** The [try] block of [fetch_graph_from_polygon] (lines 409-419). *)
Definition download_graph_from_polygon (proc : Process) (boundary : GeoDataFrame)
    (boundary_key : string) : Prog PyObj :=
  try_except
    (let* polygon := lift (iloc0 boundary) in
     let* G := call (ox_graph_from_polygon polygon (OSM_NETWORK_TYPE proc)) in
     act (sleep 200);;
     try_cache_set boundary_key (obj_of_graph G);;
     Ret (obj_of_graph G))
    (fun e =>
       act (print ("Error OSMnx saat mengambil graph dari polygon: " ++ str_exc e));;
       Ret PyNone).

Definition fetch_graph_from_polygon (proc : Process) (boundary : GeoDataFrame)
    (cache_cb : option CacheCb) : Prog PyObj :=
  let* geom := lift (iloc0 boundary) in
  let boundary_key := graph_polygon_key proc geom in
  let* cached := cache_get boundary_key in
  if negb (is_None cached) then
    act (print "✓ Menggunakan jaringan jalan cache untuk polygon");;
    _report_cache cache_cb "streets" true;;
    Ret cached
  else
    _report_cache cache_cb "streets" false;;
    download_graph_from_polygon proc boundary boundary_key.

(** The [try] block of [fetch_features_from_polygon] (lines 434-444). *)
Definition download_features_from_polygon (boundary : GeoDataFrame) (tags : Tags)
    (boundary_key : string) : Prog PyObj :=
  try_except
    (let* polygon := lift (iloc0 boundary) in
     let* data := call (ox_features_from_polygon polygon tags) in
     act (sleep 150);;
     try_cache_set boundary_key (obj_of_frame data);;
     Ret (obj_of_frame data))
    (fun e =>
       act (print ("Error OSMnx saat mengambil fitur dari polygon: " ++ str_exc e));;
       Ret PyNone).

Definition fetch_features_from_polygon (proc : Process) (boundary : GeoDataFrame)
    (tags : Tags) (name : string) (cache_cb : option CacheCb) : Prog PyObj :=
  let* geom := lift (iloc0 boundary) in
  let boundary_key := features_polygon_key proc geom tags name in
  let* cached := cache_get boundary_key in
  if negb (is_None cached) then
    act (print ("✓ Menggunakan cache " ++ name ++ " untuk polygon"));;
    _report_cache cache_cb name true;;
    Ret cached
  else
    _report_cache cache_cb name false;;
    download_features_from_polygon boundary tags boundary_key.

(** ** Themes *)

Definition dict_get (d : Theme) (key : string) : option string :=
  snd <$> List.find (fun kv => String.eqb (fst kv) key) d.

Definition default_theme : Theme :=
  [("name", "Feature-Based Shading"); ("bg", "#FFFFFF"); ("text", "#000000");
   ("gradient_color", "#FFFFFF"); ("water", "#C0C0C0"); ("parks", "#F0F0F0");
   ("road_motorway", "#0A0A0A"); ("road_primary", "#1A1A1A");
   ("road_secondary", "#2A2A2A"); ("road_tertiary", "#3A3A3A");
   ("road_residential", "#4A4A4A"); ("road_default", "#3A3A3A")].

(** The names of the [.json] files of the themes directory, sorted. *)
Definition get_available_themes : Prog (list string) := act listdir_themes.

Definition load_theme (theme_name : string) : Prog Theme :=
  let* found := act (read_theme theme_name) in
  match found with
  | None =>
      act (print ("⚠ File tema 'themes/" ++ theme_name
                  ++ ".json' tidak ditemukan. Menggunakan tema default feature_based."));;
      Ret default_theme
  | Some theme =>
      act (print ("✓ Tema dimuat: " ++ default theme_name (dict_get theme "name")));;
      match dict_get theme "description" with
      | Some d => act (print ("  " ++ d))
      | None => Ret tt
      end;;
      Ret theme
  end.

(** ** The poster *)

Definition water_tags : Tags := [("natural", "water"); ("waterway", "riverbank")].
Definition parks_tags : Tags := [("leisure", "park"); ("landuse", "grass")].

(** The closure [report] of [create_poster]. *)
Definition report (progress_cb : option ProgressCb) (status message : string)
    : Prog unit :=
  match progress_cb with
  | Some cb => try_except (call (call_progress_cb cb status message)) (fun _ => Ret tt)
  | None => Ret tt
  end.

(** [lat, lon = point] fails on [None]; both callers pass a distance
    whenever they pass a point. *)
Definition unpack (point : option Point) (dist : option Z) : Prog (Point * Z) :=
  match point, dist with
  | Some p, Some d => Ret (p, d)
  | _, _ => Raise (TypeError "cannot unpack non-iterable NoneType object")
  end.

Definition newline : string := String (ascii_of_nat 10) EmptyString.

(** [create_poster].  The canvas size, the resolution and the output file
    only matter to the renderer, whose behaviour is given by the
    environment stage by stage.  A stage is the code that follows one
    report; the stages of water, parks and the boundary draw their layer
    only when it is there and not empty (the boundary also only when its
    edge is to be shown), so a [render] event says that the stage was
    reached, not that something was drawn.  Left out: the line that prints the poster
    size, the console progress bar, and the reprojection of the layers
    between the fetch and the rendering, whose failures the code catches and
    prints as warnings.  The schedule orders the two workers of the pool that fetches
    water and parks.  The main thread's
    [report("fetching_parks", ...)] runs between the two submissions, so it
    is the first thing the second worker's program does. *)
Definition create_poster (env : Env) (proc : Process) (schedule : list nat)
    (city country : string) (point : option Point) (dist : option Z)
    (output_file : string) (boundary : option GeoDataFrame) (clean : bool)
    (progress_cb : option ProgressCb) (cache_cb : option CacheCb) : Job unit :=
  (let* fetch_boundary :=
     run env
       (act (print (newline ++ "Membuat peta untuk " ++ city ++ ", " ++ country ++ "..."));;
        match boundary, point, dist with
        | None, Some p, Some d => call (build_canvas p d)
        | _, _, _ => Ret boundary
        end) in
   let* G :=
     run env
       (report progress_cb "fetching_streets" "Mengunduh jaringan jalan...";;
        match fetch_boundary with
        | Some b => fetch_graph_from_polygon proc b cache_cb
        | None =>
            let* pd := unpack point dist in
            fetch_graph proc (fst pd) (snd pd) cache_cb
        end) in
   run env (report progress_cb "fetching_water" "Mengunduh fitur air...");;
   let* futures :=
     jpool env schedule
       [ match fetch_boundary with
         | Some b => fetch_features_from_polygon proc b water_tags "water" cache_cb
         | None =>
             let* pd := unpack point dist in
             fetch_features (fst pd) (snd pd) water_tags "water" cache_cb
         end;
         (report progress_cb "fetching_parks" "Mengunduh taman dan ruang hijau...";;
          match fetch_boundary with
          | Some b => fetch_features_from_polygon proc b parks_tags "parks" cache_cb
          | None =>
              let* pd := unpack point dist in
              fetch_features (fst pd) (snd pd) parks_tags "parks" cache_cb
          end) ]%prog in
   let* water := future 0 futures in
   let* parks := future 1 futures in
   if is_None G then
     jraise (ValueError
       "Gagal mengambil jaringan jalan (hasil kosong). Coba kurangi skala atau lokasi lain.")
   else
     run env
       (act (print "✓ Semua data berhasil diambil!");;
        act (print "Merender peta...");;
        report progress_cb "render_setup" "Menyiapkan kanvas render...";;
        call (render "setup");;
        report progress_cb "render_layers_water" "Menggambar layer air...";;
        call (render "water");;
        report progress_cb "render_layers_parks" "Menggambar layer ruang hijau...";;
        call (render "parks");;
        report progress_cb "render_boundary" "Menggambar garis batas wilayah...";;
        call (render "boundary");;
        act (print "Menerapkan warna hierarki jalan...");;
        report progress_cb "render_roads" "Menggambar jaringan jalan...";;
        call (render "roads");;
        (if clean then Ret tt
         else
           report progress_cb "render_gradients" "Menambahkan efek gradient...";;
           call (render "gradients"));;
        (if clean then Ret tt
         else
           report progress_cb "render_text" "Menambahkan tipografi...";;
           call (render "text"));;
        act (print ("Saving to " ++ output_file ++ "..."));;
        report progress_cb "render_save" "Menyimpan hasil poster...";;
        call (render "save");;
        act (print ("✓ Done! Poster saved as " ++ output_file))))%job.

(** ** Road styles *)

(** The ['highway'] attribute of an edge: one road type, or a list of road
    types. *)
Inductive Highway : Type :=
| HighwayStr (s : string)
| HighwayList (l : list string).

(** The [data] dict of an edge of [G.edges(data=True)], as the two style
    functions read it: its ['highway'] entry, if it has one. *)
Definition EdgeData : Type := option Highway.

(** [x in l] for a list of strings. *)
Definition isin (x : string) (l : list string) : bool := existsb (String.eqb x) l.

(** [THEME[key]] on the module's global [THEME], which is [None] until a
    theme is loaded; a missing key raises [KeyError]. *)
Definition subscript (THEME : option Theme) (key : string) : Result string :=
  match THEME with
  | None => Err (TypeError "'NoneType' object is not subscriptable")
  | Some theme =>
      match dict_get theme key with
      | Some v => Ok v
      | None => Err (OtherException ("'" ++ key ++ "'"))
      end
  end.

(** The highway type an edge is styled by. *)
Definition highway_type (data : EdgeData) : string :=
  match data with
  | None => "unclassified"
  | Some (HighwayStr s) => s
  | Some (HighwayList (first :: _)) => first
  | Some (HighwayList []) => "unclassified"
  end.

(** The body of the loop of [get_edge_colors_by_type]. *)
Definition edge_color (THEME : option Theme) (data : EdgeData) : Result string :=
  let highway := highway_type data in
  if isin highway ["motorway"; "motorway_link"]%list then subscript THEME "road_motorway"
  else if isin highway ["trunk"; "trunk_link"; "primary"; "primary_link"]%list
  then subscript THEME "road_primary"
  else if isin highway ["secondary"; "secondary_link"]%list
  then subscript THEME "road_secondary"
  else if isin highway ["tertiary"; "tertiary_link"]%list
  then subscript THEME "road_tertiary"
  else if isin highway ["residential"; "living_street"; "unclassified"]%list
  then subscript THEME "road_residential"
  else subscript THEME "road_default".

Fixpoint edge_colors_from (THEME : option Theme) (edges : list EdgeData)
    (edge_colors : list string) : Result (list string) :=
  match edges with
  | []%list => Ok edge_colors
  | (data :: rest)%list =>
      match edge_color THEME data with
      | Ok color => edge_colors_from THEME rest (edge_colors ++ [color])%list
      | Err e => Err e
      end
  end.

(** [get_edge_colors_by_type(G)], with the edges of [G] given by their
    [data]; [None] is [G is None]. *)
Definition get_edge_colors_by_type (THEME : option Theme) (G : option (list EdgeData))
    : Result (list string) :=
  match G with
  | None => Err (ValueError "Graph tidak tersedia untuk pewarnaan jalan.")
  | Some edges => edge_colors_from THEME edges []%list
  end.

(** The body of the loop of [get_edge_widths_by_type]. *)
Definition edge_width (data : EdgeData) : Q :=
  let highway := highway_type data in
  if isin highway ["motorway"; "motorway_link"]%list then 1.2%Q
  else if isin highway ["trunk"; "trunk_link"; "primary"; "primary_link"]%list then 1.0%Q
  else if isin highway ["secondary"; "secondary_link"]%list then 0.8%Q
  else if isin highway ["tertiary"; "tertiary_link"]%list then 0.6%Q
  else 0.4%Q.

Fixpoint edge_widths_from (edges : list EdgeData) (edge_widths : list Q) : list Q :=
  match edges with
  | []%list => edge_widths
  | (data :: rest)%list => edge_widths_from rest (edge_widths ++ [edge_width data])%list
  end.

Definition get_edge_widths_by_type (G : option (list EdgeData)) : Result (list Q) :=
  match G with
  | None => Err (ValueError "Graph tidak tersedia untuk lebar jalan.")
  | Some edges => Ok (edge_widths_from edges []%list)
  end.

End create_map_poster.

(* ===================================================================== *)
(** * app.py                                                              *)
(* ===================================================================== *)

Module app.

Import create_map_poster.
Local Open Scope prog_scope.

(** ** The parallel fetch round *)

Record Results := { G : PyObj; water : PyObj; parks : PyObj }.

Definition fetching (status message : string) : JobStatus :=
  {| js_status := Some status; js_message := Some message; js_started_at := None;
     js_cancelled := None; js_cache_hits := None; js_details := Some StepsOfRound;
     js_files := None; js_file := None |}.

Definition cache_hits_payload (cell : HitsCell) : JobStatus :=
  {| js_status := None; js_message := None; js_started_at := None;
     js_cancelled := None; js_cache_hits := Some cell; js_details := None;
     js_files := None; js_file := None |}.

(** The locals [progress_steps] and [cache_hits] of a new round. *)
Definition new_round : Job unit :=
  fun w =>
    (Ok tt,
     with_registry
       {| progress_status := progress_status (registry w);
          progress_steps :=
            <["fetching_streets" := 0]> (<["fetching_water" := 0]>
              (<["fetching_parks" := 0]> ∅));
          cache_hits :=
            <["streets" := false]> (<["water" := false]> (<["parks" := false]> ∅)) |}
       w).

(** The closure [cache_cb] of [fetch_map_data_parallel]. *)
Definition round_cache_cb (task_id : string) : CacheCb :=
  fun name hit r =>
    let hits :=
      match cache_hits r !! name with
      | Some _ => <[name := hit]> (cache_hits r)
      | None => cache_hits r
      end in
    (_update_progress task_id (cache_hits_payload HitsOfRound)
       {| progress_status := progress_status r;
          progress_steps := progress_steps r;
          cache_hits := hits |},
     None).

Definition fetch_streets (proc : Process) (boundary : option GeoDataFrame)
    (point : option Point) (dist : option Z) (task_id : string) : Prog PyObj :=
  act (set_progress_step "fetching_streets" 10);;
  act (update_progress task_id (fetching "fetching_streets" "Mengunduh jaringan jalan..."));;
  let* cancelled := act (is_cancelled task_id) in
  if (cancelled : bool) then Ret PyNone
  else
    match boundary with
    | Some b => fetch_graph_from_polygon proc b (Some (round_cache_cb task_id))
    | None =>
        let* pd := unpack point dist in
        fetch_graph proc (fst pd) (snd pd) (Some (round_cache_cb task_id))
    end.

(** The branch shared by [fetch_water] and [fetch_parks]. *)
Definition fetch_layer (proc : Process) (boundary : option GeoDataFrame)
    (point : option Point) (dist : option Z) (tags : Tags) (name : string)
    (task_id : string) : Prog PyObj :=
  match boundary with
  | Some b =>
      if negb (empty b) then
        fetch_features_from_polygon proc b tags name (Some (round_cache_cb task_id))
      else
        let* pd := unpack point dist in
        fetch_features (fst pd) (snd pd) tags name (Some (round_cache_cb task_id))
  | None =>
      let* pd := unpack point dist in
      fetch_features (fst pd) (snd pd) tags name (Some (round_cache_cb task_id))
  end.

Definition fetch_water (proc : Process) (boundary : option GeoDataFrame)
    (point : option Point) (dist : option Z) (task_id : string) : Prog PyObj :=
  act (set_progress_step "fetching_water" 10);;
  act (update_progress task_id (fetching "fetching_water" "Mengunduh fitur air..."));;
  let* cancelled := act (is_cancelled task_id) in
  if (cancelled : bool) then Ret PyNone
  else
    try_except
      (fetch_layer proc boundary point dist water_tags "water" task_id)
      (fun e =>
         act (print ("Warning: Failed to fetch water: " ++ str_exc e));;
         Ret PyNone).

Definition fetch_parks (proc : Process) (boundary : option GeoDataFrame)
    (point : option Point) (dist : option Z) (task_id : string) : Prog PyObj :=
  act (set_progress_step "fetching_parks" 10);;
  act (update_progress task_id
         (fetching "fetching_parks" "Mengunduh taman dan ruang hijau..."));;
  let* cancelled := act (is_cancelled task_id) in
  if (cancelled : bool) then Ret PyNone
  else
    try_except
      (fetch_layer proc boundary point dist parks_tags "parks" task_id)
      (fun e =>
         act (print ("Warning: Failed to fetch parks: " ++ str_exc e));;
         Ret PyNone).

(** The update the coordinator publishes once the round is over. *)
Definition all_fetched : JobStatus :=
  fetching "fetching_data" "Semua data berhasil diambil".

(** [fetch_map_data_parallel]: worker 0 fetches the streets, worker 1 the
    water, worker 2 the parks. *)
Definition fetch_map_data_parallel (env : Env) (proc : Process) (schedule : list nat)
    (boundary : option GeoDataFrame) (point : option Point) (dist : option Z)
    (task_id : string) : Job Results :=
  (new_round;;
   let* futures :=
     jpool env schedule
       [fetch_streets proc boundary point dist task_id;
        fetch_water proc boundary point dist task_id;
        fetch_parks proc boundary point dist task_id] in
   let* streets := future 0 futures in
   let* water := future 1 futures in
   let* parks := future 2 futures in
   run env
     (act (set_progress_step "fetching_streets" 100);;
      act (set_progress_step "fetching_water" 100);;
      act (set_progress_step "fetching_parks" 100);;
      act (update_progress task_id all_fetched));;
   if is_None streets then jraise (ValueError "Failed to fetch street network data")
   else jret {| G := streets; water := water; parks := parks |})%job.

(** ** The percentage shown for each phase ([api_progress]) *)

Definition status_percent_map : list (string * Z) :=
  [("starting", 5); ("validating", 10); ("loading_theme", 15);
   ("fetching_data", 20); ("fetching_boundary", 25); ("geocoding", 25);
   ("fetching_streets", 35); ("fetching_water", 45); ("fetching_parks", 55);
   ("render_setup", 60); ("render_layers_water", 65); ("render_layers_parks", 70);
   ("render_boundary", 75); ("render_roads", 85); ("render_gradients", 90);
   ("render_text", 95); ("render_save", 97); ("completed", 100)].

(** [status_percent_map.get(status)] *)
Definition percent_of (status : string) : option Z :=
  snd <$> List.find (fun kv => String.eqb (fst kv) status) status_percent_map.

(** [status['percent']] as [api_progress] computes it; no update ever sets
    a ['percent'] key, so the default of the lookup is absent. *)
Definition api_progress_percent (job : JobStatus) : option Z :=
  match js_status job with
  | Some s => percent_of s
  | None => None
  end.

(** ** The orchestrator *)

(** The request's JSON body, with the defaults of [data.get] applied and
    its numbers converted (lines 327-374); a body whose conversion fails is
    the matter of [create_poster_async_body].  The canvas size, unit,
    quality and resolution only reach the renderer. *)
Record RequestData := {
  kota : option string;
  negara : option string;
  kecamatan : option string;
  use_coordinates : bool;
  latitude : option PyFloat;
  longitude : option PyFloat;
  custom_city : option string;
  custom_country : option string;
  tema : string;
  custom_theme : option Theme;
  skala : Z;
  format_output : string;
  use_delineation : bool;
  clean : bool;
  all_themes : bool
}.

(** Which branch of the [if]/[elif] chain of lines 407-444 runs. *)
Inductive LocationMode : Type :=
| ByCoordinates
| BySubdistrict
| ByCityBoundary
| ByCountryBoundary
| ByGeocoding.

Definition location_mode (data : RequestData) : LocationMode :=
  if use_coordinates data then ByCoordinates
  else if truthy (kecamatan data) then BySubdistrict
  else if use_delineation data && truthy (kota data) && truthy (negara data)
  then ByCityBoundary
  else if negb (truthy (kota data)) && truthy (negara data) then ByCountryBoundary
  else ByGeocoding.

(** [x or fallback] for an optional string. *)
Definition or_else (x : option string) (fallback : string) : string :=
  match x with
  | Some (String c rest) => String c rest
  | _ => fallback
  end.

(** [x is None] *)
Definition is_absent {A} (x : option A) : bool :=
  match x with Some _ => false | None => true end.

(** [f"{x}"] for an optional string. *)
Definition fmt (x : option string) : string := default "None" x.

Definition dquote : string := String (ascii_of_nat 34) EmptyString.

Definition error (message : string) : JobStatus := status_message "error" message.

(** What the location resolves to. *)
Record Resolved := {
  boundary : option GeoDataFrame;
  coords : PyObj;
  location_name : string;
  location_country : string
}.

(** [if boundary is None or boundary.empty: ... return] *)
Definition usable_boundary (task_id : string) (found : PyObj) (failure : string)
    (name country : string) : Prog (option Resolved) :=
  match found with
  | PyNone => act (update_progress task_id (error failure));; Ret None
  | PyFrame b =>
      if empty b then act (update_progress task_id (error failure));; Ret None
      else Ret (Some {| boundary := Some b; coords := PyNone;
                        location_name := name; location_country := country |})
  | _ => Raise (OtherException "object has no attribute 'empty'")
  end.

Definition resolve_location (task_id : string) (data : RequestData)
    : Prog (option Resolved) :=
  match location_mode data with
  | ByCoordinates =>
      match latitude data, longitude data with
      | Some lat, Some lon =>
          Ret (Some {| boundary := None; coords := PyCoords lat lon;
                       location_name := or_else (custom_city data) "Lokasi Kustom";
                       location_country := or_else (custom_country data) EmptyString |})
      | _, _ =>
          Raise (TypeError "float() argument must be a string or a real number, not 'NoneType'")
      end
  | BySubdistrict =>
      let name := fmt (kecamatan data) in
      act (update_progress task_id
             (status_message "fetching_boundary"
                ("Mengambil batas untuk kecamatan: " ++ name)));;
      let* found := fetch_subdistrict_boundary name in
      usable_boundary task_id found
        "Tidak dapat mengambil batas kecamatan. Pastikan nama kecamatan lengkap dengan kota dan negara."
        name EmptyString
  | ByCityBoundary =>
      let name := fmt (kota data) ++ ", " ++ fmt (negara data) in
      act (update_progress task_id
             (status_message "fetching_boundary" ("Mengambil batas untuk " ++ name)));;
      let* found := fetch_city_boundary name in
      usable_boundary task_id found
        ("Tidak dapat menemukan batas untuk " ++ name ++ ". Coba gunakan radius biasa.")
        name (fmt (negara data))
  | ByCountryBoundary =>
      let name := fmt (negara data) in
      act (update_progress task_id
             (status_message "fetching_boundary" ("Mengambil batas untuk " ++ name)));;
      let* found := fetch_city_boundary name in
      usable_boundary task_id found
        ("Tidak dapat menemukan batas untuk " ++ name ++ ".") name name
  | ByGeocoding =>
      let name := fmt (kota data) ++ ", " ++ fmt (negara data) in
      act (update_progress task_id
             (status_message "geocoding" ("Mencari koordinat untuk " ++ name)));;
      match kota data, negara data with
      | Some city, Some country =>
          let* found := get_coordinates city country in
          if is_None found then
            act (update_progress task_id
                   (error ("Tidak dapat menemukan koordinat untuk " ++ name
                           ++ ". Pastikan nama kota dan negara benar.")));;
            Ret None
          else
            Ret (Some {| boundary := None; coords := found;
                         location_name := name;
                         location_country := or_else (negara data) EmptyString |})
      | _, _ => Raise (OtherException "'NoneType' object has no attribute 'lower'")
      end
  end.

(** The closure [report] of [create_poster_async]. *)
Definition report (task_id : string) : ProgressCb :=
  fun status message r =>
    if _is_cancelled task_id r then (r, Some (RuntimeError "cancelled"))
    else (_update_progress task_id (status_message status message) r, None).

(** The closure [cache_cb] of [create_poster_async]: it changes the dict
    found under ['cache_hits'] in place and stores it again. *)
Definition cache_cb (task_id : string) : CacheCb :=
  fun name hit r =>
    match js_cache_hits (default no_fields (progress_status r !! task_id)) with
    | Some HitsOfRound =>
        (_update_progress task_id (cache_hits_payload HitsOfRound)
           {| progress_status := progress_status r;
              progress_steps := progress_steps r;
              cache_hits := <[name := hit]> (cache_hits r) |},
         None)
    | Some (HitsDict d) =>
        (_update_progress task_id (cache_hits_payload (HitsDict (<[name := hit]> d))) r,
         None)
    | None =>
        (_update_progress task_id (cache_hits_payload (HitsDict (<[name := hit]> ∅))) r,
         None)
    end.

(** The handler of the inner [try] (lines 502-509). *)
Definition on_poster_error (task_id : string) (output_file : option string) (e : Exc)
    : Prog unit :=
  match output_file with
  | Some file =>
      let* present := act (os_path_exists file) in
      if (present : bool) then act (os_unlink file) else Ret tt
  | None =>
      Raise (TypeError "stat: path should be string, bytes, os.PathLike or integer, not NoneType")
  end;;
  if String.eqb (str_exc e) "cancelled" then
    act (update_progress task_id (error "Dibatalkan oleh pengguna"))
  else
    act (update_progress task_id (error ("Error saat membuat poster: " ++ str_exc e))).

(** [s.split(',')] *)
Fixpoint split_commas (s : string) : list string :=
  match s with
  | EmptyString => [EmptyString]
  | String c rest =>
      if Ascii.eqb c ","%char then EmptyString :: split_commas rest
      else
        match split_commas rest with
        | part :: parts => String c part :: parts
        | [] => [String c EmptyString]
        end
  end.

Definition is_space (c : ascii) : bool :=
  let n := nat_of_ascii c in
  (n =? 32)%nat || ((9 <=? n)%nat && (n <=? 13)%nat).

Fixpoint lstrip (s : string) : string :=
  match s with
  | String c rest => if is_space c then lstrip rest else s
  | EmptyString => EmptyString
  end.

Fixpoint rstrip (s : string) : string :=
  match s with
  | EmptyString => EmptyString
  | String c rest =>
      match rstrip rest with
      | EmptyString => if is_space c then EmptyString else String c EmptyString
      | kept => String c kept
      end
  end.

(** [s.strip()] *)
Definition strip (s : string) : string := rstrip (lstrip s).

Definition display_city (location_name : string) : string :=
  match split_commas location_name with
  | first :: _ :: _ => strip first
  | _ => location_name
  end.

Definition display_country (location_name : string) : string :=
  match split_commas location_name with
  | _ :: (_ :: _) as rest => strip (join ", " rest)
  | _ => EmptyString
  end.

(** Where a theme loop ends: past its last theme, or inside the loop, by
    [return] or in the handler of the [try]. *)
Inductive LoopEnd : Type :=
| LoopDone (output_file : option string) (output_files : list OutputFile)
| JobEnded.

(** The [for theme_name in theme_list] loop of either branch; [poster] is
    the branch's call of [create_poster].  Nothing else in the [try] block
    can raise in this model, so the handler is attached to that call. *)
Fixpoint theme_loop (env : Env) (task_id : string) (data : RequestData)
    (poster : string -> Job unit) (theme_list : list string)
    (output_file : option string) (output_files : list OutputFile) : Job LoopEnd :=
  match theme_list with
  | [] => jret (LoopDone output_file output_files)
  | theme_name :: rest =>
      (let* theme_data :=
         run env
           (if String.eqb theme_name "custom" then Ret (custom_theme data)
            else let* theme := load_theme theme_name in Ret (Some theme)) in
       match theme_data with
       | None =>
           run env
             (act (update_progress task_id
                     (error ("Gagal memuat tema " ++ dquote ++ theme_name ++ dquote))));;
           jret JobEnded
       | Some _ =>
           let* file :=
             run env (act (named_temporary_file ("." ++ format_output data))) in
           let output_files' :=
             (output_files ++ [{| out_file := file; out_theme := theme_name;
                                  out_format := format_output data |}])%list in
           let* raised :=
             jtry (poster file;; jret false)
                  (fun e => run env (on_poster_error task_id (Some file) e);; jret true) in
           if (raised : bool) then jret JobEnded
           else theme_loop env task_id data poster rest (Some file) output_files'
       end)%job
  end.

Definition completed (output_file : option string) (output_files : list OutputFile)
    : JobStatus :=
  match output_files with
  | _ :: _ =>
      {| js_status := Some "completed"; js_message := Some "Poster berhasil dibuat!";
         js_started_at := None; js_cancelled := None; js_cache_hits := None;
         js_details := None; js_files := Some output_files; js_file := None |}
  | [] =>
      {| js_status := Some "completed"; js_message := Some "Poster berhasil dibuat!";
         js_started_at := None; js_cancelled := None; js_cache_hits := None;
         js_details := None; js_files := None; js_file := Some output_file |}
  end.

Definition point_of (o : PyObj) : option Point :=
  match o with PyCoords lat lon => Some (lat, lon) | _ => None end.

(** Lines 446-509: the posters of the resolved location, one per theme. *)
Definition make_posters (env : Env) (proc : Process) (schedule : list nat)
    (task_id : string) (data : RequestData) (theme_list : list string)
    (place : Resolved) : Job unit :=
  (run env
     (act (update_progress task_id (status_message "fetching_data" "Mengunduh data peta...")));;
   let poster : string -> Job unit :=
     match boundary place with
     | Some b =>
         fun file =>
           create_poster env proc schedule
             (display_city (location_name place)) (display_country (location_name place))
             None None file (Some b) (clean data)
             (Some (report task_id)) (Some (cache_cb task_id))
     | None =>
         let city_label :=
           if use_coordinates data && truthy (custom_city data) then custom_city data
           else kota data in
         let country_label :=
           if use_coordinates data && truthy (custom_country data)
           then or_else (custom_country data) EmptyString
           else location_country place in
         fun file =>
           create_poster env proc schedule
             (or_else city_label "LOKASI") country_label
             (point_of (coords place)) (Some (skala data)) file None (clean data)
             (Some (report task_id)) (Some (cache_cb task_id))
     end in
   let* ended := theme_loop env task_id data poster theme_list None [] in
   match ended with
   | LoopDone output_file output_files =>
       run env (act (update_progress task_id (completed output_file output_files)))
   | JobEnded => jret tt
   end)%job.

Definition starting (now : Z) : JobStatus :=
  {| js_status := Some "starting"; js_message := Some "Memulai pembuatan poster...";
     js_started_at := Some now; js_cancelled := Some false;
     js_cache_hits := Some (HitsDict ∅); js_details := None;
     js_files := None; js_file := None |}.

Definition theme_list_of (data : RequestData) (available_themes : list string)
    : list string :=
  if String.eqb (tema data) "custom" then ["custom"]
  else if all_themes data then available_themes
  else [tema data].

(** Lines 384-391: the message of the error status when a required
    parameter is missing. *)
Definition missing_parameters (data : RequestData) : option string :=
  if use_coordinates data then
    if is_absent (latitude data) || is_absent (longitude data)
    then Some "Latitude dan longitude wajib diisi"
    else None
  else if negb (truthy (kecamatan data)) && negb (truthy (negara data))
  then Some "Isi kecamatan, atau kota + negara, atau negara saja"
  else None.

(** The ["starting"] update and lines 376-444, validation and resolution,
    for parameters that lines 327-374 have extracted; [None] when the job
    has already ended with an error status. *)
Definition prepare (task_id : string) (data : RequestData)
    : Prog (option (list string * Resolved)) :=
  let* now := act time_time in
  act (update_progress task_id (starting now));;
  act (update_progress task_id (status_message "validating" "Memvalidasi input..."));;
  let* available_themes := get_available_themes in
  if negb (String.eqb (tema data) "custom")
     && negb (existsb (String.eqb (tema data)) available_themes) then
    act (update_progress task_id
           (error ("Tema " ++ dquote ++ tema data ++ dquote ++ " tidak ditemukan")));;
    Ret None
  else
    match missing_parameters data with
    | Some complaint => act (update_progress task_id (error complaint));; Ret None
    | None =>
        act (update_progress task_id (status_message "loading_theme" "Memuat tema..."));;
        let* place := resolve_location task_id data in
        match place with
        | Some r => Ret (Some (theme_list_of data available_themes, r))
        | None => Ret None
        end
    end.

Definition create_poster_async (env : Env) (proc : Process) (schedule : list nat)
    (task_id : string) (data : RequestData) : Job unit :=
  jtry
    (let* ready := run env (prepare task_id data) in
     match ready with
     | Some (theme_list, place) =>
         make_posters env proc schedule task_id data theme_list place
     | None => jret tt
     end)%job
    (fun e =>
       let msg :=
         if String.eqb (str_exc e) "cancelled" then "Dibatalkan oleh pengguna"
         else "Error tidak terduga: " ++ str_exc e in
       run env (act (update_progress task_id (error msg)))).

(** ** The routes that read the registry *)

(** An entry of ['files'] as [api_progress] lists it: its position, theme
    and format, without the path. *)
Record ListedFile := { listed_index : nat; listed_theme : string; listed_format : string }.

(** The value under ['files'] in a reply: the list as the orchestrator
    stored it, or the list without the paths. *)
Inductive FilesField : Type :=
| FilesStored (files : list OutputFile)
| FilesListed (files : list ListedFile).

(** The JSON object [api_progress] returns for a job that has a record: the
    copy of the record and the keys the route adds.  A key that is absent
    is [None]; ['percent'] is always present, and holds [None] for a status
    that has no percentage. *)
Record ProgressReply := {
  pr_status : option string;
  pr_message : option string;
  pr_started_at : option Z;
  pr_cancelled : option bool;
  pr_cache_hits : option HitsCell;
  pr_details : option StepsCell;
  pr_files : option FilesField;
  pr_file : option (option string);
  pr_percent : option Z;
  pr_elapsed_seconds : option Z;
  pr_eta_seconds : option Q
}.

(** [[{'index': idx, 'theme': ..., 'format': ...} for idx, f in
    enumerate(files)]], counting from [idx]. *)
Fixpoint list_files (idx : nat) (files : list OutputFile) : list ListedFile :=
  match files with
  | []%list => []%list
  | (f :: rest)%list =>
      ({| listed_index := idx; listed_theme := out_theme f; listed_format := out_format f |}
       :: list_files (S idx) rest)%list
  end.

(** [max(0, x)] *)
Definition max0 (x : Q) : Q := if Qle_bool x 0 then 0%Q else x.

(** [api_progress(task_id)] at time [now]; [None] is the reply
    [{'status': 'not_found'}]. *)
Definition api_progress (now : Z) (r : Registry) (task_id : string)
    : option ProgressReply :=
  match progress_status r !! task_id with
  | Some status =>
      let percent := api_progress_percent status in
      let elapsed :=
        match js_started_at status with
        | Some started_at =>
            if started_at =? 0 then None else Some (Z.max 0 (now - started_at))
        | None => None
        end in
      let eta :=
        match elapsed, percent with
        | Some elapsed, Some percent =>
            if 0 <? percent then
              let remaining :=
                (inject_Z elapsed * (100 / inject_Z percent - 1))%Q in
              Some (max0 remaining)
            else None
        | _, _ => None
        end in
      let completed :=
        match js_status status with
        | Some s => String.eqb s "completed"
        | None => false
        end in
      Some {| pr_status := js_status status;
              pr_message := js_message status;
              pr_started_at := js_started_at status;
              pr_cancelled := js_cancelled status;
              pr_cache_hits := js_cache_hits status;
              pr_details := js_details status;
              pr_files :=
                match js_files status with
                | Some (f :: rest)%list =>
                    if completed then Some (FilesListed (list_files 0 (f :: rest)))
                    else Some (FilesStored (f :: rest))
                | Some []%list => Some (FilesStored [])
                | None => None
                end;
              pr_file := if completed then None else js_file status;
              pr_percent := percent;
              pr_elapsed_seconds := elapsed;
              pr_eta_seconds := eta |}
  | None => None
  end.

(** What a route answers: a file sent with [send_file], or a JSON error
    with its HTTP status. *)
Inductive Response : Type :=
| SendFile (path : string) (download_name : option string) (mimetype : option string)
    (as_attachment : bool)
| JsonError (message : string) (code : Z).

(** The ['data'] argument of a download, parsed: the keys the route reads,
    [None] for a key that is absent or null; [dl_format] is
    [data.get('format', 'png')]. *)
Record DownloadData := {
  dl_kecamatan : option string;
  dl_custom_city : option string;
  dl_kota : option string;
  dl_negara : option string;
  dl_format : string
}.

(** The query string of a download or a preview: [q_index] is
    [int(request.args.get('index', 0))], [None] when [int] raises
    [ValueError]; [q_data] is the parsed ['data'] argument (the empty object
    when the argument is absent), [None] when reading it raises. *)
Record FileQuery := { q_index : option Z; q_data : option DownloadData }.

(** [files[index]] after [index = max(0, min(index, len(files) - 1))]. *)
Definition file_at (files : list OutputFile) (q : FileQuery) : Result OutputFile :=
  let index := default 0 (q_index q) in
  let index := Z.max 0 (Z.min index (Z.of_nat (length files) - 1)) in
  match nth_error files (Z.to_nat index) with
  | Some f => Ok f
  | None => Err (IndexError "list index out of range")
  end.

(** [file_path and os.path.exists(file_path)], with the files that exist
    taken from the world. *)
Definition servable (w : World) (file_path : option string) : option string :=
  match file_path with
  | Some (String c rest) =>
      if existsb (String.eqb (String c rest)) (temp_outputs w) then Some (String c rest)
      else None
  | _ => None
  end.

(** The name a download is sent under. *)
Definition download_name (q : FileQuery) (theme_name : option string) : string :=
  match q_data q with
  | Some data =>
      let location_name :=
        if truthy (dl_kecamatan data) then fmt (dl_kecamatan data)
        else if truthy (dl_custom_city data) then fmt (dl_custom_city data)
        else if truthy (dl_kota data) && truthy (dl_negara data)
        then fmt (dl_kota data) ++ ", " ++ fmt (dl_negara data)
        else or_else (dl_negara data) "poster" in
      let format_output := dl_format data in
      let theme_suffix :=
        match theme_name with
        | Some (String c rest) => "_" ++ String c rest
        | _ => EmptyString
        end in
      "poster_" ++ boundary_slug location_name ++ theme_suffix ++ "." ++ format_output
  | None => "poster." ++ "png"
  end.

Definition not_found : Response := JsonError "File not found" 404.

(** [api_download(task_id)] *)
Definition api_download (w : World) (task_id : string) (q : FileQuery) : Result Response :=
  match progress_status (registry w) !! task_id with
  | Some status =>
      if default false (String.eqb "completed" <$> js_status status) then
        match js_files status with
        | Some (f :: rest)%list =>
            match file_at (f :: rest) q with
            | Ok chosen =>
                match servable w (Some (out_file chosen)) with
                | Some file_path =>
                    Ok (SendFile file_path
                          (Some (download_name q (Some (out_theme chosen)))) None true)
                | None => Ok not_found
                end
            | Err e => Err e
            end
        | _ =>
            match servable w (default None (js_file status)) with
            | Some file_path => Ok (SendFile file_path (Some (download_name q None)) None true)
            | None => Ok not_found
            end
        end
      else Ok not_found
  | None => Ok not_found
  end.

(** [os.path.splitext(p)[1]] on POSIX: the extension starts at the last dot
    of the last component, unless only dots come before it there. *)
Fixpoint after_last (sep : ascii) (s : string) : option string :=
  match s with
  | EmptyString => None
  | String c rest =>
      match after_last sep rest with
      | Some tail => Some tail
      | None => if Ascii.eqb c sep then Some rest else None
      end
  end.

Fixpoint only_dots (s : string) : bool :=
  match s with
  | EmptyString => true
  | String c rest => Ascii.eqb c "." && only_dots rest
  end.

Definition splitext_ext (p : string) : string :=
  let name := default p (after_last "/" p) in
  match after_last "." name with
  | Some tail =>
      let stem := substring 0 (String.length name - String.length tail - 1) name in
      if only_dots stem then EmptyString else String "." tail
  | None => EmptyString
  end.

(** [api_preview(task_id)] *)
Definition api_preview (w : World) (task_id : string) (q : FileQuery) : Result Response :=
  match progress_status (registry w) !! task_id with
  | Some status =>
      if default false (String.eqb "completed" <$> js_status status) then
        let chosen :=
          match js_files status with
          | Some (f :: rest)%list =>
              match file_at (f :: rest) q with
              | Ok chosen => Ok (Some (out_file chosen))
              | Err e => Err e
              end
          | _ => Ok (default None (js_file status))
          end in
        match chosen with
        | Ok file_path =>
            match servable w file_path with
            | Some file_path =>
                let ext := lower (splitext_ext file_path) in
                if negb (isin ext [".png"; ".svg"; ".pdf"]%list) then
                  Ok (JsonError "Preview hanya tersedia untuk PNG/SVG/PDF" 415)
                else
                  let mimetype :=
                    if String.eqb ext ".png" then "image/png"
                    else if String.eqb ext ".svg" then "image/svg+xml"
                    else "application/pdf" in
                  Ok (SendFile file_path None (Some mimetype) false)
            | None => Ok not_found
            end
        | Err e => Err e
        end
      else Ok not_found
  | None => Ok not_found
  end.

(** ** The request as it arrives *)



End app.

(* ===================================================================== *)
(** * Vocabulary of the statements                                        *)
(* ===================================================================== *)

Import create_map_poster app.
Local Open Scope list_scope.
Local Open Scope prog_scope.

(** ** The fetchers *)

(** The four fetchers, as one family. *)
Inductive Fetch : Type :=
| FetchGraph (point : Point) (dist : Z)
| FetchFeatures (point : Point) (dist : Z) (tags : Tags) (name : string)
| FetchGraphFromPolygon (boundary : GeoDataFrame)
| FetchFeaturesFromPolygon (boundary : GeoDataFrame) (tags : Tags) (name : string).

Definition fetcher (proc : Process) (f : Fetch) (cache_cb : option CacheCb) : Prog PyObj :=
  match f with
  | FetchGraph point dist => fetch_graph proc point dist cache_cb
  | FetchFeatures point dist tags name => fetch_features point dist tags name cache_cb
  | FetchGraphFromPolygon boundary => fetch_graph_from_polygon proc boundary cache_cb
  | FetchFeaturesFromPolygon boundary tags name =>
      fetch_features_from_polygon proc boundary tags name cache_cb
  end.

(** The key a fetcher looks up, when computing it does not raise. *)
Definition key_of (proc : Process) (f : Fetch) : Result string :=
  match f with
  | FetchGraph point dist => Ok (graph_key proc point dist)
  | FetchFeatures point dist tags name => Ok (features_key point dist tags name)
  | FetchGraphFromPolygon boundary =>
      match iloc0 boundary with
      | Ok geom => Ok (graph_polygon_key proc geom)
      | Err e => Err e
      end
  | FetchFeaturesFromPolygon boundary tags name =>
      match iloc0 boundary with
      | Ok geom => Ok (features_polygon_key proc geom tags name)
      | Err e => Err e
      end
  end.

(** The dataset name a fetcher reports to its callback. *)
Definition dataset (f : Fetch) : string :=
  match f with
  | FetchGraph _ _ | FetchGraphFromPolygon _ => "streets"
  | FetchFeatures _ _ _ name | FetchFeaturesFromPolygon _ _ name => name
  end.

(** The line a fetcher prints on a hit. *)
Definition hit_message (f : Fetch) : string :=
  match f with
  | FetchGraph _ _ => "✓ Menggunakan jaringan jalan cache"
  | FetchFeatures _ _ _ name => "✓ Menggunakan cache " +:+ name
  | FetchGraphFromPolygon _ => "✓ Menggunakan jaringan jalan cache untuk polygon"
  | FetchFeaturesFromPolygon _ _ name =>
      "✓ Menggunakan cache " +:+ name +:+ " untuk polygon"
  end.

(** ** Runs, lookups and cache writes *)

(** What [cache_get] finds on a disk. *)
Definition cached_value (d : gmap string Entry) (name : string) : Result PyObj :=
  match d !! cache_file name with
  | Some (Pickled obj) => Ok obj
  | Some Truncated => Err (EOFError "Ran out of input")
  | None => Ok PyNone
  end.

(** The result and the final world of a run. *)
Definition result_of {R} (env : Env) (p : Prog R) (w : World) : Result R :=
  fst (run env p w).
Definition world_after {R} (env : Env) (p : Prog R) (w : World) : World :=
  snd (run env p w).

(** Calls of a cache callback among the events. *)
Definition is_cache_cb (ev : Event) : bool :=
  match ev with ECacheCb _ _ => true | _ => false end.

(** What [cache_set] returns or raises, by the way the write ends. *)
Definition cache_set_outcome (name : string) (o : DumpOutcome) : Result unit :=
  match o with
  | DumpOk => Ok tt
  | DumpFails (SerializationFailure m) =>
      Err (CacheError ("Serialization error while saving cache for '" +:+ name
                       +:+ "': " +:+ m))
  | DumpFails (StorageFailure m _) =>
      Err (CacheError ("File error while saving cache for '" +:+ name +:+ "': " +:+ m))
  | DumpFails (OtherFailure m _) => Err (OtherException m)
  | DumpFails (UnpicklableFailure m) => Err (TypeError m)
  end.

(** [try: cache_set(...) except CacheError as e: print(e)] lets only
    exceptions other than [CacheError] through, and prints the message of
    the [CacheError] it swallows. *)
Definition persist_outcome (o : DumpOutcome) : Result unit :=
  match o with
  | DumpFails (OtherFailure m _) => Err (OtherException m)
  | DumpFails (UnpicklableFailure m) => Err (TypeError m)
  | _ => Ok tt
  end.

Definition persist_events (name : string) (o : DumpOutcome) : list Event :=
  match cache_set_outcome name o with
  | Err (CacheError m) => [EPrint m]
  | _ => []
  end.

(** Lookup, report, and on a miss the download. *)
Definition lookup_then (key hit_msg name : string) (cache_cb : option CacheCb)
    (download : Prog PyObj) : Prog PyObj :=
  let* cached := cache_get key in
  if negb (is_None cached) then
    act (print hit_msg);;
    _report_cache cache_cb name true;;
    Ret cached
  else
    _report_cache cache_cb name false;;
    download.

(** The [try] block a fetcher runs on a miss. *)
Definition download_of (proc : Process) (f : Fetch) (key : string) : Prog PyObj :=
  match f with
  | FetchGraph point dist => download_graph proc point dist key
  | FetchFeatures point dist tags name => download_features point dist tags name key
  | FetchGraphFromPolygon boundary => download_graph_from_polygon proc boundary key
  | FetchFeaturesFromPolygon boundary tags name =>
      download_features_from_polygon boundary tags key
  end.

(** The world in which the download starts. *)
Definition before_download (env : Env) (key name : string)
    (cache_cb : option CacheCb) (w : World) : World :=
  world_after env (_report_cache cache_cb name false)
    (world_after env (cache_get key) w).

(** ** Programs that do not look at the world *)

(** Actions whose result is fixed by the environment and that call no
    callback: printing, sleeping, writing a pickle, asking the provider. *)
Definition oblivious {X} (a : Action X) : bool :=
  match a with
  | print _ | sleep _ | pickle_dump _ _
  | ox_graph_from_point _ _ _ | ox_graph_from_polygon _ _
  | ox_features_from_point _ _ _ | ox_features_from_polygon _ _
  | ox_geocode_to_gdf _ | geolocator_geocode _ => true
  | _ => false
  end.

Inductive steady {R} : Prog R -> Prop :=
| steady_Ret (r : R) : steady (Ret r)
| steady_Raise (e : Exc) : steady (Raise e)
| steady_Do {X} (a : Action X) (k : X -> Prog R) :
    oblivious a = true -> (forall x, steady (k x)) -> steady (Do a k).

(** Two environments with the same provider, geocoder and file system;
    they may differ in the client's cancellation, the clock, the renderer
    and the themes. *)
Definition same_services (env env' : Env) : Prop :=
  graph_from_point env = graph_from_point env'
  /\ graph_from_polygon env = graph_from_polygon env'
  /\ features_from_point env = features_from_point env'
  /\ features_from_polygon env = features_from_polygon env'
  /\ geocode_to_gdf env = geocode_to_gdf env'
  /\ geocode env = geocode env'
  /\ dump_outcome env = dump_outcome env'.

(** No cache callback among the events. *)
Definition quiet (evs : list Event) : bool :=
  forallb (fun ev => negb (is_cache_cb ev)) evs.

(** ** Sample places, providers and worlds *)

Definition jakarta : Point := (Float "-6.2", Float "106.8").

Definition triangle : GeoDataFrame :=
  {| geometry := ["POLYGON ((0 0, 1 0, 1 1, 0 0))"] |}.

Definition two_nodes : Graph := {| nodes := [1; 2]; edges := [(1, 2, "primary")] |}.
Definition no_nodes : Graph := {| nodes := []; edges := [] |}.

Definition lake : GeoDataFrame := {| geometry := ["POLYGON ((0 0, 2 0, 2 2, 0 0))"] |}.

(** A provider that knows one street network and one lake, a disk that
    accepts every write, a renderer that never fails, no cancellation; its
    canvas builder yields no rectangle, so that a request by point is
    fetched by point. *)
Definition calm : Env :=
  {| graph_from_point := fun _ _ _ => Ok (Some two_nodes);
     graph_from_polygon := fun _ _ => Ok (Some two_nodes);
     features_from_point := fun _ _ _ => Ok (Some lake);
     features_from_polygon := fun _ _ => Ok (Some lake);
     geocode_to_gdf := fun _ => Ok triangle;
     geocode := fun _ => Ok (Some {| address := "Jakarta"; loc_latitude := Float "-6.2";
                                     loc_longitude := Float "106.8" |});
     dump_outcome := fun _ _ => DumpOk;
     canvas_boundary := fun _ _ => Ok None;
     render_stage := fun _ => None;
     themes_dir := [("noir", [("name", "Noir")])];
     time_at := fun n => Z.of_nat n;
     cancel_request := None |}.

(** [env] with every cache write ending as [o]. *)
Definition with_dump (o : DumpOutcome) (env : Env) : Env :=
  {| graph_from_point := graph_from_point env;
     graph_from_polygon := graph_from_polygon env;
     features_from_point := features_from_point env;
     features_from_polygon := features_from_polygon env;
     geocode_to_gdf := geocode_to_gdf env;
     geocode := geocode env;
     dump_outcome := fun _ _ => o;
     canvas_boundary := canvas_boundary env;
     render_stage := render_stage env;
     themes_dir := themes_dir env;
     time_at := time_at env;
     cancel_request := cancel_request env |}.

(** [env] with the client cancelling [task_id] just before the action at
    [at_tick]. *)
Definition with_cancel (at_tick : nat) (task_id : string) (env : Env) : Env :=
  {| graph_from_point := graph_from_point env;
     graph_from_polygon := graph_from_polygon env;
     features_from_point := features_from_point env;
     features_from_polygon := features_from_polygon env;
     geocode_to_gdf := geocode_to_gdf env;
     geocode := geocode env;
     dump_outcome := dump_outcome env;
     canvas_boundary := canvas_boundary env;
     render_stage := render_stage env;
     themes_dir := themes_dir env;
     time_at := time_at env;
     cancel_request := Some (at_tick, task_id) |}.

(** An empty cache directory, an empty registry, nothing logged. *)
Definition fresh_world : World :=
  {| disk := ∅;
     registry := {| progress_status := ∅; progress_steps := ∅; cache_hits := ∅ |};
     temp_outputs := []; temp_created := 0; ticks := 0; log := [] |}.

Definition default_process : Process :=
  {| OSM_NETWORK_TYPE := "drive"; hash_secret := Runtime.secret_of_seed 1 |}.

(** A world whose cache holds the street network around [jakarta]. *)
Definition warm_world : World :=
  snd (run calm (fetch_graph default_process jakarta 5000 None) fresh_world).

(** A world in which the job [job] was started and then cancelled by the
    client. *)
Definition cancelled_world : World :=
  with_registry
    (api_cancel "job" (_update_progress "job" (starting 0) (registry fresh_world)))
    fresh_world.

(** A callback that always raises. *)
Definition broken_cb : CacheCb := fun _ _ r => (r, Some (RuntimeError "sink is down")).

(** ** Provider replies *)

(** What the provider answers to the request a fetcher sends on a miss. *)
Definition reply_of (env : Env) (proc : Process) (f : Fetch) : Result PyObj :=
  match f with
  | FetchGraph point dist =>
      match graph_from_point env point dist (OSM_NETWORK_TYPE proc) with
      | Ok G => Ok (obj_of_graph G)
      | Err e => Err e
      end
  | FetchFeatures point dist tags _ =>
      match features_from_point env point tags dist with
      | Ok data => Ok (obj_of_frame data)
      | Err e => Err e
      end
  | FetchGraphFromPolygon boundary =>
      match iloc0 boundary with
      | Ok polygon =>
          match graph_from_polygon env polygon (OSM_NETWORK_TYPE proc) with
          | Ok G => Ok (obj_of_graph G)
          | Err e => Err e
          end
      | Err e => Err e
      end
  | FetchFeaturesFromPolygon boundary tags _ =>
      match iloc0 boundary with
      | Ok polygon =>
          match features_from_polygon env polygon tags with
          | Ok data => Ok (obj_of_frame data)
          | Err e => Err e
          end
      | Err e => Err e
      end
  end.

(** The object a fetcher goes on to persist: what the provider replied,
    unless a point fetcher finds it missing or empty. *)
Definition to_persist (f : Fetch) (reply : PyObj) : bool :=
  match f, reply with
  | FetchGraph _ _, PyGraph g => negb (graph_len g =? 0)
  | FetchFeatures _ _ _ _, PyFrame d => negb (empty d)
  | FetchGraph _ _, _ | FetchFeatures _ _ _ _, _ => false
  | FetchGraphFromPolygon _, _ | FetchFeaturesFromPolygon _ _ _, _ => true
  end.

(** The write failures [cache_set] turns into [CacheError]. *)
Definition cache_failure (o : DumpOutcome) : bool :=
  match o with
  | DumpFails (SerializationFailure _) | DumpFails (StorageFailure _ _) => true
  | _ => false
  end.

(** What a write leaves on the disk. *)
Definition written (name : string) (obj : PyObj) (o : DumpOutcome) (d : gmap string Entry)
    : gmap string Entry :=
  match o with
  | DumpOk => <[cache_file name := Pickled obj]> d
  | DumpFails f => if file_opened f then <[cache_file name := Truncated]> d else d
  end.

(** The provider requests among some events, in order. *)
Definition provider_calls (evs : list Event) : list Request :=
  omap (fun ev => match ev with EProvider req => Some req | _ => None end) evs.

(** ** The closures of a fetch round *)

Inductive Layer : Type := Streets | Water | Parks.

(** The three closures of [fetch_map_data_parallel]. *)
Definition round_fetcher (proc : Process) (layer : Layer)
    (boundary : option GeoDataFrame) (point : option Point) (dist : option Z)
    (task_id : string) : Prog PyObj :=
  match layer with
  | Streets => fetch_streets proc boundary point dist task_id
  | Water => fetch_water proc boundary point dist task_id
  | Parks => fetch_parks proc boundary point dist task_id
  end.

(** What a closure publishes before its checkpoint. *)
Definition step_name (layer : Layer) : string :=
  match layer with
  | Streets => "fetching_streets"
  | Water => "fetching_water"
  | Parks => "fetching_parks"
  end.

Definition announcement (layer : Layer) : JobStatus :=
  match layer with
  | Streets => fetching "fetching_streets" "Mengunduh jaringan jalan..."
  | Water => fetching "fetching_water" "Mengunduh fitur air..."
  | Parks => fetching "fetching_parks" "Mengunduh taman dan ruang hijau..."
  end.

(** What a closure runs once it is past its checkpoint. *)
Definition past_checkpoint (proc : Process) (layer : Layer)
    (boundary : option GeoDataFrame) (point : option Point) (dist : option Z)
    (task_id : string) : Prog PyObj :=
  match layer with
  | Streets =>
      match boundary with
      | Some b => fetch_graph_from_polygon proc b (Some (round_cache_cb task_id))
      | None =>
          let* pd := unpack point dist in
          fetch_graph proc (fst pd) (snd pd) (Some (round_cache_cb task_id))
      end
  | Water =>
      try_except
        (fetch_layer proc boundary point dist water_tags "water" task_id)
        (fun e =>
           act (print ("Warning: Failed to fetch water: " +:+ str_exc e));;
           Ret PyNone)
  | Parks =>
      try_except
        (fetch_layer proc boundary point dist parks_tags "parks" task_id)
        (fun e =>
           act (print ("Warning: Failed to fetch parks: " +:+ str_exc e));;
           Ret PyNone)
  end.

(** The environment in which the client never cancels. *)
Definition without_cancel (env : Env) : Env :=
  {| graph_from_point := graph_from_point env;
     graph_from_polygon := graph_from_polygon env;
     features_from_point := features_from_point env;
     features_from_polygon := features_from_polygon env;
     geocode_to_gdf := geocode_to_gdf env;
     geocode := geocode env;
     dump_outcome := dump_outcome env;
     canvas_boundary := canvas_boundary env;
     render_stage := render_stage env;
     themes_dir := themes_dir env;
     time_at := time_at env;
     cancel_request := None |}.

(** The world at the checkpoint. *)
Definition at_checkpoint (layer : Layer) (task_id : string) (e : Env) (w : World)
    : World :=
  tick e
    (snd (step e (update_progress task_id (announcement layer))
       (snd (step e (set_progress_step (step_name layer) 10) w)))).

(** The fetcher a closure calls past its checkpoint; none when it has
    neither a usable boundary nor a point. *)
Definition layer_fetch (layer : Layer) (boundary : option GeoDataFrame)
    (point : option Point) (dist : option Z) : option Fetch :=
  let at_point (tags : Tags) (name : string) :=
    match point, dist with
    | Some p, Some d => Some (FetchFeatures p d tags name)
    | _, _ => None
    end in
  let layer_at (tags : Tags) (name : string) :=
    match boundary with
    | Some b =>
        if negb (empty b) then Some (FetchFeaturesFromPolygon b tags name)
        else at_point tags name
    | None => at_point tags name
    end in
  match layer with
  | Streets =>
      match boundary with
      | Some b => Some (FetchGraphFromPolygon b)
      | None =>
          match point, dist with
          | Some p, Some d => Some (FetchGraph p d)
          | _, _ => None
          end
      end
  | Water => layer_at water_tags "water"
  | Parks => layer_at parks_tags "parks"
  end.

(** The [try]/[except] a closure wraps around that call. *)
Definition shielded (layer : Layer) (p : Prog PyObj) : Prog PyObj :=
  match layer with
  | Streets => p
  | Water =>
      try_except p
        (fun e =>
           act (print ("Warning: Failed to fetch water: " +:+ str_exc e));;
           Ret PyNone)
  | Parks =>
      try_except p
        (fun e =>
           act (print ("Warning: Failed to fetch parks: " +:+ str_exc e));;
           Ret PyNone)
  end.

(** ** Events of programs and pools *)

(** The events an action appends to the log: they do not depend on the
    world or on the environment. *)
Definition logged {X} (a : Action X) : list Event :=
  match a with
  | print msg => [EPrint msg]
  | sleep ms => [ESleep ms]
  | ox_graph_from_point point dist nt => [EProvider (GraphFromPoint point dist nt)]
  | ox_graph_from_polygon polygon nt => [EProvider (GraphFromPolygon polygon nt)]
  | ox_features_from_point point tags dist =>
      [EProvider (FeaturesFromPoint point tags dist)]
  | ox_features_from_polygon polygon tags =>
      [EProvider (FeaturesFromPolygon polygon tags)]
  | ox_geocode_to_gdf query => [EProvider (GeocodeToGdf query)]
  | geolocator_geocode query => [EProvider (Geocode query)]
  | call_cache_cb _ name hit => [ECacheCb name hit]
  | call_progress_cb _ status message => [EProgressCb status message]
  | update_progress task_id payload => [EUpdate task_id payload]
  | render stage => [ERender stage]
  | _ => []
  end.

(** Programs all of whose events satisfy [P], whatever they read. *)
Inductive confined (P : Event -> Prop) {R} : Prog R -> Prop :=
| confined_Ret (r : R) : confined P (Ret r)
| confined_Raise (e : Exc) : confined P (Raise e)
| confined_Do {X} (a : Action X) (k : X -> Prog R) :
    Forall P (logged a) -> (forall x, confined P (k x)) -> confined P (Do a k).

(** A steady program logs prints, sleeps and provider calls only. *)
Definition plain (ev : Event) : Prop :=
  match ev with EPrint _ | ESleep _ | EProvider _ => True | _ => False end.

(** Events of a pool whose workers are confined to [P]. *)
Definition pool_event (P : Event -> Prop) (ev : Event) : Prop :=
  P ev \/ exists i, ev = EResolved i.

(** Events that are not the coordinator's closing update. *)
Definition before_join (ev : Event) : Prop :=
  forall task_id, ev <> EUpdate task_id all_fetched.

(** Programs that return, whatever the actions give them. *)
Inductive never_raises {R} : Prog R -> Prop :=
| never_raises_ret r : never_raises (Ret r)
| never_raises_do X (a : Action X) k :
    (forall x, never_raises (k x)) -> never_raises (Do a k).

(** ** Location rules *)




(** A request with explicit coordinates only. *)
Definition by_coordinates : RequestData :=
  {| kota := None; negara := None; kecamatan := None; use_coordinates := true;
     latitude := Some (Float "-6.2"); longitude := Some (Float "106.8");
     custom_city := Some "Jakarta"; custom_country := None;
     tema := "noir"; custom_theme := None; skala := 5000; format_output := "png";
     use_delineation := false; clean := false; all_themes := false |}.

(** A request with a subdistrict only. *)
Definition by_subdistrict : RequestData :=
  {| kota := None; negara := None; kecamatan := Some "Menteng, Jakarta";
     use_coordinates := false; latitude := None; longitude := None;
     custom_city := None; custom_country := None;
     tema := "noir"; custom_theme := None; skala := 5000; format_output := "png";
     use_delineation := false; clean := false; all_themes := false |}.

(** ** Whole jobs *)

(** The record of a job once [create_poster_async] has returned. *)
Definition job_record (env : Env) (data : RequestData) : option JobStatus :=
  progress_status
    (registry (snd (create_poster_async env default_process [] "job" data fresh_world)))
  !! "job".

(** Status, message and cancellation flag of a record. *)
Definition summary (job : option JobStatus) : option (string * string * bool) :=
  match job with
  | Some j =>
      match js_status j, js_message j, js_cancelled j with
      | Some s, Some m, Some c => Some (s, m, c)
      | _, _, _ => None
      end
  | None => None
  end.

(** The number of actions of the job of [by_coordinates] under [calm]. *)
Definition job_length : nat :=
  ticks (snd (create_poster_async calm default_process [] "job" by_coordinates fresh_world)).

(** ** Published percentages *)

(** The percentages of the statuses published by [_update_progress] calls,
    in the order of the log.  A status that reaches the registry through
    the progress callback is logged as a call of the callback and is not
    among them. *)
Definition published_percents (evs : list Event) : list Z :=
  omap (fun ev =>
          match ev with
          | EUpdate _ payload => js_status payload ≫= percent_of
          | _ => None
          end) evs.

(** The phases in the order of the specification, for a job that looks up
    a boundary. *)
Definition phase_order : list string :=
  ["starting"; "validating"; "loading_theme"; "fetching_boundary"; "fetching_data";
   "fetching_streets"; "fetching_water"; "fetching_parks"; "render_setup";
   "render_layers_water"; "render_layers_parks"; "render_boundary"; "render_roads";
   "render_gradients"; "render_text"; "render_save"; "completed"].

Fixpoint non_decreasing (l : list Z) : bool :=
  match l with
  | a :: (b :: _) as rest => (a <=? b) && non_decreasing rest
  | _ => true
  end.

(** ** Empty networks and separate processes *)

(** A provider whose street network is empty everywhere. *)
Definition barren : Env :=
  {| graph_from_point := fun _ _ _ => Ok (Some no_nodes);
     graph_from_polygon := fun _ _ => Ok (Some no_nodes);
     features_from_point := features_from_point calm;
     features_from_polygon := features_from_polygon calm;
     geocode_to_gdf := geocode_to_gdf calm;
     geocode := geocode calm;
     dump_outcome := dump_outcome calm;
     canvas_boundary := canvas_boundary calm;
     render_stage := render_stage calm;
     themes_dir := themes_dir calm;
     time_at := time_at calm;
     cancel_request := None |}.

(** Two interpreter processes with the same configuration; their hash
    secrets are those of [PYTHONHASHSEED=1] and [PYTHONHASHSEED=2]. *)
Definition first_process : Process :=
  {| OSM_NETWORK_TYPE := "drive"; hash_secret := Runtime.secret_of_seed 1 |}.
Definition second_process : Process :=
  {| OSM_NETWORK_TYPE := "drive"; hash_secret := Runtime.secret_of_seed 2 |}.

(** What the cache callback hears when [f] is fetched in the first process
    and then again, on the disk the first fetch left, in the second. *)
Definition reported_hits (f : Fetch) : list Event :=
  let cb : CacheCb := fun _ _ r => (r, None) in
  let w1 := world_after calm (fetcher first_process f (Some cb)) fresh_world in
  let w2 := world_after calm (fetcher second_process f (Some cb)) w1 in
  List.filter is_cache_cb (log w2).

(** ** The registry under a run of updates *)

(** A run of calls of [_update_progress], oldest first. *)
Definition apply_updates (updates : list (string * JobStatus)) (r : Registry) : Registry :=
  fold_left (fun r u => _update_progress (fst u) (snd u) r) updates r.

(** A record with its cancellation flag set and nothing else changed. *)
Definition flagged (job : JobStatus) : JobStatus :=
  {| js_status := js_status job; js_message := js_message job;
     js_started_at := js_started_at job; js_cancelled := Some true;
     js_cache_hits := js_cache_hits job; js_details := js_details job;
     js_files := js_files job; js_file := js_file job |}.

(** A registry with one job, in its rendering phase. *)
Definition one_job : Registry :=
  _update_progress "job" (status_message "render_roads" "Menggambar jaringan jalan...")
    (_update_progress "job" (starting 0) (registry fresh_world)).

(** ** Coordinates and boundaries *)

(** Programs that return an object other than [None], if they return. *)
Inductive never_none : Prog PyObj -> Prop :=
| never_none_ret v : v <> PyNone -> never_none (Ret v)
| never_none_raise e : never_none (Raise e)
| never_none_do X (a : Action X) k :
    (forall x, never_none (k x)) -> never_none (Do a k).

(** The key under which [get_coordinates] caches a place. *)
Definition coords_key (city country : string) : string :=
  "coords_" ++ lower city ++ "_" ++ lower country.

(** [s.isascii()] *)
Definition isascii (s : string) : bool :=
  forallb (fun c => (nat_of_ascii c <? 128)%nat) (list_ascii_of_string s).

Inductive BoundaryKind : Type := Subdistrict | City.

Definition boundary_fetcher (kind : BoundaryKind) (name : string) : Prog PyObj :=
  match kind with
  | Subdistrict => fetch_subdistrict_boundary name
  | City => fetch_city_boundary name
  end.

Definition boundary_key (kind : BoundaryKind) (name : string) : string :=
  match kind with
  | Subdistrict => "boundary_" ++ boundary_slug name
  | City => "boundary_city_" ++ boundary_slug name
  end.

(** The line a boundary fetcher prints on a hit. *)
Definition boundary_hit_message (kind : BoundaryKind) : string :=
  match kind with
  | Subdistrict => "✓ Menggunakan batas kecamatan cache"
  | City => "✓ Menggunakan batas kota cache"
  end.

(** A world whose cache holds the coordinates of Jakarta. *)
Definition monas : PyObj := PyCoords (Float "-6.1754") (Float "106.8272").

Definition jakarta_known : World :=
  with_disk (<[cache_file (coords_key "Jakarta" "Indonesia") := Pickled monas]> ∅)
    fresh_world.

(** A world whose cache holds the boundary looked up as "Menteng, Jakarta". *)
Definition menteng_known : World :=
  with_disk (<[cache_file (boundary_key Subdistrict "Menteng, Jakarta")
             := Pickled (PyFrame triangle)]> ∅) fresh_world.

(** A reply of the geocoder that gives no boundary: an exception or an empty
    frame. *)
Definition no_boundary (reply : Result GeoDataFrame) : bool :=
  match reply with
  | Ok gdf => empty gdf
  | Err _ => true
  end.

(** A geocoder that knows no place. *)
Definition nowhere : Env :=
  {| graph_from_point := graph_from_point calm;
     graph_from_polygon := graph_from_polygon calm;
     features_from_point := features_from_point calm;
     features_from_polygon := features_from_polygon calm;
     geocode_to_gdf := fun _ => Ok {| geometry := [] |};
     geocode := fun _ => Ok None;
     dump_outcome := dump_outcome calm;
     canvas_boundary := canvas_boundary calm;
     render_stage := render_stage calm;
     themes_dir := themes_dir calm;
     time_at := time_at calm;
     cancel_request := None |}.

(** Nothing to keep from the provider: an exception, or a reply the fetcher
    does not go on to persist. *)
Definition nothing_to_keep (env : Env) (proc : Process) (f : Fetch) : bool :=
  match reply_of env proc f with
  | Ok v => negb (to_persist f v)
  | Err _ => true
  end.

(** A provider that is down. *)
Definition offline : Env :=
  {| graph_from_point := fun _ _ _ => Err (OtherException "Connection refused");
     graph_from_polygon := fun _ _ => Err (OtherException "Connection refused");
     features_from_point := fun _ _ _ => Err (OtherException "Connection refused");
     features_from_polygon := fun _ _ => Err (OtherException "Connection refused");
     geocode_to_gdf := fun _ => Err (OtherException "Connection refused");
     geocode := fun _ => Err (OtherException "Connection refused");
     dump_outcome := dump_outcome calm;
     canvas_boundary := canvas_boundary calm;
     render_stage := render_stage calm;
     themes_dir := themes_dir calm;
     time_at := time_at calm;
     cancel_request := None |}.

(** ** Names of cache files *)


(** ** Telling keys apart *)

Definition chars_all (P : ascii -> bool) (s : string) : bool :=
  forallb P (list_ascii_of_string s).

(** The [repr] of a float holds no underscore. *)
Definition no_underscore (s : string) : bool :=
  chars_all (fun c => negb (Ascii.eqb c "_")) s.

Definition is_digit (c : ascii) : bool :=
  ((48 <=? nat_of_ascii c) && (nat_of_ascii c <=? 57))%nat.

(** The number a string of decimal digits denotes, and ten to the power of
    its length. *)
Fixpoint digits_value (s : string) : Z * Z :=
  match s with
  | EmptyString => (0, 1)
  | String c rest =>
      let '(v, p) := digits_value rest in
      ((Z.of_nat (nat_of_ascii c) - 48) * p + v, 10 * p)
  end.

Definition bandung : Point := (Float "-6.9175", Float "107.6191").
(** ** Jobs at rest *)

(** The statuses in which a job rests, and the one in which it has failed. *)
Definition terminal (status : string) : bool :=
  String.eqb status "error" || String.eqb status "completed".

Definition failed (status : string) : bool := String.eqb status "error".

(** The job has a record, and its status is among [rest]. *)
Definition rests_in (rest : string -> bool) (task_id : string) (w : World) : Prop :=
  exists job status,
    progress_status (registry w) !! task_id = Some job
    /\ js_status job = Some status /\ rest status = true.

(** The job has a record, and its status is ["error"] or ["completed"]. *)
Definition at_rest (task_id : string) (w : World) : Prop :=
  exists job,
    progress_status (registry w) !! task_id = Some job
    /\ (js_status job = Some "error" \/ js_status job = Some "completed").

(** An update of the job that sets a status among [rest]. *)
Definition puts_at_rest (rest : string -> bool) (task_id : string) {X} (a : Action X)
    : bool :=
  match a with
  | update_progress t payload =>
      String.eqb t task_id
      && match js_status payload with
         | Some s => rest s
         | None => false
         end
  | _ => false
  end.

(** Programs that return a flagged value only straight after an update that
    sets a status among [rest]; [rested] tells whether the program starts
    straight after such an update. *)
Inductive settles (rest : string -> bool) (task_id : string) {R} (flag : R -> bool)
    : bool -> Prog R -> Prop :=
| settles_ret rested r :
    (flag r = true -> rested = true) -> settles rest task_id flag rested (Ret r)
| settles_raise rested e : settles rest task_id flag rested (Raise e)
| settles_do rested X (a : Action X) k :
    (forall x, settles rest task_id flag (puts_at_rest rest task_id a) (k x)) ->
    settles rest task_id flag rested (Do a k).

(** ** Requests that are turned down *)

(** Lines 377-391: the message with which the orchestrator turns a request
    down before it resolves the location - an unknown theme, or a missing
    required parameter. *)
Definition rejection (env : Env) (data : RequestData) : option string :=
  if negb (String.eqb (tema data) "custom")
     && negb (existsb (String.eqb (tema data)) (map fst (themes_dir env)))
  then Some ("Tema " +:+ dquote +:+ tema data +:+ dquote +:+ " tidak ditemukan")
  else missing_parameters data.


(** ** Jobs that complete *)

(** [calm] with a second theme in the themes directory. *)
Definition two_themes : Env :=
  {| graph_from_point := graph_from_point calm;
     graph_from_polygon := graph_from_polygon calm;
     features_from_point := features_from_point calm;
     features_from_polygon := features_from_polygon calm;
     geocode_to_gdf := geocode_to_gdf calm;
     geocode := geocode calm;
     dump_outcome := dump_outcome calm;
     canvas_boundary := canvas_boundary calm;
     render_stage := render_stage calm;
     themes_dir := [("noir", [("name", "Noir")]); ("ocean", [("name", "Ocean")])];
     time_at := time_at calm;
     cancel_request := None |}.

(** [by_coordinates], asking for a poster in every theme. *)
Definition every_theme : RequestData :=
  {| kota := None; negara := None; kecamatan := None; use_coordinates := true;
     latitude := Some (Float "-6.2"); longitude := Some (Float "106.8");
     custom_city := Some "Jakarta"; custom_country := None;
     tema := "noir"; custom_theme := None; skala := 5000; format_output := "png";
     use_delineation := false; clean := false; all_themes := true |}.

(** The record of the job of [every_theme] under [two_themes]. *)
Definition finished_record : JobStatus :=
  default no_fields
    (progress_status
       (registry (snd (create_poster_async two_themes default_process [] "job"
                         every_theme fresh_world))) !! "job").
(** ** Road styles *)

(** The keys of a theme that style roads. *)
Definition road_keys : list string :=
  ["road_motorway"; "road_primary"; "road_secondary"; "road_tertiary";
   "road_residential"; "road_default"].

(** A theme whose road colours are the names of their keys. *)
Definition key_theme : Theme := map (fun k => (k, k)) road_keys.

Definition has_key (theme : Theme) (key : string) : bool :=
  match dict_get theme key with Some _ => true | None => false end.

(** The road types that have a [_link] variant. *)
Definition linked_types : list string :=
  ["motorway"; "trunk"; "primary"; "secondary"; "tertiary"].
(** ** Replies of the routes *)

(** A registry whose job has completed with two posters. *)
Definition two_posters : list OutputFile :=
  [{| out_file := "tmp0.png"; out_theme := "noir"; out_format := "png" |};
   {| out_file := "tmp1.png"; out_theme := "ocean"; out_format := "png" |}].

Definition finished_job : World :=
  {| disk := ∅;
     registry :=
       _update_progress "job" (completed (Some "tmp1.png") two_posters)
         (_update_progress "job" (starting 100) (registry fresh_world));
     temp_outputs := ["tmp1.png"; "tmp0.png"]; temp_created := 2; ticks := 0; log := [] |}.
(** ** Places the geocoder does not know *)

(** A request for a city and its country. *)
Definition by_city : RequestData :=
  {| kota := Some "Atlantis"; negara := Some "Nowhere"; kecamatan := None;
     use_coordinates := false; latitude := None; longitude := None;
     custom_city := None; custom_country := None;
     tema := "noir"; custom_theme := None; skala := 5000; format_output := "png";
     use_delineation := false; clean := false; all_themes := false |}.
(** ** What each way of resolving the location does *)













(** ** Render phases *)

(** The render phase a call of the progress callback reports: its status,
    when that starts with [render_]. *)
Definition phase_of (ev : Event) : option string :=
  match ev with
  | EProgressCb status _ =>
      if String.prefix "render_" status then Some status else None
  | _ => None
  end.

(** The render phases reported, oldest first. *)
Definition phases (evs : list Event) : list string := omap phase_of evs.

(** The render phases of a poster; a clean poster has no gradients and no
    text. *)
Definition render_phases (clean : bool) : list string :=
  ["render_setup"; "render_layers_water"; "render_layers_parks"; "render_boundary";
   "render_roads"]
  ++ (if clean then [] else ["render_gradients"; "render_text"]) ++ ["render_save"].

(** Programs that report the phases [todo] in this order when they return,
    and some of the first of them when they raise. *)
Inductive in_order {R} : list string -> Prog R -> Prop :=
| in_order_ret r : in_order [] (Ret r)
| in_order_raise todo e : in_order todo (Raise e)
| in_order_do todo todo' X (a : Action X) k :
    todo = phases (logged a) ++ todo' ->
    (forall x, in_order todo' (k x)) -> in_order todo (Do a k).

(** The same for code that drives threads. *)
Definition reports_in_order {A} (todo : list string) (m : Job A) : Prop :=
  forall w,
    exists evs,
      log (snd (m w)) = log w ++ evs
      /\ phases evs `prefix_of` todo
      /\ (forall a, fst (m w) = Ok a -> phases evs = todo).

(* ===================================================================== *)
(** * The runtime functions against CPython                               *)
(* ===================================================================== *)

(** [hashlib.md5] on the test vectors of RFC 1321 and the built-in [hash]
    on values printed by CPython 3.11 under [PYTHONHASHSEED] 0, 1 and 2. *)

Example md5_empty :
  Runtime.md5_hexdigest EmptyString = "d41d8cd98f00b204e9800998ecf8427e".
Proof. vm_compute. reflexivity. Qed.

Example md5_abc :
  Runtime.md5_hexdigest "abc" = "900150983cd24fb0d6963f7d28e17f72".
Proof. vm_compute. reflexivity. Qed.

Example md5_long :
  Runtime.md5_hexdigest
    "12345678901234567890123456789012345678901234567890123456789012345678901234567890"
  = "57edf4a22be3c955ac49da2e2107b67a".
Proof. vm_compute. reflexivity. Qed.

Example hash_abc_seed0 :
  Runtime.siphash13_str 0 0 "abc" = -4594863902769663758.
Proof. vm_compute. reflexivity. Qed.

Example hash_abc_seed1 :
  let '(k0, k1) := Runtime.secret_of_seed 1 in
  Runtime.siphash13_str k0 k1 "abc" = -4667308735975688587.
Proof. vm_compute. reflexivity. Qed.

Example hash_polygon_seed2 :
  let '(k0, k1) := Runtime.secret_of_seed 2 in
  Runtime.siphash13_str k0 k1 "POLYGON ((0 0, 1 0, 1 1, 0 0))" = 1235751336045678371.
Proof. vm_compute. reflexivity. Qed.

Example str_int_examples :
  Runtime.str_int 5000 = "5000" /\ Runtime.str_int 0 = "0" /\
  Runtime.str_int (-4594863902769663758) = "-4594863902769663758".
Proof. vm_compute. auto. Qed.

(* ===================================================================== *)
(** * Running programs: general facts                                     *)
(* ===================================================================== *)

Arguments cache_file : simpl never.
Arguments graph_key : simpl never.
Arguments features_key : simpl never.
Arguments graph_polygon_key : simpl never.
Arguments features_polygon_key : simpl never.
Arguments String.append : simpl never.
Arguments tick : simpl never.

Section Running.

Context (env : Env).

Lemma run_bind {A B} (p : Prog A) (f : A -> Prog B) (w : World) :
  run env (bind p f) w =
  match run env p w with
  | (Ok a, w') => run env (f a) w'
  | (Err e, w') => (Err e, w')
  end.
Proof.
  revert w. induction p as [a|e|X a k IH]; intros w; cbn [bind run]; try reflexivity.
  destruct (step env a w) as [x w']. apply IH.
Qed.

Lemma run_try_except {A} (p : Prog A) (handler : Exc -> Prog A) (w : World) :
  run env (try_except p handler) w =
  match run env p w with
  | (Ok a, w') => (Ok a, w')
  | (Err e, w') => run env (handler e) w'
  end.
Proof.
  revert w. induction p as [a|e|X a k IH]; intros w; cbn [try_except run]; try reflexivity.
  destruct (step env a w) as [x w']. apply IH.
Qed.

(** Every action leaves the log it found in place and appends to it. *)
Lemma tick_log (w : World) : log (tick env w) = log w.
Proof. reflexivity. Qed.

Lemma tick_disk (w : World) : disk (tick env w) = disk w.
Proof. reflexivity. Qed.

End Running.

(* ===================================================================== *)
(** * The cache operations                                                *)
(* ===================================================================== *)

Section Cache.

Context (env : Env).

Lemma run_split {R} (p : Prog R) (w : World) :
  run env p w = (result_of env p w, world_after env p w).
Proof. unfold result_of, world_after. destruct (run env p w); reflexivity. Qed.

(** [cache_get] returns what is on the disk and leaves disk and log alone. *)
Lemma cache_get_result (name : string) (w : World) :
  result_of env (cache_get name) w = cached_value (disk w) name.
Proof.
  unfold result_of, cache_get, cached_value.
  cbn [bind act run step perform]. rewrite tick_disk.
  destruct (disk w !! cache_file name) as [[obj|]|] eqn:E; cbn [run call step perform fst];
    rewrite ?tick_disk, ?E; reflexivity.
Qed.

Lemma cache_get_disk (name : string) (w : World) :
  disk (world_after env (cache_get name) w) = disk w.
Proof.
  unfold world_after, cache_get. cbn [bind act run step perform]. rewrite tick_disk.
  destruct (disk w !! cache_file name) as [[obj|]|] eqn:E; cbn [run call step perform snd];
    rewrite ?tick_disk, ?E; reflexivity.
Qed.

Lemma cache_get_log (name : string) (w : World) :
  log (world_after env (cache_get name) w) = log w.
Proof.
  unfold world_after, cache_get. cbn [bind act run step perform]. rewrite tick_disk.
  destruct (disk w !! cache_file name) as [[obj|]|] eqn:E; cbn [run call step perform snd];
    rewrite ?tick_disk, ?E; reflexivity.
Qed.

(** [_report_cache] never raises, whatever the callback does. *)
Lemma report_cache_result (cache_cb : option CacheCb) (name : string) (hit : bool)
    (w : World) :
  result_of env (_report_cache cache_cb name hit) w = Ok tt.
Proof.
  unfold result_of, _report_cache. destruct cache_cb as [cb|]; [|reflexivity].
  cbn [try_except call run step perform].
  destruct (cb name hit (registry (tick env w))) as [r [e|]]; reflexivity.
Qed.

Lemma report_cache_disk (cache_cb : option CacheCb) (name : string) (hit : bool)
    (w : World) :
  disk (world_after env (_report_cache cache_cb name hit) w) = disk w.
Proof.
  unfold world_after, _report_cache. destruct cache_cb as [cb|]; [|reflexivity].
  cbn [try_except call run step perform].
  destruct (cb name hit (registry (tick env w))) as [r [e|]]; reflexivity.
Qed.

Lemma report_cache_log (cache_cb : option CacheCb) (name : string) (hit : bool)
    (w : World) :
  log (world_after env (_report_cache cache_cb name hit) w) =
  log w ++ match cache_cb with Some _ => [ECacheCb name hit] | None => [] end.
Proof.
  unfold world_after, _report_cache. destruct cache_cb as [cb|].
  - cbn [try_except call run step perform].
    destruct (cb name hit (registry (tick env w))) as [r [e|]]; reflexivity.
  - cbn [run snd]. rewrite app_nil_r. reflexivity.
Qed.

Lemma cache_set_result (name : string) (obj : PyObj) (w : World) :
  result_of env (cache_set name obj) w =
  cache_set_outcome name (dump_outcome env (cache_file name) obj).
Proof.
  unfold result_of, cache_set. cbn [try_except call run step perform].
  destruct (dump_outcome env (cache_file name) obj) as [|[m|m o|m o|m]]; reflexivity.
Qed.

Lemma cache_set_log (name : string) (obj : PyObj) (w : World) :
  log (world_after env (cache_set name obj) w) = log w.
Proof.
  unfold world_after, cache_set. cbn [try_except call run step perform].
  destruct (dump_outcome env (cache_file name) obj) as [|[m|m o|m o|m]];
    cbn [raised_by file_opened is_PickleError is_OSError run snd];
    try destruct o; reflexivity.
Qed.

Lemma try_cache_set_result (name : string) (obj : PyObj) (w : World) :
  result_of env (try_cache_set name obj) w =
  persist_outcome (dump_outcome env (cache_file name) obj).
Proof.
  unfold result_of, try_cache_set. rewrite run_try_except, (run_split (cache_set _ _)).
  rewrite cache_set_result.
  destruct (dump_outcome env (cache_file name) obj) as [|[m|m o|m o|m]]; reflexivity.
Qed.

Lemma try_cache_set_log (name : string) (obj : PyObj) (w : World) :
  log (world_after env (try_cache_set name obj) w) =
  log w ++ persist_events name (dump_outcome env (cache_file name) obj).
Proof.
  unfold world_after, try_cache_set, persist_events.
  rewrite run_try_except, (run_split (cache_set _ _)), cache_set_result.
  destruct (dump_outcome env (cache_file name) obj) as [|[m|m o|m o|m]];
    cbn [cache_set_outcome is_CacheError act run step perform snd log emit];
    rewrite ?tick_log, ?cache_set_log, ?app_nil_r; reflexivity.
Qed.

End Cache.

(* ===================================================================== *)
(** * The shape the four fetchers share                                   *)
(* ===================================================================== *)

Lemma fetcher_shape (proc : Process) (f : Fetch) (cache_cb : option CacheCb)
    (key : string) :
  key_of proc f = Ok key ->
  fetcher proc f cache_cb =
  lookup_then key (hit_message f) (dataset f) cache_cb (download_of proc f key).
Proof.
  destruct f as [point dist|point dist tags name|boundary|boundary tags name];
    cbn [key_of fetcher]; intros H.
  - injection H as <-. reflexivity.
  - injection H as <-. reflexivity.
  - unfold fetch_graph_from_polygon.
    destruct (iloc0 boundary) as [geom|e]; [|discriminate].
    injection H as <-. reflexivity.
  - unfold fetch_features_from_polygon.
    destruct (iloc0 boundary) as [geom|e]; [|discriminate].
    injection H as <-. reflexivity.
Qed.

(** When the key cannot be computed, the fetcher raises before it looks
    anything up. *)
Lemma fetcher_no_key (env : Env) (proc : Process) (f : Fetch)
    (cache_cb : option CacheCb) (e : Exc) (w : World) :
  key_of proc f = Err e ->
  run env (fetcher proc f cache_cb) w = (Err e, w).
Proof.
  destruct f as [point dist|point dist tags name|boundary|boundary tags name];
    cbn [key_of fetcher]; intros H; try discriminate.
  - unfold fetch_graph_from_polygon.
    destruct (iloc0 boundary) as [geom|e']; [discriminate|].
    injection H as <-. reflexivity.
  - unfold fetch_features_from_polygon.
    destruct (iloc0 boundary) as [geom|e']; [discriminate|].
    injection H as <-. reflexivity.
Qed.

Section Lookup.

Context (env : Env).

Lemma before_download_log key name cache_cb w :
  log (before_download env key name cache_cb w) =
  log w ++ match cache_cb with Some _ => [ECacheCb name false] | None => [] end.
Proof. unfold before_download. rewrite report_cache_log, cache_get_log. reflexivity. Qed.

Lemma lookup_raises key hit_msg name cache_cb download w e :
  cached_value (disk w) key = Err e ->
  result_of env (lookup_then key hit_msg name cache_cb download) w = Err e
  /\ log (world_after env (lookup_then key hit_msg name cache_cb download) w) = log w.
Proof.
  intros H. unfold result_of, world_after, lookup_then.
  rewrite run_bind, (run_split env (cache_get key)), cache_get_result, H.
  cbn [fst snd]. split; [reflexivity|apply cache_get_log].
Qed.

Lemma lookup_hit key hit_msg name cache_cb download w obj :
  cached_value (disk w) key = Ok obj -> obj <> PyNone ->
  result_of env (lookup_then key hit_msg name cache_cb download) w = Ok obj
  /\ log (world_after env (lookup_then key hit_msg name cache_cb download) w) =
     log w ++ EPrint hit_msg
           :: match cache_cb with Some _ => [ECacheCb name true] | None => [] end
  /\ disk (world_after env (lookup_then key hit_msg name cache_cb download) w) = disk w.
Proof.
  intros H Hobj. unfold result_of, world_after, lookup_then.
  rewrite run_bind, (run_split env (cache_get key)), cache_get_result, H.
  replace (negb (is_None obj)) with true by (destruct obj; [congruence|reflexivity..]).
  rewrite run_bind. cbn [act run step perform].
  rewrite run_bind, (run_split env (_report_cache _ _ _)), report_cache_result.
  cbn [run fst snd].
  rewrite report_cache_log, report_cache_disk.
  cbn [log disk emit]. rewrite tick_log, tick_disk, cache_get_log, cache_get_disk.
  rewrite <- app_assoc. auto.
Qed.

Lemma lookup_miss key hit_msg name cache_cb download w :
  cached_value (disk w) key = Ok PyNone ->
  run env (lookup_then key hit_msg name cache_cb download) w =
  run env download (before_download env key name cache_cb w).
Proof.
  intros H. unfold lookup_then.
  rewrite run_bind, (run_split env (cache_get key)), cache_get_result, H.
  cbn [is_None negb].
  rewrite run_bind, (run_split env (_report_cache _ _ _)), report_cache_result.
  reflexivity.
Qed.

End Lookup.

(* ===================================================================== *)
(** * Programs that do not look at the world                              *)
(* ===================================================================== *)

Lemma steady_bind {A B} (p : Prog A) (f : A -> Prog B) :
  steady p -> (forall a, steady (f a)) -> steady (bind p f).
Proof.
  intros Hp Hf. induction Hp as [r|e|X a k Ha Hk IH]; cbn [bind].
  - apply Hf.
  - constructor.
  - constructor; [exact Ha|exact IH].
Qed.

Lemma steady_try_except {A} (p : Prog A) (handler : Exc -> Prog A) :
  steady p -> (forall e, steady (handler e)) -> steady (try_except p handler).
Proof.
  intros Hp Hh. induction Hp as [r|e|X a k Ha Hk IH]; cbn [try_except].
  - constructor.
  - apply Hh.
  - constructor; [exact Ha|exact IH].
Qed.

Lemma steady_act {X} (a : Action X) : oblivious a = true -> steady (act a).
Proof. intros H. constructor; [exact H|intros x; constructor]. Qed.

Lemma steady_call {X} (a : Action (Result X)) : oblivious a = true -> steady (call a).
Proof. intros H. constructor; [exact H|intros [x|e]; constructor]. Qed.

Lemma steady_lift {X} (r : Result X) : steady (lift r).
Proof. destruct r; constructor. Qed.

Lemma steady_cache_set (name : string) (obj : PyObj) : steady (cache_set name obj).
Proof.
  unfold cache_set. apply steady_try_except; [apply steady_call; reflexivity|].
  intros e. destruct (is_PickleError e); [constructor|].
  destruct (is_OSError e); constructor.
Qed.

Lemma steady_try_cache_set (name : string) (obj : PyObj) :
  steady (try_cache_set name obj).
Proof.
  unfold try_cache_set. apply steady_try_except; [apply steady_cache_set|].
  intros e. destruct (is_CacheError e); [apply steady_act; reflexivity|constructor].
Qed.

Ltac steady_step :=
  first
    [ apply steady_try_cache_set
    | apply steady_lift
    | apply steady_act; reflexivity
    | apply steady_call; reflexivity
    | apply steady_Ret
    | apply steady_Raise
    | apply steady_try_except; [|intros ?]
    | apply steady_bind; [|intros ?]
    | match goal with
      | |- steady (match ?x with _ => _ end) => destruct x
      end ].

Lemma steady_download (proc : Process) (f : Fetch) (key : string) :
  steady (download_of proc f key).
Proof.
  destruct f; cbn [download_of];
    unfold download_graph, download_features, download_graph_from_polygon,
      download_features_from_polygon;
    repeat steady_step.
Qed.

Lemma same_services_refl (env : Env) : same_services env env.
Proof. repeat split. Qed.

Section Steady.

Context (env env' : Env) (Hsame : same_services env env').

Lemma oblivious_step {X} (a : Action X) :
  oblivious a = true ->
  exists (x : X) (evs : list Event),
    quiet evs = true
    /\ (forall w, fst (step env a w) = x /\ log (snd (step env a w)) = log w ++ evs)
    /\ (forall w, fst (step env' a w) = x /\ log (snd (step env' a w)) = log w ++ evs).
Proof.
  destruct Hsame as (H1 & H2 & H3 & H4 & H5 & H6 & H7).
  destruct a; cbn [oblivious]; intros H; try discriminate; unfold step; cbn [perform];
    rewrite <- ?H1, <- ?H2, <- ?H3, <- ?H4, <- ?H5, <- ?H6, <- ?H7.
  - exists tt, [EPrint msg]. repeat split.
  - exists tt, [ESleep ms]. repeat split.
  - destruct (dump_outcome env file obj) as [|fl] eqn:E.
    + exists (Ok tt), []. split; [reflexivity|].
      split; intros w; rewrite app_nil_r; split; reflexivity.
    + exists (Err (raised_by fl)), []. split; [reflexivity|].
      split; intros w; rewrite app_nil_r; destruct (file_opened fl); split; reflexivity.
  - eexists _, [_].
    refine (conj _ (conj (fun w => conj eq_refl eq_refl) (fun w => conj eq_refl eq_refl))).
    reflexivity.
  - eexists _, [_].
    refine (conj _ (conj (fun w => conj eq_refl eq_refl) (fun w => conj eq_refl eq_refl))).
    reflexivity.
  - eexists _, [_].
    refine (conj _ (conj (fun w => conj eq_refl eq_refl) (fun w => conj eq_refl eq_refl))).
    reflexivity.
  - eexists _, [_].
    refine (conj _ (conj (fun w => conj eq_refl eq_refl) (fun w => conj eq_refl eq_refl))).
    reflexivity.
  - eexists _, [_].
    refine (conj _ (conj (fun w => conj eq_refl eq_refl) (fun w => conj eq_refl eq_refl))).
    reflexivity.
  - eexists _, [_].
    refine (conj _ (conj (fun w => conj eq_refl eq_refl) (fun w => conj eq_refl eq_refl))).
    reflexivity.
Qed.

(** A steady program returns the same result and logs the same events in
    every world and under either environment, and never calls a cache
    callback. *)
Lemma steady_run {R} (p : Prog R) :
  steady p ->
  exists (r : Result R) (evs : list Event),
    quiet evs = true
    /\ (forall w, result_of env p w = r /\ log (world_after env p w) = log w ++ evs)
    /\ (forall w, result_of env' p w = r /\ log (world_after env' p w) = log w ++ evs).
Proof.
  unfold result_of, world_after.
  induction 1 as [r|e|X a k Ha Hk IH]; cbn [run].
  - exists (Ok r), []. split; [reflexivity|].
    split; intros w; rewrite app_nil_r; auto.
  - exists (Err e), []. split; [reflexivity|].
    split; intros w; rewrite app_nil_r; auto.
  - destruct (oblivious_step a Ha) as (x & evs1 & Q1 & Hx & Hx').
    destruct (IH x) as (r & evs2 & Q2 & Hr & Hr').
    exists r, (evs1 ++ evs2). split.
    + unfold quiet in *. rewrite forallb_app, Q1, Q2. reflexivity.
    + split; intros w.
      * destruct (Hx w) as [E1 E2].
        destruct (step env a w) as [x' w1]. cbn [fst snd] in E1, E2. subst x'.
        destruct (Hr w1) as [E3 E4]. rewrite E3, E4, E2, app_assoc. auto.
      * destruct (Hx' w) as [E1 E2].
        destruct (step env' a w) as [x' w1]. cbn [fst snd] in E1, E2. subst x'.
        destruct (Hr' w1) as [E3 E4]. rewrite E3, E4, E2, app_assoc. auto.
Qed.

End Steady.

(* ===================================================================== *)
(** * Cache hits, misses and the cache callback                           *)
(* ===================================================================== *)

(** C7.  For each of the four fetchers called with a cache callback: when
    the lookup of the fetcher's key hits, the fetcher returns the cached
    object, and all it does besides is print one line and call the callback
    once, with the dataset name and [true] - no provider call, no sleep;
    when the lookup misses, the first thing that happens is one call of the
    callback with the dataset name and [false], and the callback is not
    called again, so that any provider call comes after it. *)
Theorem cache_lookup_reports_once (env : Env) (proc : Process) (f : Fetch)
    (cb : CacheCb) (w : World) (key : string) :
  key_of proc f = Ok key ->
  (forall obj, cached_value (disk w) key = Ok obj -> obj <> PyNone ->
     result_of env (fetcher proc f (Some cb)) w = Ok obj
     /\ log (world_after env (fetcher proc f (Some cb)) w) =
        log w ++ [EPrint (hit_message f); ECacheCb (dataset f) true])
  /\ (cached_value (disk w) key = Ok PyNone ->
      exists evs,
        log (world_after env (fetcher proc f (Some cb)) w) =
        log w ++ ECacheCb (dataset f) false :: evs
        /\ quiet evs = true).
Proof.
  intros Hkey. rewrite (fetcher_shape proc f (Some cb) key Hkey). split.
  - intros obj Hobj Hnone.
    destruct (lookup_hit env key (hit_message f) (dataset f) (Some cb)
                (download_of proc f key) w obj Hobj Hnone) as (Hr & Hl & _).
    split; [exact Hr|exact Hl].
  - intros Hmiss. unfold world_after.
    rewrite (lookup_miss env key (hit_message f) (dataset f) (Some cb) _ w Hmiss).
    destruct (steady_run env env (same_services_refl env) _ (steady_download proc f key))
      as (r & evs & Hq & Hrun & _).
    exists evs. split; [|exact Hq].
    destruct (Hrun (before_download env key (dataset f) (Some cb) w)) as [_ Hl].
    unfold world_after in Hl. rewrite Hl, before_download_log, <- app_assoc.
    reflexivity.
Qed.

Lemma cache_lookup_reports_once_witness :
  (result_of calm (fetcher default_process (FetchGraph jakarta 5000) (Some broken_cb))
     warm_world = Ok (PyGraph two_nodes)
   /\ log (world_after calm
              (fetcher default_process (FetchGraph jakarta 5000) (Some broken_cb))
              warm_world) =
      log warm_world
      ++ [EPrint (hit_message (FetchGraph jakarta 5000));
          ECacheCb (dataset (FetchGraph jakarta 5000)) true])
  /\ (exists evs,
        log (world_after calm
               (fetcher default_process (FetchGraph jakarta 5000) (Some broken_cb))
               fresh_world) =
        log fresh_world ++ ECacheCb (dataset (FetchGraph jakarta 5000)) false :: evs
        /\ quiet evs = true).
Proof.
  split.
  - apply (proj1 (cache_lookup_reports_once calm default_process (FetchGraph jakarta 5000)
                    broken_cb warm_world (graph_key default_process jakarta 5000)
                    eq_refl) (PyGraph two_nodes)).
    + vm_compute. reflexivity.
    + discriminate.
  - apply (proj2 (cache_lookup_reports_once calm default_process (FetchGraph jakarta 5000)
                    broken_cb fresh_world (graph_key default_process jakarta 5000)
                    eq_refl)).
    vm_compute. reflexivity.
Defined.

(* ===================================================================== *)
(** * Failures of the cache write                                         *)
(* ===================================================================== *)

Section Persist.

Context (env : Env).

Ltac run_download :=
  unfold result_of, world_after;
  repeat first
    [ rewrite run_try_except
    | rewrite run_bind
    | rewrite (run_split env (try_cache_set _ _)), try_cache_set_result
    | progress cbn [run act call lift step perform fst snd] ].

(** A download whose write ends well, or with a [CacheError], returns what
    it fetched. *)
Lemma download_returns_fetched (proc : Process) (f : Fetch) (key : string)
    (v : PyObj) (w : World) :
  reply_of env proc f = Ok v ->
  to_persist f v = true ->
  persist_outcome (dump_outcome env (cache_file key) v) = Ok tt ->
  result_of env (download_of proc f key) w = Ok v
  /\ forall m, cache_set_outcome key (dump_outcome env (cache_file key) v)
               = Err (CacheError m) ->
               In (EPrint m) (log (world_after env (download_of proc f key) w)).
Proof.
  intros Hreply Hkeep Hpersist.
  destruct f as [point dist|point dist tags name|boundary|boundary tags name];
    cbn [reply_of to_persist download_of] in *.
  - unfold download_graph.
    destruct (graph_from_point env point dist (OSM_NETWORK_TYPE proc)) as [[g|]|e] eqn:E;
      cbn [obj_of_graph] in Hreply; try discriminate;
      injection Hreply as <-; try discriminate.
    apply negb_true_iff in Hkeep.
    split.
    + run_download. rewrite E. cbn [run fst snd]. rewrite Hkeep.
      run_download. rewrite Hpersist. reflexivity.
    + intros m Hm. run_download. rewrite E. cbn [run fst snd]. rewrite Hkeep.
      run_download. rewrite Hpersist. cbn [run snd].
      fold (world_after env (try_cache_set key (PyGraph g))
              (emit (ESleep 300)
                 (tick env (emit (EProvider (GraphFromPoint point dist (OSM_NETWORK_TYPE proc)))
                    (tick env w))))).
      rewrite try_cache_set_log. unfold persist_events. rewrite Hm.
      apply in_or_app. right. left. reflexivity.
  - unfold download_features.
    destruct (features_from_point env point tags dist) as [[d|]|e] eqn:E;
      cbn [obj_of_frame] in Hreply; try discriminate;
      injection Hreply as <-; try discriminate.
    apply negb_true_iff in Hkeep.
    split.
    + run_download. rewrite E. cbn [run fst snd]. rewrite Hkeep.
      run_download. rewrite Hpersist. reflexivity.
    + intros m Hm. run_download. rewrite E. cbn [run fst snd]. rewrite Hkeep.
      run_download. rewrite Hpersist. cbn [run snd].
      fold (world_after env (try_cache_set key (PyFrame d))
              (emit (ESleep 200)
                 (tick env (emit (EProvider (FeaturesFromPoint point tags dist))
                    (tick env w))))).
      rewrite try_cache_set_log. unfold persist_events. rewrite Hm.
      apply in_or_app. right. left. reflexivity.
  - unfold download_graph_from_polygon.
    destruct (iloc0 boundary) as [polygon|e0]; try discriminate.
    destruct (graph_from_polygon env polygon (OSM_NETWORK_TYPE proc)) as [G|e] eqn:E;
      try discriminate. injection Hreply as <-.
    split.
    + run_download. rewrite E. cbn [run fst snd].
      run_download. rewrite Hpersist. reflexivity.
    + intros m Hm. run_download. rewrite E. cbn [run fst snd].
      run_download. rewrite Hpersist. cbn [run snd].
      fold (world_after env (try_cache_set key (obj_of_graph G))
              (emit (ESleep 200)
                 (tick env (emit (EProvider (GraphFromPolygon polygon (OSM_NETWORK_TYPE proc)))
                    (tick env w))))).
      rewrite try_cache_set_log. unfold persist_events. rewrite Hm.
      apply in_or_app. right. left. reflexivity.
  - unfold download_features_from_polygon.
    destruct (iloc0 boundary) as [polygon|e0]; try discriminate.
    destruct (features_from_polygon env polygon tags) as [data|e] eqn:E;
      try discriminate. injection Hreply as <-.
    split.
    + run_download. rewrite E. cbn [run fst snd].
      run_download. rewrite Hpersist. reflexivity.
    + intros m Hm. run_download. rewrite E. cbn [run fst snd].
      run_download. rewrite Hpersist. cbn [run snd].
      fold (world_after env (try_cache_set key (obj_of_frame data))
              (emit (ESleep 150)
                 (tick env (emit (EProvider (FeaturesFromPolygon polygon tags))
                    (tick env w))))).
      rewrite try_cache_set_log. unfold persist_events. rewrite Hm.
      apply in_or_app. right. left. reflexivity.
Qed.

End Persist.

Section Lost.

Context (env : Env).

Ltac run_download :=
  unfold result_of, world_after;
  repeat first
    [ rewrite run_try_except
    | rewrite run_bind
    | rewrite (run_split env (try_cache_set _ _)), try_cache_set_result
    | progress cbn [run act call lift step perform fst snd] ].

(** A download whose write ends with an exception other than [CacheError]
    loses what it fetched: the exception reaches the handler of the
    fetcher's outer [try]. *)
Lemma download_loses_fetched (proc : Process) (f : Fetch) (key : string)
    (v : PyObj) (w : World) (e : Exc) :
  reply_of env proc f = Ok v ->
  to_persist f v = true ->
  persist_outcome (dump_outcome env (cache_file key) v) = Err e ->
  result_of env (download_of proc f key) w = Ok PyNone.
Proof.
  intros Hreply Hkeep Hpersist.
  destruct f as [point dist|point dist tags name|boundary|boundary tags name];
    cbn [reply_of to_persist download_of] in *.
  - unfold download_graph.
    destruct (graph_from_point env point dist (OSM_NETWORK_TYPE proc)) as [[g|]|e0] eqn:E;
      cbn [obj_of_graph] in Hreply; try discriminate;
      injection Hreply as <-; try discriminate.
    apply negb_true_iff in Hkeep.
    run_download. rewrite E. cbn [run fst snd]. rewrite Hkeep.
    run_download. rewrite Hpersist. run_download. reflexivity.
  - unfold download_features.
    destruct (features_from_point env point tags dist) as [[d|]|e0] eqn:E;
      cbn [obj_of_frame] in Hreply; try discriminate;
      injection Hreply as <-; try discriminate.
    apply negb_true_iff in Hkeep.
    run_download. rewrite E. cbn [run fst snd]. rewrite Hkeep.
    run_download. rewrite Hpersist. run_download. reflexivity.
  - unfold download_graph_from_polygon.
    destruct (iloc0 boundary) as [polygon|e0]; try discriminate.
    destruct (graph_from_polygon env polygon (OSM_NETWORK_TYPE proc)) as [G|e0] eqn:E;
      try discriminate. injection Hreply as <-.
    run_download. rewrite E. cbn [run fst snd].
    run_download. rewrite Hpersist. run_download. reflexivity.
  - unfold download_features_from_polygon.
    destruct (iloc0 boundary) as [polygon|e0]; try discriminate.
    destruct (features_from_polygon env polygon tags) as [data|e0] eqn:E;
      try discriminate. injection Hreply as <-.
    run_download. rewrite E. cbn [run fst snd].
    run_download. rewrite Hpersist. run_download. reflexivity.
Qed.

End Lost.

(** C9, as the code has it.  [cache_set] turns two exceptions of the write
    into [CacheError], [pickle.PickleError] and [OSError], and lets every
    other one through.  An object that cannot be pickled does not always
    raise [pickle.PickleError]: for a lock, a generator or a module
    [pickle.dump] raises [TypeError].  Such a serialization failure leaves
    [cache_set] as the [TypeError] it is, not as a [CacheError]; the
    fetcher's [except CacheError] does not catch it, the handler of the
    outer [try] does, and the fetcher returns [None]: the write failure has
    cost the fetch what it had fetched.  A write that fails with a
    [CacheError] does not: then the fetcher returns the fetched object. *)
Theorem unpicklable_reply_aborts_the_fetch (env : Env) (proc : Process) (f : Fetch)
    (cb : option CacheCb) (w : World) (key : string) (v : PyObj) (fl : DumpFailure) :
  key_of proc f = Ok key ->
  cached_value (disk w) key = Ok PyNone ->
  reply_of env proc f = Ok v ->
  to_persist f v = true ->
  dump_outcome env (cache_file key) v = DumpFails fl ->
  (cache_failure (DumpFails fl) = true ->
   (exists m, result_of env (cache_set key v) w = Err (CacheError m))
   /\ result_of env (fetcher proc f cb) w = Ok v)
  /\ (cache_failure (DumpFails fl) = false ->
      result_of env (cache_set key v) w = Err (raised_by fl)
      /\ is_CacheError (raised_by fl) = false
      /\ result_of env (fetcher proc f cb) w = Ok PyNone)
  /\ (forall m, fl = UnpicklableFailure m ->
        result_of env (cache_set key v) w = Err (TypeError m)
        /\ result_of env (fetcher proc f cb) w = Ok PyNone).
Proof.
  intros Hkey Hmiss Hreply Hkeep Hdump.
  assert (Hlost : cache_failure (DumpFails fl) = false ->
            result_of env (cache_set key v) w = Err (raised_by fl)
            /\ is_CacheError (raised_by fl) = false
            /\ result_of env (fetcher proc f cb) w = Ok PyNone).
  { intros Hfail. rewrite cache_set_result, Hdump.
    assert (Hp : persist_outcome (dump_outcome env (cache_file key) v)
                 = Err (raised_by fl)).
    { rewrite Hdump. destruct fl; try discriminate; reflexivity. }
    split; [destruct fl; try discriminate; reflexivity|].
    split; [destruct fl; try discriminate; reflexivity|].
    rewrite (fetcher_shape proc f cb key Hkey). unfold result_of.
    rewrite (lookup_miss env key _ _ cb _ w Hmiss).
    exact (download_loses_fetched env proc f key v _ _ Hreply Hkeep Hp). }
  split; [|split].
  - intros Hfail. rewrite cache_set_result, Hdump. split.
    + destruct fl; try discriminate; eexists; reflexivity.
    + assert (Hp : persist_outcome (dump_outcome env (cache_file key) v) = Ok tt).
      { rewrite Hdump. destruct fl; try discriminate; reflexivity. }
      rewrite (fetcher_shape proc f cb key Hkey). unfold result_of.
      rewrite (lookup_miss env key _ _ cb _ w Hmiss).
      exact (proj1 (download_returns_fetched env proc f key v _ Hreply Hkeep Hp)).
  - exact Hlost.
  - intros m ->. destruct (Hlost eq_refl) as (Hset & _ & Hfetch). auto.
Qed.

Lemma unpicklable_reply_aborts_the_fetch_witness :
  result_of (with_dump (DumpFails (UnpicklableFailure "cannot pickle '_thread.lock' object"))
               calm)
    (cache_set (graph_key default_process jakarta 5000) (PyGraph two_nodes)) fresh_world
  = Err (TypeError "cannot pickle '_thread.lock' object")
  /\ result_of (with_dump (DumpFails (UnpicklableFailure "cannot pickle '_thread.lock' object"))
                  calm)
       (fetcher default_process (FetchGraph jakarta 5000) None) fresh_world
     = Ok PyNone.
Proof.
  apply (proj2 (proj2 (unpicklable_reply_aborts_the_fetch
           (with_dump (DumpFails (UnpicklableFailure "cannot pickle '_thread.lock' object"))
              calm)
           default_process (FetchGraph jakarta 5000) None fresh_world
           (graph_key default_process jakarta 5000) (PyGraph two_nodes)
           (UnpicklableFailure "cannot pickle '_thread.lock' object")
           eq_refl eq_refl eq_refl eq_refl eq_refl))
         "cannot pickle '_thread.lock' object" eq_refl).
Defined.

(* ===================================================================== *)
(** * What a cache write leaves behind                                    *)
(* ===================================================================== *)

Section Written.

Context (env : Env).

Lemma cache_set_disk (name : string) (obj : PyObj) (w : World) :
  disk (world_after env (cache_set name obj) w) =
  written name obj (dump_outcome env (cache_file name) obj) (disk w).
Proof.
  unfold world_after, cache_set, written. cbn [try_except call run step perform].
  destruct (dump_outcome env (cache_file name) obj) as [|[m|m o|m o|m]];
    cbn [raised_by file_opened is_PickleError is_OSError run snd];
    try destruct o; reflexivity.
Qed.

Lemma try_cache_set_disk (name : string) (obj : PyObj) (w : World) :
  disk (world_after env (try_cache_set name obj) w) =
  written name obj (dump_outcome env (cache_file name) obj) (disk w).
Proof.
  unfold world_after, try_cache_set.
  rewrite run_try_except, (run_split env (cache_set _ _)), cache_set_result.
  pose proof (cache_set_disk name obj w) as H.
  destruct (dump_outcome env (cache_file name) obj) as [|[m|m o|m o|m]];
    cbn [cache_set_outcome is_CacheError act run step perform snd disk emit];
    rewrite ?tick_disk; exact H.
Qed.

Ltac run_to_write :=
  unfold world_after;
  repeat first
    [ rewrite run_try_except
    | rewrite run_bind
    | rewrite (run_split env (try_cache_set _ _)), try_cache_set_result
    | progress cbn [run act call lift step perform fst snd] ].

(** A download that goes on to persist leaves on the disk what its write
    leaves. *)
Lemma download_disk (proc : Process) (f : Fetch) (key : string) (v : PyObj) (w : World) :
  reply_of env proc f = Ok v ->
  to_persist f v = true ->
  persist_outcome (dump_outcome env (cache_file key) v) = Ok tt ->
  disk (world_after env (download_of proc f key) w) =
  written key v (dump_outcome env (cache_file key) v) (disk w).
Proof.
  intros Hreply Hkeep Hpersist.
  destruct f as [point dist|point dist tags name|boundary|boundary tags name];
    cbn [reply_of to_persist download_of] in *.
  - unfold download_graph.
    destruct (graph_from_point env point dist (OSM_NETWORK_TYPE proc)) as [[g|]|e] eqn:E;
      cbn [obj_of_graph] in Hreply; try discriminate;
      injection Hreply as <-; try discriminate.
    apply negb_true_iff in Hkeep.
    run_to_write. rewrite E. cbn [run fst snd]. rewrite Hkeep.
    run_to_write. rewrite Hpersist. cbn [run snd].
    rewrite try_cache_set_disk. reflexivity.
  - unfold download_features.
    destruct (features_from_point env point tags dist) as [[d|]|e] eqn:E;
      cbn [obj_of_frame] in Hreply; try discriminate;
      injection Hreply as <-; try discriminate.
    apply negb_true_iff in Hkeep.
    run_to_write. rewrite E. cbn [run fst snd]. rewrite Hkeep.
    run_to_write. rewrite Hpersist. cbn [run snd].
    rewrite try_cache_set_disk. reflexivity.
  - unfold download_graph_from_polygon.
    destruct (iloc0 boundary) as [polygon|e0]; try discriminate.
    destruct (graph_from_polygon env polygon (OSM_NETWORK_TYPE proc)) as [G|e] eqn:E;
      try discriminate. injection Hreply as <-.
    run_to_write. rewrite E. cbn [run fst snd].
    run_to_write. rewrite Hpersist. cbn [run snd].
    rewrite try_cache_set_disk. reflexivity.
  - unfold download_features_from_polygon.
    destruct (iloc0 boundary) as [polygon|e0]; try discriminate.
    destruct (features_from_polygon env polygon tags) as [data|e] eqn:E;
      try discriminate. injection Hreply as <-.
    run_to_write. rewrite E. cbn [run fst snd].
    run_to_write. rewrite Hpersist. cbn [run snd].
    rewrite try_cache_set_disk. reflexivity.
Qed.

End Written.

Lemma before_download_disk (env : Env) key name cache_cb w :
  disk (before_download env key name cache_cb w) = disk w.
Proof. unfold before_download. rewrite report_cache_disk, cache_get_disk. reflexivity. Qed.

(** X2.  A write that succeeds is read back: [cache_get] after [cache_set]
    on the same name returns the object written. *)
Theorem cache_round_trip (env : Env) (name : string) (obj : PyObj) (w : World) :
  dump_outcome env (cache_file name) obj = DumpOk ->
  result_of env (cache_set name obj) w = Ok tt
  /\ result_of env (cache_get name) (world_after env (cache_set name obj) w) = Ok obj.
Proof.
  intros H. split.
  - rewrite cache_set_result, H. reflexivity.
  - rewrite cache_get_result, cache_set_disk, H. unfold written, cached_value.
    rewrite lookup_insert_eq. reflexivity.
Qed.

Lemma cache_round_trip_witness :
  result_of calm (cache_set "graph_-6.2_106.8_5000_drive" (PyGraph two_nodes)) fresh_world
  = Ok tt
  /\ result_of calm (cache_get "graph_-6.2_106.8_5000_drive")
       (world_after calm (cache_set "graph_-6.2_106.8_5000_drive" (PyGraph two_nodes))
          fresh_world)
     = Ok (PyGraph two_nodes).
Proof.
  apply (cache_round_trip calm "graph_-6.2_106.8_5000_drive" (PyGraph two_nodes)
           fresh_world).
  reflexivity.
Defined.



(** X4.  Within one process a fetch that persisted what it fetched is
    followed by hits: the next fetch of the same query returns the same
    object from the cache, prints the fetcher's cache line and reports a
    hit, without any provider call. *)
Theorem second_fetch_hits (env : Env) (proc : Process) (f : Fetch)
    (cb : option CacheCb) (cb' : CacheCb) (w : World) (key : string) (v : PyObj) :
  key_of proc f = Ok key ->
  cached_value (disk w) key = Ok PyNone ->
  reply_of env proc f = Ok v ->
  to_persist f v = true ->
  v <> PyNone ->
  dump_outcome env (cache_file key) v = DumpOk ->
  result_of env (fetcher proc f cb) w = Ok v
  /\ result_of env (fetcher proc f (Some cb')) (world_after env (fetcher proc f cb) w)
     = Ok v
  /\ log (world_after env (fetcher proc f (Some cb'))
            (world_after env (fetcher proc f cb) w))
     = log (world_after env (fetcher proc f cb) w)
       ++ [EPrint (hit_message f); ECacheCb (dataset f) true].
Proof.
  intros Hkey Hmiss Hreply Hkeep Hv Hdump.
  assert (Hp : persist_outcome (dump_outcome env (cache_file key) v) = Ok tt).
  { rewrite Hdump. reflexivity. }
  rewrite (fetcher_shape proc f cb key Hkey), (fetcher_shape proc f (Some cb') key Hkey).
  unfold result_of, world_after.
  rewrite !(lookup_miss env key _ _ cb _ w Hmiss).
  destruct (download_returns_fetched env proc f key v
              (before_download env key (dataset f) cb w) Hreply Hkeep Hp) as [Hr _].
  unfold result_of in Hr. split; [exact Hr|].
  assert (Hc : cached_value
                 (disk (snd (run env (download_of proc f key)
                               (before_download env key (dataset f) cb w)))) key = Ok v).
  { pose proof (download_disk env proc f key v
                    (before_download env key (dataset f) cb w) Hreply Hkeep Hp) as Hd.
    unfold world_after in Hd. rewrite Hd, before_download_disk, Hdump.
    unfold written, cached_value. rewrite lookup_insert_eq.
    reflexivity. }
  destruct (lookup_hit env key (hit_message f) (dataset f) (Some cb')
              (download_of proc f key) _ v Hc Hv) as (H1 & H2 & _).
  unfold result_of, world_after in H1, H2. split; [exact H1|exact H2].
Qed.

Lemma second_fetch_hits_witness :
  result_of calm (fetcher first_process (FetchGraphFromPolygon triangle) None) fresh_world
  = Ok (PyGraph two_nodes)
  /\ result_of calm (fetcher first_process (FetchGraphFromPolygon triangle) (Some broken_cb))
       (world_after calm (fetcher first_process (FetchGraphFromPolygon triangle) None)
          fresh_world)
     = Ok (PyGraph two_nodes)
  /\ log (world_after calm
            (fetcher first_process (FetchGraphFromPolygon triangle) (Some broken_cb))
            (world_after calm (fetcher first_process (FetchGraphFromPolygon triangle) None)
               fresh_world))
     = log (world_after calm (fetcher first_process (FetchGraphFromPolygon triangle) None)
              fresh_world)
       ++ [EPrint (hit_message (FetchGraphFromPolygon triangle));
           ECacheCb (dataset (FetchGraphFromPolygon triangle)) true].
Proof.
  apply (second_fetch_hits calm first_process (FetchGraphFromPolygon triangle) None
           broken_cb fresh_world
           (graph_polygon_key first_process "POLYGON ((0 0, 1 0, 1 1, 0 0))")
           (PyGraph two_nodes));
    first [reflexivity | discriminate].
Defined.

(* ===================================================================== *)
(** * What a fetcher's result depends on                                  *)
(* ===================================================================== *)

Lemma provider_calls_app (evs1 evs2 : list Event) :
  provider_calls (evs1 ++ evs2) = provider_calls evs1 ++ provider_calls evs2.
Proof. apply omap_app. Qed.

(** A fetcher's result and its provider calls are fixed by the disk it
    finds and by the services of the environment: not by the callback, the
    registry, the clock or a pending cancellation. *)
Lemma fetcher_agrees (env env' : Env) (proc : Process) (f : Fetch)
    (cb cb' : option CacheCb) (w w' : World) :
  same_services env env' ->
  disk w = disk w' ->
  result_of env (fetcher proc f cb) w = result_of env' (fetcher proc f cb') w'
  /\ exists evs evs',
       log (world_after env (fetcher proc f cb) w) = log w ++ evs
       /\ log (world_after env' (fetcher proc f cb') w') = log w' ++ evs'
       /\ provider_calls evs = provider_calls evs'.
Proof.
  intros Hsame Hdisk.
  destruct (key_of proc f) as [key|e] eqn:Hkey.
  - rewrite !(fetcher_shape proc f _ key Hkey).
    destruct (cached_value (disk w) key) as [obj|e] eqn:Hc.
    + assert (Hc' : cached_value (disk w') key = Ok obj) by (rewrite <- Hdisk; exact Hc).
      destruct (is_None obj) eqn:Hobj.
      * destruct obj; try discriminate. unfold result_of, world_after.
        rewrite (lookup_miss env key _ _ cb _ w Hc), (lookup_miss env' key _ _ cb' _ w' Hc').
        destruct (steady_run env env' Hsame _ (steady_download proc f key))
          as (r & evs & _ & Hrun & Hrun').
        destruct (Hrun (before_download env key (dataset f) cb w)) as [E1 L1].
        destruct (Hrun' (before_download env' key (dataset f) cb' w')) as [E2 L2].
        unfold result_of, world_after in E1, E2, L1, L2. rewrite E1, E2, L1, L2.
        split; [reflexivity|].
        rewrite !before_download_log, <- !app_assoc.
        eexists _, _. split; [reflexivity|]. split; [reflexivity|].
        rewrite !provider_calls_app. destruct cb, cb'; reflexivity.
      * assert (Hn : obj <> PyNone) by (intros ->; discriminate).
        destruct (lookup_hit env key (hit_message f) (dataset f) cb
                    (download_of proc f key) w obj Hc Hn) as (E1 & L1 & _).
        destruct (lookup_hit env' key (hit_message f) (dataset f) cb'
                    (download_of proc f key) w' obj Hc' Hn) as (E2 & L2 & _).
        rewrite E1, E2, L1, L2. split; [reflexivity|].
        eexists _, _. split; [reflexivity|]. split; [reflexivity|].
        destruct cb, cb'; reflexivity.
    + assert (Hc' : cached_value (disk w') key = Err e) by (rewrite <- Hdisk; exact Hc).
      destruct (lookup_raises env key (hit_message f) (dataset f) cb
                  (download_of proc f key) w e Hc) as (E1 & L1).
      destruct (lookup_raises env' key (hit_message f) (dataset f) cb'
                  (download_of proc f key) w' e Hc') as (E2 & L2).
      rewrite E1, E2, L1, L2. split; [reflexivity|].
      exists [], []. rewrite !app_nil_r. auto.
  - unfold result_of, world_after.
    rewrite (fetcher_no_key env proc f cb e w Hkey), (fetcher_no_key env' proc f cb' e w' Hkey).
    split; [reflexivity|]. exists [], []. rewrite !app_nil_r. auto.
Qed.

(* ===================================================================== *)
(** * A faulty cache callback                                             *)
(* ===================================================================== *)

(** C10.  Whatever two callbacks do - update the registry, raise, or both -
    a fetcher returns the same result with either of them, and the same
    result as without a callback: an exception of the callback is swallowed
    and changes nothing in what is fetched. *)
Theorem callback_cannot_change_result (env : Env) (proc : Process) (f : Fetch)
    (cb cb' : option CacheCb) (w : World) :
  result_of env (fetcher proc f cb) w = result_of env (fetcher proc f cb') w.
Proof.
  apply (fetcher_agrees env env proc f cb cb' w w (same_services_refl env) eq_refl).
Qed.

(* ===================================================================== *)
(** * The cancellation checkpoint of a round's fetchers                   *)
(* ===================================================================== *)

Lemma round_fetcher_shape proc layer boundary point dist task_id :
  round_fetcher proc layer boundary point dist task_id =
  (act (set_progress_step (step_name layer) 10);;
   act (update_progress task_id (announcement layer));;
   let* cancelled := act (is_cancelled task_id) in
   if (cancelled : bool) then Ret PyNone
   else past_checkpoint proc layer boundary point dist task_id).
Proof. destruct layer; reflexivity. Qed.

Lemma same_services_without_cancel (env : Env) : same_services env (without_cancel env).
Proof. repeat split. Qed.

(** The flag of a job is not cleared by an update that does not mention it,
    nor by a cancellation. *)
Lemma is_cancelled_update (task_id t : string) (payload : JobStatus) (r : Registry) :
  js_cancelled payload = None ->
  _is_cancelled task_id (_update_progress t payload r) = _is_cancelled task_id r.
Proof.
  intros H. unfold _is_cancelled, _update_progress. cbn [progress_status].
  destruct (decide (t = task_id)) as [->|Hne].
  - rewrite lookup_insert_eq. unfold default at 1, id, dict_update.
    cbn [js_cancelled]. rewrite H. reflexivity.
  - rewrite lookup_insert_ne by exact Hne. reflexivity.
Qed.

Lemma is_cancelled_api_cancel (task_id t : string) (r : Registry) :
  _is_cancelled task_id r = true -> _is_cancelled task_id (api_cancel t r) = true.
Proof.
  intros H. unfold api_cancel. destruct (progress_status r !! t) as [job|] eqn:E; [|exact H].
  unfold _is_cancelled, _update_progress. cbn [progress_status].
  destruct (decide (t = task_id)) as [->|Hne].
  - rewrite lookup_insert_eq. reflexivity.
  - rewrite lookup_insert_ne by exact Hne. exact H.
Qed.

Lemma is_cancelled_tick (env : Env) (task_id : string) (w : World) :
  _is_cancelled task_id (registry w) = true ->
  _is_cancelled task_id (registry (tick env w)) = true.
Proof.
  intros H. unfold tick. cbn [registry].
  destruct (cancel_request env) as [[n t]|]; [|exact H].
  destruct (Nat.eqb n (ticks w)); [|exact H].
  apply is_cancelled_api_cancel, H.
Qed.

(** A tick on which no cancellation is due only advances the clock. *)
Lemma tick_not_due (env : Env) (n : nat) (task_id : string) (w : World) :
  cancel_request env = Some (n, task_id) -> (ticks w < n)%nat ->
  tick env w = tick (without_cancel env) w.
Proof.
  intros H Hlt. unfold tick. rewrite H. cbn [cancel_request without_cancel].
  replace (Nat.eqb n (ticks w)) with false; [reflexivity|].
  symmetry. apply Nat.eqb_neq. lia.
Qed.

Section Checkpoint.

Context (env : Env) (proc : Process) (layer : Layer)
  (boundary : option GeoDataFrame) (point : option Point) (dist : option Z)
  (task_id : string).

Lemma run_to_checkpoint (e : Env) (w : World) :
  run e (round_fetcher proc layer boundary point dist task_id) w =
  if _is_cancelled task_id (registry (at_checkpoint layer task_id e w)) then
    (Ok PyNone, at_checkpoint layer task_id e w)
  else run e (past_checkpoint proc layer boundary point dist task_id) (at_checkpoint layer task_id e w).
Proof.
  rewrite round_fetcher_shape. unfold at_checkpoint.
  cbn [bind act run step perform snd].
  match goal with
  | |- context [_is_cancelled task_id ?r] => destruct (_is_cancelled task_id r)
  end; reflexivity.
Qed.

Lemma at_checkpoint_log (e : Env) (w : World) :
  log (at_checkpoint layer task_id e w) = log w ++ [EUpdate task_id (announcement layer)].
Proof. reflexivity. Qed.

Lemma announcement_keeps_flag : js_cancelled (announcement layer) = None.
Proof. destruct layer; reflexivity. Qed.

Lemma cancelled_at_checkpoint (w : World) :
  _is_cancelled task_id (registry w) = true ->
  _is_cancelled task_id (registry (at_checkpoint layer task_id env w)) = true.
Proof.
  intros H. unfold at_checkpoint, step. cbn [perform snd].
  apply (is_cancelled_tick env). cbn [registry with_registry emit].
  rewrite is_cancelled_update by apply announcement_keeps_flag.
  apply (is_cancelled_tick env). cbn [registry with_registry].
  unfold _is_cancelled. cbn [progress_status].
  apply (is_cancelled_tick env) in H. exact H.
Qed.

Lemma not_cancelled_at_checkpoint (n : nat) (w : World) :
  _is_cancelled task_id (registry w) = false ->
  cancel_request env = Some (n, task_id) -> (ticks w + 3 <= n)%nat ->
  at_checkpoint layer task_id env w = at_checkpoint layer task_id (without_cancel env) w
  /\ _is_cancelled task_id (registry (at_checkpoint layer task_id env w)) = false.
Proof.
  intros H Hreq Hn.
  assert (E : at_checkpoint layer task_id env w = at_checkpoint layer task_id (without_cancel env) w).
  { unfold at_checkpoint, step. cbn [perform snd].
    rewrite !(tick_not_due env n task_id _ Hreq)
      by (unfold tick, with_registry, emit; cbn [ticks]; lia).
    reflexivity. }
  split; [exact E|]. rewrite E.
  unfold at_checkpoint, step, tick.
  cbn [perform snd without_cancel cancel_request registry with_registry emit].
  rewrite is_cancelled_update by apply announcement_keeps_flag.
  exact H.
Qed.

End Checkpoint.

Lemma past_checkpoint_shape proc layer boundary point dist task_id :
  past_checkpoint proc layer boundary point dist task_id =
  shielded layer
    match layer_fetch layer boundary point dist with
    | Some f => fetcher proc f (Some (round_cache_cb task_id))
    | None => Raise (TypeError "cannot unpack non-iterable NoneType object")
    end.
Proof.
  destruct layer; cbn [past_checkpoint shielded layer_fetch]; unfold fetch_layer.
  - destruct boundary as [b|]; [reflexivity|].
    destruct point as [p|], dist as [d|]; reflexivity.
  - f_equal. destruct boundary as [b|].
    + destruct (negb (empty b)); [reflexivity|].
      destruct point as [p|], dist as [d|]; reflexivity.
    + destruct point as [p|], dist as [d|]; reflexivity.
  - f_equal. destruct boundary as [b|].
    + destruct (negb (empty b)); [reflexivity|].
      destruct point as [p|], dist as [d|]; reflexivity.
    + destruct point as [p|], dist as [d|]; reflexivity.
Qed.

(** Shielding adds no provider call. *)
Lemma shielded_agrees (env env' : Env) (layer : Layer) (p p' : Prog PyObj)
    (w w' : World) :
  result_of env p w = result_of env' p' w' ->
  (exists evs evs',
     log (world_after env p w) = log w ++ evs
     /\ log (world_after env' p' w') = log w' ++ evs'
     /\ provider_calls evs = provider_calls evs') ->
  result_of env (shielded layer p) w = result_of env' (shielded layer p') w'
  /\ exists evs evs',
       log (world_after env (shielded layer p) w) = log w ++ evs
       /\ log (world_after env' (shielded layer p') w') = log w' ++ evs'
       /\ provider_calls evs = provider_calls evs'.
Proof.
  intros Hr (evs & evs' & L & L' & Hp).
  destruct layer; cbn [shielded]; [split; [exact Hr|exists evs, evs'; auto]|..];
    unfold result_of, world_after in *;
    rewrite !run_try_except;
    destruct (run env p w) as [[v|e] w1], (run env' p' w') as [[v'|e'] w1'];
    cbn [fst snd] in *; try discriminate;
    try (split; [exact Hr|exists evs, evs'; auto]);
    injection Hr as <-;
    cbn [bind act run step perform fst snd log emit];
    rewrite !tick_log, L, L';
    (split; [reflexivity|]);
    eexists (evs ++ [_]), (evs' ++ [_]);
    rewrite <- !app_assoc;
    (split; [reflexivity|]); (split; [reflexivity|]);
    rewrite !provider_calls_app, Hp; reflexivity.
Qed.

Lemma past_checkpoint_agrees (env env' : Env) proc layer boundary point dist task_id
    (w w' : World) :
  same_services env env' -> disk w = disk w' ->
  result_of env (past_checkpoint proc layer boundary point dist task_id) w =
  result_of env' (past_checkpoint proc layer boundary point dist task_id) w'
  /\ exists evs evs',
       log (world_after env (past_checkpoint proc layer boundary point dist task_id) w)
       = log w ++ evs
       /\ log (world_after env' (past_checkpoint proc layer boundary point dist task_id) w')
          = log w' ++ evs'
       /\ provider_calls evs = provider_calls evs'.
Proof.
  intros Hsame Hdisk. rewrite past_checkpoint_shape.
  destruct (layer_fetch layer boundary point dist) as [f|].
  - destruct (fetcher_agrees env env' proc f (Some (round_cache_cb task_id))
                (Some (round_cache_cb task_id)) w w' Hsame Hdisk) as [Hr Hl].
    apply shielded_agrees; assumption.
  - apply shielded_agrees; [reflexivity|].
    exists [], []. rewrite !app_nil_r. auto.
Qed.

(** C4.  Each of the three fetchers of a round publishes its phase and then
    reads the job's cancellation flag, once.  If the flag is set when the
    fetcher starts, the fetcher returns [None] and the only thing it has
    done is that publication: no provider call.  If the flag is not set
    and the client's cancellation lands after the flag has been read (three
    actions into the fetcher), the fetcher returns exactly what it returns
    when no cancellation ever comes, with the same provider calls. *)
Theorem cancellation_is_checked_at_the_start (env : Env) (proc : Process)
    (layer : Layer) (boundary : option GeoDataFrame) (point : option Point)
    (dist : option Z) (task_id : string) (w : World) :
  (_is_cancelled task_id (registry w) = true ->
   result_of env (round_fetcher proc layer boundary point dist task_id) w = Ok PyNone
   /\ log (world_after env (round_fetcher proc layer boundary point dist task_id) w) =
      log w ++ [EUpdate task_id (announcement layer)])
  /\ (forall n,
        _is_cancelled task_id (registry w) = false ->
        cancel_request env = Some (n, task_id) ->
        (ticks w + 3 <= n)%nat ->
        result_of env (round_fetcher proc layer boundary point dist task_id) w =
        result_of (without_cancel env)
          (round_fetcher proc layer boundary point dist task_id) w
        /\ exists evs evs',
             log (world_after env
                    (round_fetcher proc layer boundary point dist task_id) w)
             = log w ++ evs
             /\ log (world_after (without_cancel env)
                       (round_fetcher proc layer boundary point dist task_id) w)
                = log w ++ evs'
             /\ provider_calls evs = provider_calls evs').
Proof.
  split.
  - intros H. unfold result_of, world_after. rewrite run_to_checkpoint.
    rewrite (cancelled_at_checkpoint env layer task_id w H). cbn [fst snd].
    split; [reflexivity|apply at_checkpoint_log].
  - intros n H Hreq Hn. unfold result_of, world_after. rewrite !run_to_checkpoint.
    destruct (not_cancelled_at_checkpoint env layer task_id n w H Hreq Hn) as [E Hc].
    rewrite <- E, Hc.
    destruct (past_checkpoint_agrees env (without_cancel env) proc layer boundary point dist
                task_id (at_checkpoint layer task_id env w) (at_checkpoint layer task_id env w)
                (same_services_without_cancel env) eq_refl) as [Hr (evs & evs' & L & L' & Hp)].
    split; [exact Hr|].
    unfold world_after in L, L'.
    exists (EUpdate task_id (announcement layer) :: evs),
           (EUpdate task_id (announcement layer) :: evs').
    rewrite L, L', at_checkpoint_log, <- !app_assoc. cbn [app provider_calls omap].
    split; [reflexivity|]. split; [reflexivity|]. exact Hp.
Qed.

Lemma cancellation_is_checked_at_the_start_witness :
  (result_of calm
     (round_fetcher default_process Streets None (Some jakarta) (Some 5000) "job")
     cancelled_world = Ok PyNone
   /\ log (world_after calm
              (round_fetcher default_process Streets None (Some jakarta) (Some 5000) "job")
              cancelled_world) =
      log cancelled_world ++ [EUpdate "job" (announcement Streets)])
  /\ (result_of (with_cancel 3 "job" calm)
        (round_fetcher default_process Streets None (Some jakarta) (Some 5000) "job")
        fresh_world =
      result_of (without_cancel (with_cancel 3 "job" calm))
        (round_fetcher default_process Streets None (Some jakarta) (Some 5000) "job")
        fresh_world
      /\ exists evs evs',
           log (world_after (with_cancel 3 "job" calm)
                  (round_fetcher default_process Streets None (Some jakarta) (Some 5000)
                     "job") fresh_world)
           = log fresh_world ++ evs
           /\ log (world_after (without_cancel (with_cancel 3 "job" calm))
                     (round_fetcher default_process Streets None (Some jakarta)
                        (Some 5000) "job") fresh_world)
              = log fresh_world ++ evs'
           /\ provider_calls evs = provider_calls evs').
Proof.
  split.
  - apply (proj1 (cancellation_is_checked_at_the_start calm default_process Streets None
                    (Some jakarta) (Some 5000) "job" cancelled_world)).
    vm_compute. reflexivity.
  - apply (proj2 (cancellation_is_checked_at_the_start (with_cancel 3 "job" calm)
                    default_process Streets None (Some jakarta) (Some 5000) "job"
                    fresh_world) 3%nat).
    + reflexivity.
    + reflexivity.
    + cbn. lia.
Defined.

(* ===================================================================== *)
(** * What programs log                                                   *)
(* ===================================================================== *)

Lemma step_logged (env : Env) {X} (a : Action X) (w : World) :
  log (snd (step env a w)) = log w ++ logged a.
Proof.
  unfold step. destruct a; cbn [perform logged];
    repeat match goal with
    | |- context [match ?x with _ => _ end] => destruct x
    end; cbn [snd log emit with_registry with_disk]; rewrite ?tick_log, ?app_nil_r;
    reflexivity.
Qed.

Section Confined.

Context (P : Event -> Prop).

Lemma confined_bind {A B} (p : Prog A) (f : A -> Prog B) :
  confined P p -> (forall a, confined P (f a)) -> confined P (bind p f).
Proof.
  intros Hp Hf. induction Hp as [r|e|X a k Ha Hk IH]; cbn [bind].
  - apply Hf.
  - constructor.
  - constructor; [exact Ha|exact IH].
Qed.

Lemma confined_try_except {A} (p : Prog A) (handler : Exc -> Prog A) :
  confined P p -> (forall e, confined P (handler e)) -> confined P (try_except p handler).
Proof.
  intros Hp Hh. induction Hp as [r|e|X a k Ha Hk IH]; cbn [try_except].
  - constructor.
  - apply Hh.
  - constructor; [exact Ha|exact IH].
Qed.

Lemma confined_act {X} (a : Action X) : Forall P (logged a) -> confined P (act a).
Proof. intros H. constructor; [exact H|intros x; constructor]. Qed.

Lemma confined_call {X} (a : Action (Result X)) :
  Forall P (logged a) -> confined P (call a).
Proof. intros H. constructor; [exact H|intros [x|e]; constructor]. Qed.

Lemma confined_run (env : Env) {R} (p : Prog R) (w : World) :
  confined P p ->
  exists evs, log (snd (run env p w)) = log w ++ evs /\ Forall P evs.
Proof.
  intros Hp. revert w. induction Hp as [r|e|X a k Ha Hk IH]; intros w; cbn [run].
  - exists []. rewrite app_nil_r. auto.
  - exists []. rewrite app_nil_r. auto.
  - pose proof (step_logged env a w) as H1.
    destruct (step env a w) as [x w1]. cbn [snd] in H1.
    destruct (IH x w1) as (evs & H2 & Q).
    exists (logged a ++ evs). rewrite H2, H1, app_assoc. split; [reflexivity|].
    apply Forall_app. auto.
Qed.

End Confined.

Lemma steady_confined {R} (p : Prog R) (P : Event -> Prop) :
  (forall ev, plain ev -> P ev) -> steady p -> confined P p.
Proof.
  intros HP. induction 1 as [r|e|X a k Ha Hk IH]; constructor; [|exact IH].
  destruct a; cbn [oblivious] in Ha; try discriminate; cbn [logged];
    repeat constructor; apply HP; exact I.
Qed.

(* ===================================================================== *)
(** * Thread pools                                                        *)
(* ===================================================================== *)

Section Pool.

Context (env : Env) {R : Type}.

Lemma advance_spec (P : Event -> Prop) (i : nat) (p : Prog R) (w : World) :
  confined P p ->
  exists evs,
    log (snd (advance env i p w)) = log w ++ evs
    /\ Forall (pool_event P) evs
    /\ confined P (fst (advance env i p w))
    /\ (finished (fst (advance env i p w)) = true ->
        finished p = true \/ In (EResolved i) evs).
Proof.
  intros Hp. destruct Hp as [r|e|X a k Ha Hk]; cbn [advance].
  - exists []. rewrite app_nil_r. repeat split; auto; constructor.
  - exists []. rewrite app_nil_r. repeat split; auto; constructor.
  - pose proof (step_logged env a w) as H1.
    destruct (step env a w) as [x w1]. cbn [fst snd] in *.
    destruct (finished (k x)) eqn:F.
    + exists (logged a ++ [EResolved i]). cbn [log emit]. rewrite H1, app_assoc.
      split; [reflexivity|]. split.
      * apply Forall_app. split.
        -- eapply Forall_impl; [exact Ha|]. intros ev Hev. left. exact Hev.
        -- constructor; [right; eexists; reflexivity|constructor].
      * split; [apply Hk|]. intros _. right. apply in_or_app. right. left. reflexivity.
    + exists (logged a). split; [exact H1|]. split.
      * eapply Forall_impl; [exact Ha|]. intros ev Hev. left. exact Hev.
      * split; [apply Hk|]. intros H. discriminate.
Qed.

(** However the workers are interleaved, the log grows by pool events, the
    workers stay confined, and a worker that has finished either started
    finished or has had its resolution logged. *)
Lemma interleave_spec (P : Event -> Prop) (schedule : list nat) (tasks : list (Prog R))
    (w : World) :
  Forall (confined P) tasks ->
  exists evs,
    log (snd (interleave env schedule tasks w)) = log w ++ evs
    /\ Forall (pool_event P) evs
    /\ Forall (confined P) (fst (interleave env schedule tasks w))
    /\ length (fst (interleave env schedule tasks w)) = length tasks
    /\ (forall i p', fst (interleave env schedule tasks w) !! i = Some p' ->
          finished p' = true ->
          (exists p, tasks !! i = Some p /\ finished p = true)
          \/ In (EResolved i) evs).
Proof.
  revert tasks w. induction schedule as [|i rest IH]; intros tasks w Hc; cbn [interleave].
  - exists []. rewrite app_nil_r. cbn [fst snd]. repeat split; auto.
    intros i p' H F. left. exists p'. auto.
  - destruct (tasks !! i) as [p|] eqn:E.
    + assert (Hp : confined P p).
      { rewrite Forall_lookup in Hc. exact (Hc i p E). }
      destruct (advance_spec P i p w Hp) as (evs1 & L1 & Q1 & C1 & F1).
      destruct (advance env i p w) as [p1 w1]. cbn [fst snd] in *.
      assert (Hc1 : Forall (confined P) (<[i := p1]> tasks)).
      { apply Forall_insert; assumption. }
      destruct (IH (<[i := p1]> tasks) w1 Hc1) as (evs2 & L2 & Q2 & C2 & N2 & F2).
      exists (evs1 ++ evs2). rewrite L2, L1, app_assoc. split; [reflexivity|].
      split; [apply Forall_app; auto|]. split; [exact C2|].
      split; [rewrite N2; apply length_insert|].
      intros j p' Hj Fj. destruct (F2 j p' Hj Fj) as [(q & Hq & Fq)|Hin].
      * destruct (decide (i = j)) as [->|Hne].
        -- rewrite list_lookup_insert_eq in Hq by (eapply lookup_lt_Some; exact E).
           injection Hq as <-. destruct (F1 Fq) as [Fp|Hin].
           ++ left. exists p. auto.
           ++ right. apply in_or_app. left. exact Hin.
        -- rewrite list_lookup_insert_ne in Hq by exact Hne. left. exists q. auto.
      * right. apply in_or_app. right. exact Hin.
    + apply IH. exact Hc.
Qed.

(** Joining runs every worker that is left to its end and logs its
    resolution. *)
Lemma join_all_spec (P : Event -> Prop) (i : nat) (tasks : list (Prog R)) (w : World) :
  Forall (confined P) tasks ->
  exists evs,
    log (snd (join_all env i tasks w)) = log w ++ evs
    /\ Forall (pool_event P) evs
    /\ length (fst (join_all env i tasks w)) = length tasks
    /\ (forall j p, tasks !! j = Some p -> finished p = false ->
          In (EResolved (i + j)) evs).
Proof.
  revert i w. induction tasks as [|p rest IH]; intros i w Hc; cbn [join_all].
  - exists []. rewrite app_nil_r. cbn [fst snd]. repeat split; auto.
    intros j p H. rewrite lookup_nil in H. discriminate.
  - apply Forall_cons in Hc as [Hp Hrest].
    destruct (confined_run P env p w Hp) as (evs1 & L1 & Q1).
    destruct (run env p w) as [r w1] eqn:Erun. cbn [snd] in L1.
    set (w2 := if finished p then w1 else emit (EResolved i) w1).
    destruct (IH (S i) w2 Hrest) as (evs2 & L2 & Q2 & N2 & F2).
    destruct (join_all env (S i) rest w2) as [rs w3]. cbn [fst snd] in *.
    exists (evs1 ++ (if finished p then [] else [EResolved i]) ++ evs2).
    split.
    { rewrite L2. subst w2. destruct (finished p); cbn [log emit app];
        rewrite L1, <- ?app_assoc; reflexivity. }
    split.
    { apply Forall_app. split; [eapply Forall_impl; [exact Q1|]; intros ev H; left; exact H|].
      apply Forall_app. split; [|exact Q2].
      destruct (finished p); constructor; [right; eexists; reflexivity|constructor]. }
    split; [cbn [length]; rewrite N2; reflexivity|].
    intros [|j] q Hq Fq; cbn [lookup list_lookup] in Hq.
    + injection Hq as <-. rewrite Fq, Nat.add_0_r.
      apply in_or_app. right. left. reflexivity.
    + apply in_or_app. right. apply in_or_app. right.
      replace (i + S j)%nat with (S i + j)%nat by lia. eapply F2; eassumption.
Qed.

(** The pool leaves the [with] block only after every worker that had
    something to run has resolved. *)
Lemma pool_spec (P : Event -> Prop) (schedule : list nat) (tasks : list (Prog R))
    (w : World) :
  Forall (confined P) tasks ->
  Forall (fun p => finished p = false) tasks ->
  exists evs,
    log (snd (pool env schedule tasks w)) = log w ++ evs
    /\ Forall (pool_event P) evs
    /\ length (fst (pool env schedule tasks w)) = length tasks
    /\ (forall i, (i < length tasks)%nat -> In (EResolved i) evs).
Proof.
  intros Hc Hu. unfold pool.
  destruct (interleave_spec P schedule tasks w Hc) as (evs1 & L1 & Q1 & C1 & N1 & F1).
  destruct (interleave env schedule tasks w) as [tasks1 w1]. cbn [fst snd] in *.
  destruct (join_all_spec P 0 tasks1 w1 C1) as (evs2 & L2 & Q2 & N2 & F2).
  exists (evs1 ++ evs2). rewrite L2, L1, app_assoc. split; [reflexivity|].
  split; [apply Forall_app; auto|]. split; [rewrite N2, N1; reflexivity|].
  intros i Hi. rewrite <- N1 in Hi.
  destruct (lookup_lt_is_Some_2 tasks1 i Hi) as [p1 Hp1].
  destruct (finished p1) eqn:Fp.
  - destruct (F1 i p1 Hp1 Fp) as [(p & Hp & Fq)|Hin].
    + rewrite Forall_lookup in Hu. rewrite (Hu i p Hp) in Fq. discriminate.
    + apply in_or_app. left. exact Hin.
  - apply in_or_app. right. exact (F2 i p1 Hp1 Fp).
Qed.

End Pool.

(* ===================================================================== *)
(** * The parallel fetch round                                            *)
(* ===================================================================== *)

Lemma plain_before_join (ev : Event) : plain ev -> before_join ev.
Proof. destruct ev; cbn [plain]; intros H t; try discriminate; destruct H. Qed.

Lemma confined_cache_get (P : Event -> Prop) (name : string) : confined P (cache_get name).
Proof.
  unfold cache_get. constructor; [constructor|]. intros [|].
  - apply confined_call. constructor.
  - constructor.
Qed.

Lemma confined_report_cache (P : Event -> Prop) cache_cb name hit :
  P (ECacheCb name hit) -> confined P (_report_cache cache_cb name hit).
Proof.
  intros H. unfold _report_cache. destruct cache_cb as [cb|]; [|constructor].
  apply confined_try_except; [|intros e; constructor].
  apply confined_call. repeat constructor. exact H.
Qed.

Lemma confined_fetcher (P : Event -> Prop) (proc : Process) (f : Fetch)
    (cache_cb : option CacheCb) :
  (forall ev, plain ev -> P ev) ->
  (forall name hit, P (ECacheCb name hit)) ->
  confined P (fetcher proc f cache_cb).
Proof.
  intros Hplain Hcb. destruct (key_of proc f) as [key|e] eqn:Hkey.
  - rewrite (fetcher_shape proc f cache_cb key Hkey). unfold lookup_then.
    apply confined_bind; [apply confined_cache_get|]. intros cached.
    destruct (negb (is_None cached)).
    + apply confined_bind.
      { apply confined_act. repeat constructor. apply Hplain. exact I. }
      intros _. apply confined_bind; [apply confined_report_cache, Hcb|].
      intros _. constructor.
    + apply confined_bind; [apply confined_report_cache, Hcb|]. intros _.
      apply steady_confined; [exact Hplain|apply steady_download].
  - destruct f as [point dist|point dist tags name|boundary|boundary tags name];
      cbn [key_of] in Hkey; try discriminate; cbn [fetcher];
      unfold fetch_graph_from_polygon, fetch_features_from_polygon;
      destruct (iloc0 boundary); try discriminate; constructor.
Qed.

Lemma confined_round_fetcher proc layer boundary point dist task_id :
  confined before_join (round_fetcher proc layer boundary point dist task_id).
Proof.
  rewrite round_fetcher_shape.
  apply confined_bind; [apply confined_act; constructor|]. intros _.
  apply confined_bind.
  { apply confined_act. repeat constructor. intros t H.
    injection H as _ H. destruct layer; discriminate. }
  intros _. apply confined_bind; [apply confined_act; constructor|]. intros [|].
  { constructor. }
  rewrite past_checkpoint_shape.
  assert (Hinner : confined before_join
            match layer_fetch layer boundary point dist with
            | Some f => fetcher proc f (Some (round_cache_cb task_id))
            | None => Raise (TypeError "cannot unpack non-iterable NoneType object")
            end).
  { destruct (layer_fetch layer boundary point dist) as [f|]; [|constructor].
    apply confined_fetcher; [exact plain_before_join|]. intros name hit t H. discriminate. }
  destruct layer; cbn [shielded]; [exact Hinner|..];
    (apply confined_try_except; [exact Hinner|]); intros e;
    (apply confined_bind; [|intros _; constructor]);
    apply confined_act; repeat constructor; intros t H; discriminate.
Qed.

(** C6.  In a fetch round, whatever the schedule of the three workers, the
    log of the round has this shape: first the events of the pool, among
    them the resolution of each of the three futures (streets, water,
    parks) and not the closing update; then, unless a future's result
    raised, the coordinator's closing update ("all data fetched"), once, as
    the last event.  So the closing update comes after all three
    resolutions. *)
Theorem closing_update_follows_the_join (env : Env) (proc : Process)
    (schedule : list nat) (boundary : option GeoDataFrame) (point : option Point)
    (dist : option Z) (task_id : string) (w : World) :
  exists evs,
    In (EResolved 0) evs /\ In (EResolved 1) evs /\ In (EResolved 2) evs
    /\ Forall (fun ev => forall t, ev <> EUpdate t all_fetched) evs
    /\ (log (snd (fetch_map_data_parallel env proc schedule boundary point dist task_id w))
        = log w ++ evs ++ [EUpdate task_id all_fetched]
        \/ (log (snd (fetch_map_data_parallel env proc schedule boundary point dist
                        task_id w))
            = log w ++ evs
            /\ exists e,
                 fst (fetch_map_data_parallel env proc schedule boundary point dist
                        task_id w) = Err e)).
Proof.
  unfold fetch_map_data_parallel, jbind, new_round, jpool, future.
  match goal with
  | |- context [pool env schedule ?ts ?w0] =>
      assert (Hc : Forall (confined before_join) ts);
      [|assert (Hu : Forall (fun p => finished p = false) ts);
        [|destruct (pool_spec env before_join schedule ts w0 Hc Hu)
            as (evs & L & Q & N & F);
          destruct (pool env schedule ts w0) as [futures w1]]]
  end.
  { constructor; [exact (confined_round_fetcher proc Streets boundary point dist task_id)|].
    constructor; [exact (confined_round_fetcher proc Water boundary point dist task_id)|].
    constructor; [exact (confined_round_fetcher proc Parks boundary point dist task_id)|].
    constructor. }
  { repeat constructor. }
  cbn [fst snd length] in L, N, F.
  change (log (with_registry _ w)) with (log w) in L.
  exists evs.
  split; [apply F; lia|]. split; [apply F; lia|]. split; [apply F; lia|].
  split.
  { eapply Forall_impl; [exact Q|]. intros ev [H|[i ->]]; [exact H|].
    intros t H. discriminate. }
  destruct futures as [|r0 [|r1 [|r2 [|]]]]; try discriminate.
  cbn [lookup list_lookup result].
  destruct r0 as [streets|e]; cbn [result]; unfold jret, jraise;
    [|right; split; [exact L|eexists; reflexivity]].
  destruct r1 as [water|e]; cbn [result]; unfold jret, jraise;
    [|right; split; [exact L|eexists; reflexivity]].
  destruct r2 as [parks|e]; cbn [result]; unfold jret, jraise;
    [|right; split; [exact L|eexists; reflexivity]].
  left. cbn [bind act run step perform].
  destruct (is_None streets); unfold jraise, jret;
    repeat first [rewrite tick_log | progress cbn [log with_registry emit snd]];
    rewrite L, <- app_assoc; reflexivity.
Qed.

(* ===================================================================== *)
(** * Workers that cannot fail                                            *)
(* ===================================================================== *)

Lemma never_raises_try_except {R} (p : Prog R) (h : Exc -> Prog R) :
  (forall e, never_raises (h e)) -> never_raises (try_except p h).
Proof.
  intros Hh. induction p as [r|e|X a k IH]; cbn [try_except].
  - constructor.
  - apply Hh.
  - constructor. exact IH.
Qed.

Lemma never_raises_run (env : Env) {R} (p : Prog R) (w : World) :
  never_raises p -> exists v, fst (run env p w) = Ok v.
Proof.
  intros H. revert w. induction H as [r|X a k Hk IH]; intros w; cbn [run].
  - eexists. reflexivity.
  - destruct (step env a w) as [x w1]. apply IH.
Qed.

Lemma never_raises_advance (env : Env) {R} (i : nat) (p : Prog R) (w : World) :
  never_raises p -> never_raises (fst (advance env i p w)).
Proof.
  intros H. destruct H as [r|X a k Hk]; cbn [advance].
  - constructor.
  - destruct (step env a w) as [x w1]. cbn [fst]. apply Hk.
Qed.

Lemma interleave_length (env : Env) {R} (schedule : list nat) (tasks : list (Prog R))
    (w : World) :
  length (fst (interleave env schedule tasks w)) = length tasks.
Proof.
  revert tasks w. induction schedule as [|j rest IH]; intros tasks w; cbn [interleave].
  - reflexivity.
  - destruct (tasks !! j) as [q|]; [|apply IH].
    destruct (advance env j q w) as [q1 w1]. rewrite IH. apply length_insert.
Qed.

Lemma never_raises_interleave (env : Env) {R} (schedule : list nat)
    (tasks : list (Prog R)) (w : World) (i : nat) :
  (forall p, tasks !! i = Some p -> never_raises p) ->
  forall p, fst (interleave env schedule tasks w) !! i = Some p -> never_raises p.
Proof.
  revert tasks w. induction schedule as [|j rest IH]; intros tasks w H; cbn [interleave].
  - exact H.
  - destruct (tasks !! j) as [q|] eqn:E; [|apply IH; exact H].
    pose proof (never_raises_advance env j q w) as Ha.
    destruct (advance env j q w) as [q1 w1]. cbn [fst] in Ha.
    apply IH. intros p Hp.
    destruct (decide (j = i)) as [->|Hne].
    + rewrite list_lookup_insert_eq in Hp by (eapply lookup_lt_Some; exact E).
      injection Hp as <-. apply Ha, H, E.
    + rewrite list_lookup_insert_ne in Hp by exact Hne. apply H, Hp.
Qed.

Lemma join_all_length (env : Env) {R} (j : nat) (tasks : list (Prog R)) (w : World) :
  length (fst (join_all env j tasks w)) = length tasks.
Proof.
  revert j w. induction tasks as [|q rest IH]; intros j w; cbn [join_all].
  - reflexivity.
  - destruct (run env q w) as [r w1].
    specialize (IH (S j) (if finished q then w1 else emit (EResolved j) w1)).
    destruct (join_all env (S j) rest _) as [rs w3]. cbn [fst length] in *.
    rewrite IH. reflexivity.
Qed.

Lemma never_raises_join_all (env : Env) {R} (j : nat) (tasks : list (Prog R))
    (w : World) (i : nat) (p : Prog R) :
  tasks !! i = Some p -> never_raises p ->
  exists v, fst (join_all env j tasks w) !! i = Some (Ok v).
Proof.
  revert j w i. induction tasks as [|q rest IH]; intros j w i Hi Hp.
  - rewrite lookup_nil in Hi. discriminate.
  - cbn [join_all].
    destruct (run env q w) as [r w1] eqn:Er.
    destruct i as [|i]; cbn [lookup list_lookup] in Hi.
    + injection Hi as ->.
      destruct (never_raises_run env p w Hp) as [v Hv]. rewrite Er in Hv.
      cbn [fst] in Hv. subst r.
      destruct (join_all env (S j) rest _) as [rs w3]. exists v. reflexivity.
    + destruct (IH (S j) (if finished q then w1 else emit (EResolved j) w1) i Hi Hp)
        as [v Hv].
      destruct (join_all env (S j) rest _) as [rs w3]. exists v. exact Hv.
Qed.

(** A worker that cannot fail resolves with a value, under every
    schedule. *)
Lemma never_raises_pool (env : Env) {R} (schedule : list nat) (tasks : list (Prog R))
    (w : World) (i : nat) (p : Prog R) :
  tasks !! i = Some p -> never_raises p ->
  exists v, fst (pool env schedule tasks w) !! i = Some (Ok v).
Proof.
  intros Hi Hp. unfold pool.
  pose proof (interleave_length env schedule tasks w) as N.
  pose proof (never_raises_interleave env schedule tasks w i) as H.
  destruct (interleave env schedule tasks w) as [tasks1 w1]. cbn [fst] in N, H.
  destruct (tasks1 !! i) as [p1|] eqn:E.
  - apply (never_raises_join_all env 0 tasks1 w1 i p1 E).
    apply H; [|reflexivity]. intros q Hq. rewrite Hi in Hq. injection Hq as <-. exact Hp.
  - apply lookup_ge_None in E. apply lookup_lt_Some in Hi. lia.
Qed.

Lemma pool_length (env : Env) {R} (schedule : list nat) (tasks : list (Prog R))
    (w : World) :
  length (fst (pool env schedule tasks w)) = length tasks.
Proof.
  unfold pool. pose proof (interleave_length env schedule tasks w) as N.
  destruct (interleave env schedule tasks w) as [tasks1 w1]. cbn [fst] in N.
  rewrite join_all_length. exact N.
Qed.

Lemma never_raises_layer (proc : Process) (layer : Layer)
    (boundary : option GeoDataFrame) (point : option Point) (dist : option Z)
    (task_id : string) :
  layer <> Streets ->
  never_raises (round_fetcher proc layer boundary point dist task_id).
Proof.
  intros H. rewrite round_fetcher_shape. cbn [bind act].
  constructor. intros _. constructor. intros _. constructor. intros [|]; [constructor|].
  destruct layer; [contradiction|..]; cbn [past_checkpoint];
    apply never_raises_try_except; intros e; cbn [bind act];
    constructor; intros _; constructor.
Qed.

(** X1.  In a fetch round the futures of water and parks always hold a
    value, under every schedule and whatever the provider, the disk and the
    client do; so the round fails exactly when the future of the streets
    raises or holds [None], and then with that exception or with the
    [ValueError] of a failed street fetch. *)
Theorem only_the_streets_can_fail_a_round (env : Env) (proc : Process)
    (schedule : list nat) (boundary : option GeoDataFrame) (point : option Point)
    (dist : option Z) (task_id : string) (w : World) :
  exists streets wa pa,
    fst (pool env schedule
           [fetch_streets proc boundary point dist task_id;
            fetch_water proc boundary point dist task_id;
            fetch_parks proc boundary point dist task_id] (snd (new_round w)))
    = [streets; Ok wa; Ok pa]
    /\ fst (fetch_map_data_parallel env proc schedule boundary point dist task_id w)
       = match streets with
         | Ok s =>
             if is_None s then Err (ValueError "Failed to fetch street network data")
             else Ok {| G := s; water := wa; parks := pa |}
         | Err e => Err e
         end.
Proof.
  unfold fetch_map_data_parallel, jbind, new_round, jpool, future. cbn [snd].
  match goal with
  | |- context [pool env schedule ?ts ?w0] =>
      pose proof (pool_length env schedule ts w0) as N;
      destruct (never_raises_pool env schedule ts w0 1
                  (round_fetcher proc Water boundary point dist task_id) eq_refl
                  (never_raises_layer proc Water boundary point dist task_id
                     ltac:(discriminate))) as [wa Hwa];
      destruct (never_raises_pool env schedule ts w0 2
                  (round_fetcher proc Parks boundary point dist task_id) eq_refl
                  (never_raises_layer proc Parks boundary point dist task_id
                     ltac:(discriminate))) as [pa Hpa];
      destruct (pool env schedule ts w0) as [futures w1]
  end.
  cbn [fst] in *.
  destruct futures as [|streets [|r1 [|r2 [|]]]]; try discriminate.
  cbn [lookup list_lookup] in Hwa, Hpa. injection Hwa as ->. injection Hpa as ->.
  exists streets, wa, pa. split; [reflexivity|].
  cbn [lookup list_lookup result]. destruct streets as [s|e]; cbn [result];
    unfold jret, jraise; [|reflexivity].
  cbn [bind act run]. repeat match goal with
    | |- context [step env ?a ?w] => destruct (step env a w) as [[] ?]
    end.
  cbn [fst]. destruct (is_None s); reflexivity.
Qed.

(* ===================================================================== *)
(** * Jobs, start to end                                                  *)
(* ===================================================================== *)

(** C5, as the code has it.  Once the flag is set, [report] of app.py
    raises [RuntimeError("cancelled")] at every progress report, and the
    handler of the orchestrator would turn that exception into the dedicated
    state; but [report] of [create_poster], through which every such call
    goes, never raises, whatever its callback does.  So the job of
    [by_coordinates], which takes 51 actions, goes on and ends
    ["completed"] with the flag set, whenever the client's cancellation
    lands while it runs (before any action from the third, once the job's
    record exists, to the last).  And a fetch round that starts with the
    flag set returns nothing from its three checkpoints and raises the
    generic [ValueError] of a failed street fetch, which the handler words
    as a generic error. *)
Theorem cancellation_does_not_end_the_job :
  (forall r status message,
     _is_cancelled "job" r = true ->
     app.report "job" status message r = (r, Some (RuntimeError "cancelled")))
  /\ summary
       (progress_status
          (registry
             (world_after calm
                (on_poster_error "job" (Some "tmp0.png") (RuntimeError "cancelled"))
                cancelled_world)) !! "job")
     = Some ("error", "Dibatalkan oleh pengguna", true)
  /\ (forall env cb status message w,
        result_of env (create_map_poster.report cb status message) w = Ok tt)
  /\ job_length = 51%nat
  /\ map (fun n => summary (job_record (with_cancel n "job" calm) by_coordinates))
         (seq 2 49)
     = repeat (Some ("completed", "Poster berhasil dibuat!", true)) 49
  /\ (let round :=
        fetch_map_data_parallel calm default_process [] None (Some jakarta) (Some 5000)
          "job" cancelled_world in
      fst round = Err (ValueError "Failed to fetch street network data")
      /\ provider_calls (log (snd round)) = []
      /\ summary
           (progress_status
              (registry
                 (world_after calm
                    (on_poster_error "job" (Some "tmp0.png")
                       (ValueError "Failed to fetch street network data"))
                    (snd round))) !! "job")
         = Some ("error", "Error saat membuat poster: Failed to fetch street network data",
                 true)).
Proof.
  split.
  { intros r status message H. unfold app.report. rewrite H. reflexivity. }
  split; [vm_compute; reflexivity|]. split.
  { intros env cb status message w. destruct cb as [cb|]; [|reflexivity].
    unfold result_of, create_map_poster.report, call. cbn [try_except run].
    destruct (step env (call_progress_cb cb status message) w) as [[[]|e] w1];
      reflexivity. }
  split; [vm_compute; reflexivity|]. split; vm_compute; auto.
Qed.

(* ===================================================================== *)
(** * The percentage shown to the client                                  *)
(* ===================================================================== *)

(** C8, as the code has it.  The table gives 25 to [geocoding] and to
    [fetching_boundary] and 20 to [fetching_data], which the orchestrator
    publishes after them: along the order of the specification the
    percentages are not non-decreasing, and a job that looks up a
    subdistrict boundary shows 15, then 25, then 20. *)
Theorem percent_table_goes_back :
  percent_of "fetching_boundary" = Some 25
  /\ percent_of "geocoding" = Some 25
  /\ percent_of "fetching_data" = Some 20
  /\ non_decreasing (omap percent_of phase_order) = false
  /\ published_percents
       (log (snd (create_poster_async calm default_process [] "job" by_subdistrict
                    fresh_world)))
     = [5; 10; 15; 25; 20; 100].
Proof. repeat split; vm_compute; reflexivity. Qed.

(* ===================================================================== *)
(** * An empty street network                                             *)
(* ===================================================================== *)

(** C2, as the code has it.  With a provider that returns an empty street
    network, the round for a point raises, and the round for a boundary
    polygon returns the empty graph as its street network (and caches it):
    [fetch_graph] turns an empty graph into [None],
    [fetch_graph_from_polygon] does not. *)
Theorem empty_polygon_graph_is_accepted :
  fst (fetch_map_data_parallel barren default_process [] None (Some jakarta) (Some 5000)
         "job" fresh_world)
  = Err (ValueError "Failed to fetch street network data")
  /\ fst (fetch_map_data_parallel barren default_process [] (Some triangle) None None
            "job" fresh_world)
     = Ok {| G := PyGraph no_nodes; water := PyFrame lake; parks := PyFrame lake |}
  /\ graph_len no_nodes = 0
  /\ cached_value
       (disk (snd (fetch_map_data_parallel barren default_process [] (Some triangle) None
                     None "job" fresh_world)))
       (graph_polygon_key default_process "POLYGON ((0 0, 1 0, 1 1, 0 0))")
     = Ok (PyGraph no_nodes).
Proof. repeat split; vm_compute; reflexivity. Qed.

(* ===================================================================== *)
(** * Cache keys in two processes                                         *)
(* ===================================================================== *)

(** C1, as the code has it.  The keys of the point fetchers are the same
    in every process with the same network type.  The keys of the polygon
    fetchers contain [hash(str(geometry))], which is salted per process:
    the same boundary gets different keys and file names in two processes,
    so the second process misses what the first one cached, where the point
    fetcher hits.  And the keys of the feature fetchers hold the names of
    the tags, not their values: queries that differ in a tag's value only
    share their key. *)
Theorem polygon_keys_change_between_processes :
  (forall p q point dist,
     OSM_NETWORK_TYPE p = OSM_NETWORK_TYPE q ->
     cache_file (graph_key p point dist) = cache_file (graph_key q point dist))
  /\ graph_polygon_key first_process "POLYGON ((0 0, 1 0, 1 1, 0 0))"
     = "graph_polygon_5982192472769586759_drive"
  /\ graph_polygon_key second_process "POLYGON ((0 0, 1 0, 1 1, 0 0))"
     = "graph_polygon_1235751336045678371_drive"
  /\ cache_file (graph_polygon_key first_process "POLYGON ((0 0, 1 0, 1 1, 0 0))")
     <> cache_file (graph_polygon_key second_process "POLYGON ((0 0, 1 0, 1 1, 0 0))")
  /\ reported_hits (FetchGraph jakarta 5000)
     = [ECacheCb "streets" false; ECacheCb "streets" true]
  /\ reported_hits (FetchGraphFromPolygon triangle)
     = [ECacheCb "streets" false; ECacheCb "streets" false]
  /\ reported_hits (FetchFeaturesFromPolygon triangle water_tags "water")
     = [ECacheCb "water" false; ECacheCb "water" false]
  /\ (forall point dist name tags tags',
        map fst tags = map fst tags' ->
        features_key point dist tags name = features_key point dist tags' name).
Proof.
  split.
  { intros p q [lat lon] dist H. unfold graph_key. rewrite H. reflexivity. }
  do 5 (split; [vm_compute; first [reflexivity | intros H; discriminate]|]).
  split; [vm_compute; reflexivity|].
  intros [lat lon] dist name tags tags' H. unfold features_key, tag_keys.
  rewrite H. reflexivity.
Qed.

(* ===================================================================== *)
(** * The registry: cancellation                                          *)
(* ===================================================================== *)

Lemma apply_updates_keep_flag (task_id : string) (updates : list (string * JobStatus))
    (r : Registry) :
  Forall (fun u => fst u = task_id -> js_cancelled (snd u) = None) updates ->
  _is_cancelled task_id r = true ->
  _is_cancelled task_id (apply_updates updates r) = true.
Proof.
  unfold apply_updates. revert r.
  induction updates as [|[t payload] rest IH]; intros r Hall Hr; cbn [fold_left].
  - exact Hr.
  - apply Forall_cons in Hall as [Hu Hrest]. cbn [fst snd] in Hu.
    apply IH; [exact Hrest|].
    destruct (decide (t = task_id)) as [->|Hne].
    + rewrite is_cancelled_update by exact (Hu eq_refl). exact Hr.
    + unfold _is_cancelled, _update_progress in *. cbn [progress_status].
      rewrite lookup_insert_ne by exact Hne. exact Hr.
Qed.

(** X5.  [api_cancel] on a job that has a record sets the flag of that
    record and changes nothing else, in that record or in any other; and
    the flag then stays set through every later update of the registry
    whose payload for this job carries no ['cancelled'] key. *)
Theorem cancellation_sticks (r : Registry) (task_id : string) (job : JobStatus)
    (updates : list (string * JobStatus)) :
  progress_status r !! task_id = Some job ->
  progress_status (api_cancel task_id r) !! task_id = Some (flagged job)
  /\ (forall t, t <> task_id ->
        progress_status (api_cancel task_id r) !! t = progress_status r !! t)
  /\ (Forall (fun u => fst u = task_id -> js_cancelled (snd u) = None) updates ->
      _is_cancelled task_id (apply_updates updates (api_cancel task_id r)) = true).
Proof.
  intros Hjob.
  assert (Hc : progress_status (api_cancel task_id r) !! task_id = Some (flagged job)).
  { unfold api_cancel, _update_progress. rewrite Hjob. cbn [progress_status].
    rewrite lookup_insert_eq. destruct job; reflexivity. }
  split; [exact Hc|]. split.
  - intros t Ht. unfold api_cancel, _update_progress. rewrite Hjob.
    cbn [progress_status]. rewrite lookup_insert_ne by congruence. reflexivity.
  - intros Hall. apply apply_updates_keep_flag; [exact Hall|].
    unfold _is_cancelled. rewrite Hc. reflexivity.
Qed.

Lemma cancellation_sticks_witness :
  progress_status (api_cancel "job" one_job) !! "job"
  = Some (flagged (dict_update (dict_update no_fields (starting 0))
                     (status_message "render_roads" "Menggambar jaringan jalan...")))
  /\ (forall t, t <> "job" ->
        progress_status (api_cancel "job" one_job) !! t = progress_status one_job !! t)
  /\ (Forall (fun u => fst u = "job" -> js_cancelled (snd u) = None)
        [("job", status_message "render_save" "Menyimpan hasil poster...");
         ("other", starting 7)] ->
      _is_cancelled "job"
        (apply_updates
           [("job", status_message "render_save" "Menyimpan hasil poster...");
            ("other", starting 7)]
           (api_cancel "job" one_job)) = true).
Proof.
  apply (cancellation_sticks one_job "job"). vm_compute. reflexivity.
Defined.

(* ===================================================================== *)
(** * Coordinates                                                         *)
(* ===================================================================== *)

Lemma never_none_bind {A} (p : Prog A) (k : A -> Prog PyObj) :
  (forall x, never_none (k x)) -> never_none (bind p k).
Proof.
  intros Hk. induction p as [r|e|X a h IH]; cbn [bind].
  - apply Hk.
  - constructor.
  - constructor. exact IH.
Qed.

Lemma never_none_run (env : Env) (p : Prog PyObj) (w : World) (v : PyObj) :
  never_none p -> fst (run env p w) = Ok v -> v <> PyNone.
Proof.
  intros Hp. revert w. induction Hp as [r Hr|e|X a k Hk IH]; intros w; cbn [run fst].
  - intros H. injection H as <-. exact Hr.
  - discriminate.
  - destruct (step env a w) as [x w1]. apply IH.
Qed.

(** X6.  Whatever the cache holds and whatever the geocoder answers,
    [get_coordinates] never returns [None]: it returns coordinates (or the
    truthy object found in the cache) or it raises.  The branch of the
    orchestrator that handles [coords is None] is never taken. *)
Theorem get_coordinates_never_returns_none (env : Env) (city country : string)
    (w : World) (v : PyObj) :
  result_of env (get_coordinates city country) w = Ok v -> v <> PyNone.
Proof.
  apply never_none_run. unfold get_coordinates.
  assert (Hmiss : forall (k : Prog PyObj),
            k = (act (print "Mencari koordinat...");;
                 act (sleep 500);;
                 let* location := call (geolocator_geocode (city ++ ", " ++ country)) in
                 match location with
                 | Some loc =>
                     act (print ("✓ Ditemukan: " ++ address loc));;
                     act (print ("✓ Koordinat: " ++ float_str (loc_latitude loc) ++ ", "
                                 ++ float_str (loc_longitude loc)));;
                     try_cache_set ("coords_" ++ lower city ++ "_" ++ lower country)
                       (PyCoords (loc_latitude loc) (loc_longitude loc));;
                     Ret (PyCoords (loc_latitude loc) (loc_longitude loc))
                 | None =>
                     Raise (ValueError ("Could not find coordinates for " ++ city ++ ", "
                                        ++ country))
                 end)%prog ->
            never_none k).
  { intros k ->. do 3 (apply never_none_bind; intros ?).
    match goal with
    | |- never_none (match ?x with _ => _ end) => destruct x as [loc|]
    end; [|constructor].
    do 3 (apply never_none_bind; intros ?). constructor. discriminate. }
  apply never_none_bind. intros cached.
  destruct cached as [|G|d|lat lon]; cbn [truth lift bind].
  - apply Hmiss. reflexivity.
  - destruct (negb (graph_len G =? 0)); [|apply Hmiss; reflexivity].
    apply never_none_bind. intros _. constructor. discriminate.
  - constructor.
  - apply never_none_bind. intros _. constructor. discriminate.
Qed.

Lemma get_coordinates_never_returns_none_witness : monas <> PyNone.
Proof.
  apply (get_coordinates_never_returns_none calm "Jakarta" "Indonesia" jakarta_known monas).
  vm_compute. reflexivity.
Defined.

(** X7.  The cache of [get_coordinates] is keyed by the lowercased names.
    For names written in ASCII, coordinates cached for a place are returned
    for every spelling of the names that differs in the case of its letters
    only, after one printed line, with no sleep and no call of the
    geocoder. *)
Theorem cached_coordinates_ignore_case (env : Env) (city country city' country' : string)
    (w : World) (lat lon : PyFloat) :
  isascii city = true -> isascii country = true ->
  isascii city' = true -> isascii country' = true ->
  lower city' = lower city ->
  lower country' = lower country ->
  cached_value (disk w) (coords_key city country) = Ok (PyCoords lat lon) ->
  result_of env (get_coordinates city' country') w = Ok (PyCoords lat lon)
  /\ log (world_after env (get_coordinates city' country') w)
     = log w ++ [EPrint ("✓ Menggunakan koordinat cache untuk " ++ city' ++ ", "
                         ++ country')].
Proof.
  intros _ _ _ _ Hcity Hcountry Hc. unfold result_of, world_after, get_coordinates.
  rewrite Hcity, Hcountry. fold (coords_key city country).
  rewrite run_bind, (run_split env (cache_get _)), cache_get_result, Hc.
  cbn [truth lift bind act run step perform fst snd log emit].
  rewrite tick_log, cache_get_log. auto.
Qed.

Lemma cached_coordinates_ignore_case_witness :
  result_of calm (get_coordinates "JAKARTA" "indonesia") jakarta_known = Ok monas
  /\ log (world_after calm (get_coordinates "JAKARTA" "indonesia") jakarta_known)
     = log jakarta_known
       ++ [EPrint ("✓ Menggunakan koordinat cache untuk " ++ "JAKARTA" ++ ", "
                   ++ "indonesia")].
Proof.
  apply (cached_coordinates_ignore_case calm "Jakarta" "Indonesia" "JAKARTA" "indonesia"
           jakarta_known (Float "-6.1754") (Float "106.8272"));
    vm_compute; reflexivity.
Defined.

(* ===================================================================== *)
(** * Boundaries                                                          *)
(* ===================================================================== *)

Lemma run_act (env : Env) {X} (a : Action X) (w : World) :
  run env (act a) w = (Ok (fst (step env a w)), snd (step env a w)).
Proof. cbn [act run]. destruct (step env a w). reflexivity. Qed.

Lemma run_call (env : Env) {X} (a : Action (Result X)) (w : World) :
  run env (call a) w = (fst (step env a w), snd (step env a w)).
Proof. cbn [call run]. destruct (step env a w) as [[x|e] w1]; reflexivity. Qed.

Lemma boundary_fetcher_shape (kind : BoundaryKind) (name : string) :
  exists miss : Exc -> string,
    boundary_fetcher kind name =
    (let* cached := cache_get (boundary_key kind name) in
     if negb (is_None cached) then
       act (print (boundary_hit_message kind));;
       Ret cached
     else
       try_except
         (let* gdf := call (ox_geocode_to_gdf name) in
          if empty gdf then
            act (print ("⚠ Tidak dapat menemukan batas untuk '" ++ name ++ "'"));;
            Ret PyNone
          else
            act (sleep 200);;
            try_cache_set (boundary_key kind name) (PyFrame gdf);;
            Ret (PyFrame gdf))
         (fun e => act (print (miss e));; Ret PyNone)).
Proof.
  destruct kind; eexists (fun e => _); reflexivity.
Qed.

(** X8.  When the cache has no boundary under the key and the geocoder
    raises or returns an empty frame, a boundary fetcher returns [None]
    after one request and one printed line, and writes nothing to the
    cache: a failed lookup is asked again the next time. *)
Theorem unresolved_boundary_is_absent (env : Env) (kind : BoundaryKind) (name : string)
    (w : World) :
  cached_value (disk w) (boundary_key kind name) = Ok PyNone ->
  no_boundary (geocode_to_gdf env name) = true ->
  result_of env (boundary_fetcher kind name) w = Ok PyNone
  /\ disk (world_after env (boundary_fetcher kind name) w) = disk w
  /\ exists line,
       log (world_after env (boundary_fetcher kind name) w)
       = log w ++ [EProvider (GeocodeToGdf name); EPrint line].
Proof.
  intros Hmiss Hno. destruct (boundary_fetcher_shape kind name) as [miss ->].
  unfold result_of, world_after.
  rewrite run_bind, (run_split env (cache_get _)), cache_get_result, Hmiss.
  cbn [is_None negb].
  rewrite run_try_except, run_bind, run_call.
  unfold step. cbn [perform fst snd].
  destruct (geocode_to_gdf env name) as [gdf|e]; cbn [no_boundary] in Hno.
  - rewrite Hno, run_bind, run_act. unfold step. cbn [run fst snd perform].
    repeat first [rewrite tick_disk | rewrite tick_log | progress cbn [disk log emit]].
    rewrite cache_get_disk, cache_get_log, <- !app_assoc. eauto.
  - rewrite run_bind, run_act. unfold step. cbn [run fst snd perform].
    repeat first [rewrite tick_disk | rewrite tick_log | progress cbn [disk log emit]].
    rewrite cache_get_disk, cache_get_log, <- !app_assoc. eauto.
Qed.

Lemma unresolved_boundary_is_absent_witness :
  result_of nowhere (boundary_fetcher City "Atlantis") fresh_world = Ok PyNone
  /\ disk (world_after nowhere (boundary_fetcher City "Atlantis") fresh_world)
     = disk fresh_world
  /\ exists line,
       log (world_after nowhere (boundary_fetcher City "Atlantis") fresh_world)
       = log fresh_world ++ [EProvider (GeocodeToGdf "Atlantis"); EPrint line].
Proof.
  apply (unresolved_boundary_is_absent nowhere City "Atlantis" fresh_world);
    reflexivity.
Defined.

Lemma replace_char_cons (old : ascii) (new : string) (c : ascii) (s : string) :
  replace_char old new (String c s) =
  if Ascii.eqb c old then new +:+ replace_char old new s
  else String c (replace_char old new s).
Proof. reflexivity. Qed.

Lemma boundary_slug_without_commas (name : string) :
  boundary_slug (replace_char ","%char EmptyString name) = boundary_slug name.
Proof.
  unfold boundary_slug. induction name as [|c rest IH]; [reflexivity|].
  rewrite (replace_char_cons "," EmptyString c rest), (replace_char_cons " " "_" c rest).
  destruct (Ascii.eqb c ",") eqn:Ec.
  - apply Ascii.eqb_eq in Ec. subst c.
    change (Ascii.eqb "," " ") with false. cbv iota.
    rewrite (replace_char_cons "," EmptyString ","), Ascii.eqb_refl.
    change (EmptyString +:+ ?s) with s. exact IH.
  - destruct (Ascii.eqb c " ") eqn:Es.
    + apply Ascii.eqb_eq in Es. subst c.
      rewrite (replace_char_cons " " "_" " "), Ascii.eqb_refl.
      change ("_" +:+ ?s) with (String "_" s).
      rewrite !(replace_char_cons "," EmptyString "_").
      change (Ascii.eqb "_" ",") with false. cbv iota. rewrite IH. reflexivity.
    + rewrite (replace_char_cons " " "_" c), Es.
      rewrite !(replace_char_cons "," EmptyString c), Ec, IH. reflexivity.
Qed.

(** X9.  A boundary is cached under a key made of the name with its commas
    dropped and its spaces turned into underscores.  Every query with the
    same key gets the cached boundary, after one printed line and with no
    request to the geocoder: the key of a name is the key of that name
    without its commas, and the key of the subdistrict ["city " ++ name] is
    the key of the city [name]. *)
Theorem boundary_queries_share_entries (env : Env) (kind kind' : BoundaryKind)
    (name name' : string) (w : World) (b : GeoDataFrame) :
  boundary_key kind name = boundary_key kind' name' ->
  cached_value (disk w) (boundary_key kind name) = Ok (PyFrame b) ->
  (result_of env (boundary_fetcher kind' name') w = Ok (PyFrame b)
   /\ log (world_after env (boundary_fetcher kind' name') w)
      = log w ++ [EPrint (boundary_hit_message kind')])
  /\ (forall k n, boundary_key k (replace_char ","%char EmptyString n) = boundary_key k n)
  /\ (forall n, boundary_key Subdistrict ("city " +:+ n) = boundary_key City n).
Proof.
  intros Hkey Hc. split; [|split].
  - destruct (boundary_fetcher_shape kind' name') as [miss ->].
    unfold result_of, world_after. rewrite <- Hkey.
    rewrite run_bind, (run_split env (cache_get _)), cache_get_result, Hc.
    cbn [is_None negb]. rewrite run_bind, run_act. unfold step.
    cbn [run fst snd perform log emit]. rewrite tick_log, cache_get_log. auto.
  - intros k n. destruct k; cbn [boundary_key];
      rewrite boundary_slug_without_commas; reflexivity.
  - intros n. reflexivity.
Qed.

Lemma boundary_queries_share_entries_witness :
  result_of calm (boundary_fetcher Subdistrict "Menteng Jakarta") menteng_known
  = Ok (PyFrame triangle)
  /\ log (world_after calm (boundary_fetcher Subdistrict "Menteng Jakarta") menteng_known)
     = log menteng_known ++ [EPrint (boundary_hit_message Subdistrict)].
Proof.
  apply (boundary_queries_share_entries calm Subdistrict Subdistrict "Menteng, Jakarta"
           "Menteng Jakarta" menteng_known triangle); vm_compute; reflexivity.
Defined.

(* ===================================================================== *)
(** * A provider that fails or finds nothing                              *)
(* ===================================================================== *)

Ltac run_steps env :=
  repeat first
    [ rewrite run_try_except
    | rewrite run_bind
    | rewrite run_call
    | rewrite run_act
    | progress cbn [run lift fst snd] ].

Lemma failed_download_is_absent (env : Env) (proc : Process) (f : Fetch) (key : string)
    (w : World) :
  (exists k, key_of proc f = Ok k) ->
  nothing_to_keep env proc f = true ->
  fst (run env (download_of proc f key) w) = Ok PyNone
  /\ disk (snd (run env (download_of proc f key) w)) = disk w.
Proof.
  intros [k Hkey] Hno. unfold nothing_to_keep in Hno.
  destruct f as [point dist|point dist tags name|boundary|boundary tags name];
    cbn [reply_of to_persist download_of key_of] in *.
  - unfold download_graph.
    destruct (graph_from_point env point dist (OSM_NETWORK_TYPE proc)) as [[g|]|e] eqn:E;
      cbn [obj_of_graph] in Hno.
    + apply negb_true_iff, negb_false_iff in Hno.
      run_steps env. unfold step. cbn [perform fst snd]. rewrite E. cbn [run fst snd].
      rewrite Hno. run_steps env. auto.
    + run_steps env. unfold step. cbn [perform fst snd]. rewrite E.
      run_steps env. auto.
    + run_steps env. unfold step. cbn [perform fst snd]. rewrite E.
      run_steps env. auto.
  - unfold download_features.
    destruct (features_from_point env point tags dist) as [[d|]|e] eqn:E;
      cbn [obj_of_frame] in Hno.
    + apply negb_true_iff, negb_false_iff in Hno.
      run_steps env. unfold step. cbn [perform fst snd]. rewrite E. cbn [run fst snd].
      rewrite Hno. run_steps env. auto.
    + run_steps env. unfold step. cbn [perform fst snd]. rewrite E.
      run_steps env. auto.
    + run_steps env. unfold step. cbn [perform fst snd]. rewrite E.
      run_steps env. auto.
  - unfold download_graph_from_polygon.
    destruct (iloc0 boundary) as [polygon|e0]; [|discriminate].
    destruct (graph_from_polygon env polygon (OSM_NETWORK_TYPE proc)) as [G|e] eqn:E;
      [discriminate|].
    run_steps env. unfold step. cbn [perform fst snd]. rewrite E.
    run_steps env. auto.
  - unfold download_features_from_polygon.
    destruct (iloc0 boundary) as [polygon|e0]; [|discriminate].
    destruct (features_from_polygon env polygon tags) as [data|e] eqn:E;
      [discriminate|].
    run_steps env. unfold step. cbn [perform fst snd]. rewrite E.
    run_steps env. auto.
Qed.

(** X10.  A fetcher never fails because of the provider.  When the lookup
    misses and the provider raises - or, for the two point fetchers,
    returns nothing or an empty result - each of the four fetchers returns
    [None] and leaves the cache as it was. *)
Theorem failed_fetch_is_absent (env : Env) (proc : Process) (f : Fetch)
    (cb : option CacheCb) (w : World) (key : string) :
  key_of proc f = Ok key ->
  cached_value (disk w) key = Ok PyNone ->
  nothing_to_keep env proc f = true ->
  result_of env (fetcher proc f cb) w = Ok PyNone
  /\ disk (world_after env (fetcher proc f cb) w) = disk w.
Proof.
  intros Hkey Hmiss Hno. rewrite (fetcher_shape proc f cb key Hkey).
  unfold result_of, world_after. rewrite (lookup_miss env key _ _ cb _ w Hmiss).
  destruct (failed_download_is_absent env proc f key
              (before_download env key (dataset f) cb w) (ex_intro _ key Hkey) Hno)
    as [Hr Hd].
  split; [exact Hr|]. rewrite Hd. apply before_download_disk.
Qed.

Lemma failed_fetch_is_absent_witness :
  result_of offline (fetcher default_process (FetchGraphFromPolygon triangle) None)
    fresh_world = Ok PyNone
  /\ disk (world_after offline (fetcher default_process (FetchGraphFromPolygon triangle) None)
             fresh_world) = disk fresh_world.
Proof.
  apply (failed_fetch_is_absent offline default_process (FetchGraphFromPolygon triangle)
           None fresh_world
           (graph_polygon_key default_process "POLYGON ((0 0, 1 0, 1 1, 0 0))"));
    reflexivity.
Defined.

(* ===================================================================== *)
(** * Names of cache files                                                *)
(* ===================================================================== *)







(* ===================================================================== *)
(** * Telling keys apart                                                  *)
(* ===================================================================== *)

Lemma digit_char_code (d : Z) :
  0 <= d < 10 -> nat_of_ascii (Runtime.digit_char d) = (48 + Z.to_nat d)%nat.
Proof.
  intros H. unfold Runtime.digit_char. apply nat_ascii_embedding. lia.
Qed.

Lemma digits_of_all_digits (fuel : nat) (n : Z) (acc : string) :
  chars_all is_digit acc = true ->
  chars_all is_digit (Runtime.digits_of fuel n acc) = true.
Proof.
  revert n acc. induction fuel as [|fuel IH]; intros n acc Hacc; cbn [Runtime.digits_of].
  - exact Hacc.
  - assert (Hd : chars_all is_digit (String (Runtime.digit_char (n mod 10)) acc) = true).
    { unfold chars_all in *. cbn [list_ascii_of_string forallb]. rewrite Hacc.
      unfold is_digit. rewrite digit_char_code by (apply Z.mod_pos_bound; lia).
      pose proof (Z.mod_pos_bound n 10 ltac:(lia)) as Hm.
      apply andb_true_iff. split; [|reflexivity].
      apply andb_true_iff. split; apply Nat.leb_le; lia. }
    destruct (n / 10 =? 0); [exact Hd|apply IH, Hd].
Qed.

Lemma digits_of_value (fuel : nat) (n : Z) (acc : string) :
  0 <= n < 10 ^ Z.of_nat fuel ->
  fst (digits_value (Runtime.digits_of fuel n acc))
  = n * snd (digits_value acc) + fst (digits_value acc).
Proof.
  revert n acc. induction fuel as [|fuel IH]; intros n acc Hn; cbn [Runtime.digits_of].
  - change (10 ^ Z.of_nat 0) with 1 in Hn. assert (n = 0) as -> by lia. lia.
  - pose proof (Z.mod_pos_bound n 10 ltac:(lia)) as Hm.
    pose proof (Z.div_mod n 10 ltac:(lia)) as Hdm.
    assert (Hacc : digits_value (String (Runtime.digit_char (n mod 10)) acc)
                   = (n mod 10 * snd (digits_value acc) + fst (digits_value acc),
                      10 * snd (digits_value acc))).
    { cbn [digits_value]. destruct (digits_value acc) as [v p]. cbn [fst snd].
      rewrite digit_char_code by exact Hm.
      replace (Z.of_nat (48 + Z.to_nat (n mod 10)) - 48) with (n mod 10) by lia.
      reflexivity. }
    destruct (n / 10 =? 0) eqn:Eq.
    + apply Z.eqb_eq in Eq. rewrite Hacc. cbn [fst]. nia.
    + rewrite IH.
      * rewrite Hacc. cbn [fst snd]. nia.
      * split; [apply Z.div_pos; lia|].
        apply Z.div_lt_upper_bound; [lia|].
        rewrite Nat2Z.inj_succ, Z.pow_succ_r in Hn by lia. lia.
Qed.

Lemma str_int_digits (n : Z) :
  0 <= n ->
  chars_all is_digit (Runtime.str_int n) = true
  /\ fst (digits_value (Runtime.str_int n)) = n.
Proof.
  intros Hn. unfold Runtime.str_int.
  destruct (n <? 0) eqn:E; [apply Z.ltb_lt in E; lia|].
  split; [apply digits_of_all_digits; reflexivity|].
  rewrite digits_of_value; [cbn [digits_value fst snd]; lia|].
  split; [exact Hn|].
  rewrite Nat2Z.inj_add, Z2Nat.id by apply Z.log2_nonneg.
  change (Z.of_nat 1) with 1.
  destruct (Z.eq_dec n 0) as [->|Hne]; [reflexivity|].
  pose proof (Z.log2_spec n ltac:(lia)) as [_ Hlt].
  eapply Z.lt_le_trans; [exact Hlt|].
  unfold Z.succ. apply Z.pow_le_mono_l. pose proof (Z.log2_nonneg n). lia.
Qed.

Lemma str_int_negative (n : Z) :
  n < 0 -> Runtime.str_int n = String "-" (Runtime.str_int (- n)).
Proof.
  intros Hn. unfold Runtime.str_int.
  destruct (n <? 0) eqn:E; [|apply Z.ltb_ge in E; lia].
  destruct (- n <? 0) eqn:E'; [apply Z.ltb_lt in E'; lia|]. reflexivity.
Qed.

Lemma str_int_inj (a b : Z) : Runtime.str_int a = Runtime.str_int b -> a = b.
Proof.
  intros H. destruct (Z.lt_ge_cases a 0) as [Ha|Ha], (Z.lt_ge_cases b 0) as [Hb|Hb].
  - rewrite (str_int_negative a Ha), (str_int_negative b Hb) in H. injection H as H.
    destruct (str_int_digits (- a) ltac:(lia)) as [_ Va].
    destruct (str_int_digits (- b) ltac:(lia)) as [_ Vb]. rewrite H in Va. lia.
  - rewrite (str_int_negative a Ha) in H.
    destruct (str_int_digits b Hb) as [Db _]. rewrite <- H in Db. discriminate.
  - rewrite (str_int_negative b Hb) in H.
    destruct (str_int_digits a Ha) as [Da _]. rewrite H in Da. discriminate.
  - destruct (str_int_digits a Ha) as [_ Va].
    destruct (str_int_digits b Hb) as [_ Vb]. rewrite H in Va. lia.
Qed.

Lemma chars_all_impl (P Q : ascii -> bool) (s : string) :
  (forall c, P c = true -> Q c = true) -> chars_all P s = true -> chars_all Q s = true.
Proof.
  intros HPQ. unfold chars_all. induction s as [|c rest IH]; [reflexivity|].
  cbn [list_ascii_of_string forallb]. intros H. apply andb_true_iff in H as [Hc Hr].
  rewrite (HPQ c Hc), (IH Hr). reflexivity.
Qed.

Lemma str_int_no_underscore (n : Z) : no_underscore (Runtime.str_int n) = true.
Proof.
  assert (Hd : forall c, is_digit c = true -> negb (Ascii.eqb c "_") = true).
  { intros c Hc. destruct (Ascii.eqb c "_") eqn:E; [|reflexivity].
    apply Ascii.eqb_eq in E. subst c. discriminate. }
  destruct (Z.lt_ge_cases n 0) as [Hn|Hn].
  - rewrite (str_int_negative n Hn). unfold no_underscore, chars_all.
    cbn [list_ascii_of_string forallb].
    change (forallb _ (list_ascii_of_string ?s)) with (no_underscore s).
    apply (chars_all_impl is_digit); [exact Hd|].
    apply str_int_digits. lia.
  - apply (chars_all_impl is_digit); [exact Hd|]. apply str_int_digits, Hn.
Qed.

Lemma append_inj_left (p x y : string) : p +:+ x = p +:+ y -> x = y.
Proof.
  induction p as [|c p IH]; [intros H; exact H|].
  intros H. injection H as H. apply IH, H.
Qed.

(** Two strings with the same field before their first underscore. *)
Lemma split_at_underscore (a a' r r' : string) :
  no_underscore a = true -> no_underscore a' = true ->
  a +:+ String "_" r = a' +:+ String "_" r' -> a = a' /\ r = r'.
Proof.
  unfold no_underscore, chars_all. revert a'.
  induction a as [|c a IH]; intros [|c' a'] Ha Ha' H;
    cbn [list_ascii_of_string forallb] in Ha, Ha'.
  - injection H as H. auto.
  - injection H as Hc Hr. subst c'. discriminate.
  - injection H as Hc Hr. subst c. discriminate.
  - injection H as Hc Hr. subst c'.
    apply andb_true_iff in Ha as [_ Ha]. apply andb_true_iff in Ha' as [_ Ha'].
    destruct (IH a' Ha Ha' Hr) as [-> ->]. auto.
Qed.

(** X12.  The keys of the two point fetchers tell queries apart: two street
    queries of one process with the same key, and two feature queries for
    the same dataset and tags with the same key, are queries for the same
    point and the same distance.  (The [repr] of a float holds no
    underscore.)  So a map cached for one place is never served for
    another, up to collisions of MD5. *)
Theorem point_keys_tell_queries_apart (proc : Process) (point point' : Point)
    (dist dist' : Z) (tags : Tags) (name : string) :
  no_underscore (float_str (fst point)) = true ->
  no_underscore (float_str (snd point)) = true ->
  no_underscore (float_str (fst point')) = true ->
  no_underscore (float_str (snd point')) = true ->
  (graph_key proc point dist = graph_key proc point' dist' ->
   point = point' /\ dist = dist')
  /\ (features_key point dist tags name = features_key point' dist' tags name ->
      point = point' /\ dist = dist').
Proof.
  destruct point as [[lat] [lon]], point' as [[lat'] [lon']].
  cbn [fst snd float_str]. intros Hlat Hlon Hlat' Hlon'.
  assert (Hrest : forall tail,
            lat +:+ String "_" (lon +:+ String "_"
              (Runtime.str_int dist +:+ String "_" tail))
            = lat' +:+ String "_" (lon' +:+ String "_"
                (Runtime.str_int dist' +:+ String "_" tail)) ->
            (Float lat, Float lon) = (Float lat', Float lon') /\ dist = dist').
  { intros tail H.
    apply split_at_underscore in H as [-> H]; [|assumption..].
    apply split_at_underscore in H as [-> H]; [|assumption..].
    apply split_at_underscore in H as [H _]; [|apply str_int_no_underscore..].
    apply str_int_inj in H. subst dist'. auto. }
  split.
  - unfold graph_key. cbn [float_str]. intros H.
    apply (append_inj_left "graph_") in H. apply (Hrest _ H).
  - unfold features_key, tag_keys. cbn [float_str]. intros H.
    apply append_inj_left in H.
    change ("_" +:+ ?s) with (String "_" s) in H. injection H as H.
    apply (Hrest _ H).
Qed.

Lemma point_keys_tell_queries_apart_witness :
  (graph_key default_process jakarta 5000 = graph_key default_process bandung 5000 ->
   jakarta = bandung /\ 5000 = 5000)
  /\ (features_key jakarta 5000 water_tags "water"
      = features_key bandung 5000 water_tags "water" ->
      jakarta = bandung /\ 5000 = 5000).
Proof.
  apply (point_keys_tell_queries_apart default_process jakarta bandung 5000 5000
           water_tags "water"); reflexivity.
Defined.

(* ===================================================================== *)
(** * Every job comes to rest                                             *)
(* ===================================================================== *)

Section Rest.

Context (env : Env) (rest : string -> bool) (task_id : string).
Hypothesis rest_error : rest "error" = true.

Lemma settles_weaken {R} (flag : R -> bool) (rested : bool) (p : Prog R) :
  settles rest task_id flag false p -> settles rest task_id flag rested p.
Proof.
  intros H. remember false as b eqn:Eb. destruct H as [b r Hr|b e|b X a k Hk]; subst.
  - constructor. intros Hf. specialize (Hr Hf). discriminate.
  - constructor.
  - constructor. exact Hk.
Qed.

(** After [p], which tells by the flag of its result whether the job has
    been put to rest, comes [k]. *)
Lemma settles_bind {A B} (flag_p : A -> bool) (flag : B -> bool) (rested : bool)
    (p : Prog A) (k : A -> Prog B) :
  settles rest task_id flag_p rested p ->
  (forall x, settles rest task_id flag (flag_p x) (k x)) ->
  settles rest task_id flag rested (bind p k).
Proof.
  intros Hp Hk. induction Hp as [b r Hr|b e|b X a h Hh IH]; cbn [bind].
  - specialize (Hk r). destruct (flag_p r).
    + rewrite Hr by reflexivity. exact Hk.
    + apply settles_weaken, Hk.
  - constructor.
  - constructor. exact IH.
Qed.

(** After any program at all comes [k]. *)
Lemma settles_after {A B} (flag : B -> bool) (rested : bool) (p : Prog A)
    (k : A -> Prog B) :
  (forall x, settles rest task_id flag false (k x)) ->
  settles rest task_id flag rested (bind p k).
Proof.
  intros Hk. revert rested. induction p as [r|e|X a h IH]; intros rested; cbn [bind].
  - apply settles_weaken, Hk.
  - constructor.
  - constructor. intros x. apply IH.
Qed.

Lemma rest_after_update {X} (a : Action X) (w : World) :
  puts_at_rest rest task_id a = true -> rests_in rest task_id (snd (step env a w)).
Proof.
  destruct a; cbn [puts_at_rest]; try discriminate. intros H.
  apply andb_true_iff in H as [Ht Hs]. apply String.eqb_eq in Ht. subst task_id0.
  unfold step, rests_in. cbn [perform snd registry with_registry emit].
  unfold _update_progress. cbn [progress_status]. rewrite lookup_insert_eq.
  destruct (js_status payload) as [s|] eqn:Es; [|discriminate].
  eexists _, s. split; [reflexivity|]. cbn [dict_update js_status]. rewrite Es.
  split; [reflexivity|exact Hs].
Qed.

Lemma settles_run {R} (flag : R -> bool) (rested : bool) (p : Prog R) (w : World) :
  settles rest task_id flag rested p ->
  (rested = true -> rests_in rest task_id w) ->
  match run env p w with
  | (Ok r, w') => flag r = true -> rests_in rest task_id w'
  | (Err _, _) => True
  end.
Proof.
  intros Hp. revert w. induction Hp as [b r Hr|b e|b X a k Hk IH]; intros w Hw; cbn [run].
  - intros Hf. apply Hw, Hr, Hf.
  - exact I.
  - pose proof (rest_after_update a w) as Ha.
    destruct (step env a w) as [x w1]. cbn [snd] in Ha. apply IH. exact Ha.
Qed.

Ltac settle :=
  repeat first
    [ apply settles_raise
    | apply settles_ret;
      first [ intros H; cbn in H; discriminate H
            | intros _; reflexivity
            | intros _; cbn [puts_at_rest js_status error status_message];
              rewrite String.eqb_refl; exact rest_error ]
    | apply settles_do; intros ?
    | progress cbn [bind act]
    | match goal with
      | |- settles _ _ _ _ (if ?c then _ else _) => destruct c
      | |- settles _ _ _ _ (match ?x with _ => _ end) => destruct x
      | |- settles _ _ _ _ (bind (if ?c then _ else _) _) => destruct c
      end ].

Lemma settles_usable_boundary (rested : bool) (found : PyObj) (failure name country : string) :
  settles rest task_id is_absent rested (usable_boundary task_id found failure name country).
Proof. unfold usable_boundary. settle. Qed.

Lemma settles_resolve_location (rested : bool) (data : RequestData) :
  settles rest task_id is_absent rested (resolve_location task_id data).
Proof.
  unfold resolve_location.
  destruct (location_mode data); settle;
    apply settles_after; intros found; first [apply settles_usable_boundary | settle].
Qed.

Lemma settles_prepare (rested : bool) (data : RequestData) :
  settles rest task_id is_absent rested (prepare task_id data).
Proof.
  unfold prepare, get_available_themes. settle;
    (apply (settles_bind is_absent); [apply settles_resolve_location|]);
    intros place; settle.
Qed.

Lemma settles_on_poster_error (rested : bool) (file : string) (e : Exc) :
  settles rest task_id (fun _ : unit => true) rested (on_poster_error task_id (Some file) e).
Proof. unfold on_poster_error. apply settles_after. intros _. settle. Qed.

(** A theme loop either ends the job in [rest], or goes past its last theme
    with one more file per theme, in the order of the themes. *)
Lemma theme_loop_spec (data : RequestData) (poster : string -> Job unit)
    (theme_list : list string) (output_file : option string)
    (output_files : list OutputFile) (w : World) :
  match theme_loop env task_id data poster theme_list output_file output_files w with
  | (Ok JobEnded, w') => rests_in rest task_id w'
  | (Ok (LoopDone _ output_files'), _) =>
      exists new,
        output_files' = (output_files ++ new)%list
        /\ map out_theme new = theme_list
        /\ Forall (fun f => out_format f = format_output data) new
  | (Err _, _) => True
  end.
Proof.
  revert output_file output_files w.
  induction theme_list as [|theme_name themes IH]; intros output_file output_files w;
    cbn [theme_loop].
  { unfold jret. exists []. rewrite app_nil_r. repeat split. constructor. }
  unfold jbind at 1.
  match goal with
  | |- context [run env ?p w] => destruct (run env p w) as [[theme_data|e] w1]
  end; [|exact I].
  destruct theme_data as [theme|].
  - unfold jbind at 1. rewrite run_act. cbn [fst snd].
    set (file := fst (step env (named_temporary_file ("." +:+ format_output data)) w1)).
    set (w2 := snd (step env (named_temporary_file ("." +:+ format_output data)) w1)).
    unfold jbind at 1, jtry, jbind, jret.
    destruct (poster file w2) as [[[]|e] w3].
    + match goal with
      | |- context [theme_loop env task_id data poster themes ?f ?fs w3] =>
          specialize (IH f fs w3);
          destruct (theme_loop env task_id data poster themes f fs w3)
            as [[[file' files'|]|e'] w4]
      end; [|exact IH|exact I].
      destruct IH as (new & -> & Hthemes & Hformats).
      eexists (_ :: new). rewrite <- app_assoc. split; [reflexivity|].
      split; [cbn [map out_theme]; f_equal; exact Hthemes|].
      constructor; [reflexivity|exact Hformats].
    + pose proof (settles_run (fun _ : unit => true) false
                    (on_poster_error task_id (Some file) e) w3
                    (settles_on_poster_error false file e)
                    ltac:(discriminate)) as H.
      destruct (run env (on_poster_error task_id (Some file) e) w3) as [[[]|e'] w4];
        [|exact I].
      apply H. reflexivity.
  - unfold jbind, jret. rewrite run_act. cbn [fst snd].
    apply rest_after_update. cbn [puts_at_rest js_status error status_message].
    rewrite String.eqb_refl. exact rest_error.
Qed.

End Rest.

Lemma failed_is_at_rest (task_id : string) (w : World) :
  rests_in failed task_id w -> at_rest task_id w.
Proof.
  intros (job & status & Hjob & Hstatus & Hrest). exists job. split; [exact Hjob|].
  left. apply String.eqb_eq in Hrest. subst status. exact Hstatus.
Qed.

(** How the posters of a resolved location end: in ["error"], or in
    ["completed"] with the files of the theme loop. *)
Lemma make_posters_spec (env : Env) (proc : Process) (schedule : list nat)
    (task_id : string) (data : RequestData) (theme_list : list string)
    (place : Resolved) (w : World) :
  match make_posters env proc schedule task_id data theme_list place w with
  | (Ok _, w') =>
      rests_in failed task_id w'
      \/ exists job,
           progress_status (registry w') !! task_id = Some job
           /\ js_status job = Some "completed"
           /\ (theme_list <> [] ->
               exists files,
                 js_files job = Some files
                 /\ map out_theme files = theme_list
                 /\ Forall (fun f => out_format f = format_output data) files)
  | (Err _, _) => True
  end.
Proof.
  unfold make_posters. unfold jbind at 1. rewrite run_act. cbn [fst snd].
  unfold jbind, jret.
  match goal with
  | |- context [theme_loop env task_id data ?poster theme_list None [] ?w1] =>
      pose proof (theme_loop_spec env failed task_id eq_refl data poster theme_list
                    None [] w1) as H;
      destruct (theme_loop env task_id data poster theme_list None [] w1)
        as [[[output_file output_files|]|e] w2]
  end; [|left; exact H|exact I].
  rewrite run_act. cbn [fst snd]. right.
  destruct H as (new & -> & Hthemes & Hformats). rewrite app_nil_l.
  unfold step. cbn [perform snd registry with_registry emit].
  unfold _update_progress. cbn [progress_status]. rewrite lookup_insert_eq.
  eexists. split; [reflexivity|]. split.
  - destruct new; reflexivity.
  - intros Hne. destruct new as [|f new]; [cbn in Hthemes; congruence|].
    exists (f :: new). split; [reflexivity|]. split; assumption.
Qed.

(** Validation and resolution either end the job in ["error"], or hand on
    the themes of the request, which are not empty. *)
Lemma prepare_spec (env : Env) (task_id : string) (data : RequestData) (w : World) :
  match run env (prepare task_id data) w with
  | (Ok (Some (theme_list, _)), _) =>
      theme_list = theme_list_of data (map fst (themes_dir env)) /\ theme_list <> []
  | (Ok None, w') => rests_in failed task_id w'
  | (Err _, _) => True
  end.
Proof.
  pose proof (settles_run env failed task_id is_absent false (prepare task_id data) w
                (settles_prepare failed task_id eq_refl false data)
                ltac:(discriminate)) as Hp.
  revert Hp. unfold prepare, get_available_themes.
  rewrite run_bind, run_act. cbn [fst snd].
  rewrite run_bind, run_act. cbn [fst snd].
  rewrite run_bind, run_act. cbn [fst snd].
  rewrite run_bind, run_act. cbn [fst snd].
  match goal with
  | |- context [fst (step env listdir_themes ?w3)] =>
      change (fst (step env listdir_themes w3)) with (map fst (themes_dir env))
  end.
  destruct (negb (String.eqb (tema data) "custom")
            && negb (existsb (String.eqb (tema data)) (map fst (themes_dir env))))
    eqn:Hknown.
  { rewrite run_bind, run_act. cbn [fst snd run]. intros H. apply H. reflexivity. }
  destruct (missing_parameters data) as [complaint|].
  { rewrite run_bind, run_act. cbn [fst snd run]. intros H. apply H. reflexivity. }
  rewrite run_bind, run_act. cbn [fst snd]. rewrite run_bind.
  match goal with
  | |- context [run env (resolve_location task_id data) ?w5] =>
      destruct (run env (resolve_location task_id data) w5) as [[[place|]|e] w6]
  end; cbn [run]; [intros _|intros H; apply H; reflexivity|intros _; exact I].
  split; [reflexivity|]. unfold theme_list_of.
  destruct (String.eqb (tema data) "custom"); [discriminate|].
  destruct (all_themes data); [|discriminate].
  cbn [negb andb] in Hknown. apply negb_false_iff in Hknown.
  destruct (map fst (themes_dir env)); [discriminate Hknown|discriminate].
Qed.

(** X13.  Whatever the request, the provider, the disk, the renderer, the
    schedule of the workers and the client do, [create_poster_async]
    returns without raising, and when it returns the job has a record whose
    status is ["error"] or ["completed"]: no job is left in a phase that
    still shows progress. *)
Theorem every_job_comes_to_rest (env : Env) (proc : Process) (schedule : list nat)
    (task_id : string) (data : RequestData) (w : World) :
  fst (create_poster_async env proc schedule task_id data w) = Ok tt
  /\ at_rest task_id (snd (create_poster_async env proc schedule task_id data w)).
Proof.
  unfold create_poster_async, jtry, jbind, jret.
  assert (Hend : forall msg w0,
            fst (run env (act (update_progress task_id (error msg))) w0) = Ok tt
            /\ at_rest task_id
                 (snd (run env (act (update_progress task_id (error msg))) w0))).
  { intros msg w0. rewrite run_act. cbn [fst snd]. split.
    - unfold step. cbn [perform fst]. reflexivity.
    - apply failed_is_at_rest, rest_after_update.
      cbn [puts_at_rest js_status error status_message].
      rewrite String.eqb_refl. reflexivity. }
  pose proof (prepare_spec env task_id data w) as Hp.
  destruct (run env (prepare task_id data) w) as [[[[theme_list place]|]|e] w1].
  - pose proof (make_posters_spec env proc schedule task_id data theme_list place w1)
      as Hm.
    destruct (make_posters env proc schedule task_id data theme_list place w1)
      as [[[]|e] w2].
    + cbn [fst snd]. split; [reflexivity|].
      destruct Hm as [Hm|(job & Hjob & Hstatus & _)].
      * apply failed_is_at_rest, Hm.
      * exists job. auto.
    + apply Hend.
  - cbn [fst snd]. split; [reflexivity|apply failed_is_at_rest, Hp].
  - apply Hend.
Qed.

(** X14.  A job that ends ["completed"] has made one poster per theme of
    the request - the custom theme, every available theme, or the one theme
    asked for - and lists them in that order, each in the requested format;
    the list is never empty. *)
Theorem completed_jobs_list_every_theme (env : Env) (proc : Process)
    (schedule : list nat) (task_id : string) (data : RequestData) (w : World)
    (job : JobStatus) :
  progress_status (registry (snd (create_poster_async env proc schedule task_id data w)))
    !! task_id = Some job ->
  js_status job = Some "completed" ->
  exists files,
    js_files job = Some files
    /\ files <> []
    /\ map out_theme files = theme_list_of data (map fst (themes_dir env))
    /\ Forall (fun f => out_format f = format_output data) files.
Proof.
  unfold create_poster_async, jtry, jbind, jret.
  assert (Hfailed : forall w0,
            rests_in failed task_id w0 ->
            progress_status (registry w0) !! task_id = Some job ->
            js_status job = Some "completed" -> False).
  { intros w0 (job' & status & Hjob' & Hstatus & Hrest) Hjob Hdone.
    apply String.eqb_eq in Hrest. subst status. congruence. }
  assert (Hend : forall msg w0,
            rests_in failed task_id
              (snd (run env (act (update_progress task_id (error msg))) w0))).
  { intros msg w0. rewrite run_act. cbn [snd]. apply rest_after_update.
    cbn [puts_at_rest js_status error status_message].
    rewrite String.eqb_refl. reflexivity. }
  pose proof (prepare_spec env task_id data w) as Hp.
  destruct (run env (prepare task_id data) w) as [[[[theme_list place]|]|e] w1].
  - destruct Hp as [Hlist Hne].
    pose proof (make_posters_spec env proc schedule task_id data theme_list place w1)
      as Hm.
    destruct (make_posters env proc schedule task_id data theme_list place w1)
      as [[[]|e] w2].
    + cbn [snd]. intros Hjob Hdone.
      destruct Hm as [Hm|(job' & Hjob' & _ & Hfiles)].
      * destruct (Hfailed _ Hm Hjob Hdone).
      * assert (job' = job) as -> by congruence.
        destruct (Hfiles Hne) as (files & Hf & Hthemes & Hformats).
        exists files. split; [exact Hf|]. split.
        -- intros ->. cbn in Hthemes. apply Hne. symmetry. exact Hthemes.
        -- rewrite <- Hlist. split; assumption.
    + intros Hjob Hdone. destruct (Hfailed _ (Hend _ w2) Hjob Hdone).
  - cbn [snd]. intros Hjob Hdone. destruct (Hfailed _ Hp Hjob Hdone).
  - intros Hjob Hdone. destruct (Hfailed _ (Hend _ w1) Hjob Hdone).
Qed.

Lemma completed_jobs_list_every_theme_witness :
  exists files,
    js_files finished_record = Some files
    /\ files <> []
    /\ map out_theme files = theme_list_of every_theme (map fst (themes_dir two_themes))
    /\ Forall (fun f => out_format f = format_output every_theme) files.
Proof.
  apply (completed_jobs_list_every_theme two_themes default_process [] "job" every_theme
           fresh_world finished_record); vm_compute; reflexivity.
Defined.

(* ===================================================================== *)
(** * Requests that are turned down                                       *)
(* ===================================================================== *)

Section Rejected.

Context (env : Env) (task_id : string).


Lemma update_sets_status (status message : string) (w : World) :
  exists job,
    progress_status (registry (snd (step env
        (update_progress task_id (status_message status message)) w))) !! task_id
    = Some job
    /\ js_status job = Some status /\ js_message job = Some message.
Proof.
  unfold step. cbn [perform snd registry with_registry emit].
  unfold _update_progress. cbn [progress_status]. rewrite lookup_insert_eq.
  eexists. split; [reflexivity|]. split; reflexivity.
Qed.


End Rejected.


(* ===================================================================== *)
(** * Road styles                                                         *)
(* ===================================================================== *)

Lemma edge_color_total (theme : Theme) (data : EdgeData) :
  forallb (has_key theme) road_keys = true ->
  exists color, edge_color (Some theme) data = Ok color.
Proof.
  unfold road_keys. cbn [forallb]. unfold has_key. intros H.
  repeat (apply andb_true_iff in H as [? H]).
  unfold edge_color, subscript.
  repeat match goal with
         | |- context [if ?b then _ else _] => destruct b
         end;
    match goal with
    | |- context [dict_get theme ?k] => destruct (dict_get theme k); try discriminate
    end; eexists; reflexivity.
Qed.

Lemma edge_colors_from_spec (theme : Theme) (edges : list EdgeData) (acc : list string) :
  forallb (has_key theme) road_keys = true ->
  exists colors,
    edge_colors_from (Some theme) edges acc = Ok (acc ++ colors)
    /\ Forall2 (fun data color => edge_color (Some theme) data = Ok color) edges colors.
Proof.
  intros Hkeys. revert acc. induction edges as [|data rest IH]; intros acc;
    cbn [edge_colors_from].
  - exists []. rewrite app_nil_r. split; [reflexivity|constructor].
  - destruct (edge_color_total theme data Hkeys) as [color Hc]. rewrite Hc.
    destruct (IH (acc ++ [color])) as (colors & Hr & Hall).
    exists (color :: colors). rewrite Hr, <- app_assoc. split; [reflexivity|].
    constructor; assumption.
Qed.

Lemma edge_widths_from_spec (edges : list EdgeData) (acc : list Q) :
  edge_widths_from edges acc = acc ++ map edge_width edges.
Proof.
  revert acc. induction edges as [|data rest IH]; intros acc; cbn [edge_widths_from map].
  - rewrite app_nil_r. reflexivity.
  - rewrite IH, <- app_assoc. reflexivity.
Qed.

(** X16.  With a theme that has the six road keys, the two style functions
    never raise, and they return one colour and one width for every edge of
    the graph, in the order of the edges - the lists [ox.plot_graph] is
    given line up with the edges. *)
Theorem one_style_per_edge (theme : Theme) (edges : list EdgeData) :
  forallb (has_key theme) road_keys = true ->
  exists colors,
    get_edge_colors_by_type (Some theme) (Some edges) = Ok colors
    /\ Forall2 (fun data color => edge_color (Some theme) data = Ok color) edges colors
    /\ get_edge_widths_by_type (Some edges) = Ok (map edge_width edges).
Proof.
  intros Hkeys. destruct (edge_colors_from_spec theme edges [] Hkeys) as (colors & Hr & Hall).
  exists colors. unfold get_edge_colors_by_type, get_edge_widths_by_type.
  rewrite Hr, edge_widths_from_spec. auto.
Qed.

Lemma one_style_per_edge_witness :
  exists colors,
    get_edge_colors_by_type (Some default_theme)
      (Some [Some (HighwayStr "primary"); None; Some (HighwayList ["service"; "track"])])
    = Ok colors
    /\ Forall2 (fun data color => edge_color (Some default_theme) data = Ok color)
         [Some (HighwayStr "primary"); None; Some (HighwayList ["service"; "track"])] colors
    /\ get_edge_widths_by_type
         (Some [Some (HighwayStr "primary"); None; Some (HighwayList ["service"; "track"])])
       = Ok (map edge_width
               [Some (HighwayStr "primary"); None; Some (HighwayList ["service"; "track"])]).
Proof.
  apply (one_style_per_edge default_theme
           [Some (HighwayStr "primary"); None; Some (HighwayList ["service"; "track"])]).
  reflexivity.
Defined.

(** X17.  The two style functions sort edges into the same classes: edges
    that get the colour of the same theme key get the same width (the
    widths do not tell residential roads from other minor roads).  A
    [_link] road is styled as the road it links to; an edge whose highway
    is a list is styled by the first type of the list; an edge without a
    highway, or with an empty list, is styled as ["unclassified"]; and no
    width is below 0.4 or above 1.2. *)
Theorem styles_sort_edges_alike (THEME : option Theme) (data data' : EdgeData)
    (base first : string) (others : list string) :
  (edge_color (Some key_theme) data = edge_color (Some key_theme) data' ->
   edge_width data = edge_width data')
  /\ (In base linked_types ->
      edge_color THEME (Some (HighwayStr (base +:+ "_link")))
      = edge_color THEME (Some (HighwayStr base))
      /\ edge_width (Some (HighwayStr (base +:+ "_link")))
         = edge_width (Some (HighwayStr base)))
  /\ edge_color THEME (Some (HighwayList (first :: others)))
     = edge_color THEME (Some (HighwayStr first))
  /\ edge_width (Some (HighwayList (first :: others))) = edge_width (Some (HighwayStr first))
  /\ edge_color THEME None = edge_color THEME (Some (HighwayStr "unclassified"))
  /\ edge_color THEME (Some (HighwayList [])) = edge_color THEME None
  /\ (0.4 <= edge_width data <= 1.2)%Q.
Proof.
  split; [|split; [|repeat split]].
  - unfold edge_color, edge_width.
    repeat match goal with
           | |- context [if ?b then _ else _] => destruct b
           end; cbn; intros H; first [reflexivity | discriminate H].
  - intros Hin. cbn [linked_types In] in Hin.
    repeat (destruct Hin as [<-|Hin]; [split; reflexivity|]). contradiction.
  - unfold edge_width.
    repeat match goal with
           | |- context [if ?b then _ else _] => destruct b
           end; vm_compute; discriminate.
  - unfold edge_width.
    repeat match goal with
           | |- context [if ?b then _ else _] => destruct b
           end; vm_compute; discriminate.
Qed.

(* ===================================================================== *)
(** * The progress reply                                                  *)
(* ===================================================================== *)

Lemma percent_of_range (status : string) (p : Z) :
  percent_of status = Some p -> 0 < p <= 100.
Proof.
  unfold percent_of, status_percent_map. cbn [List.find fst].
  repeat match goal with
         | |- context [String.eqb ?a status] => destruct (String.eqb a status)
         end; cbn; intros H; first [discriminate H | injection H as <-; lia].
Qed.

Lemma max0_nonneg (x : Q) : (0 <= max0 x)%Q.
Proof.
  unfold max0. destruct (Qle_bool x 0) eqn:E; [apply Qle_refl|].
  apply Qlt_le_weak, Qnot_le_lt. intros H. apply Qle_bool_iff in H. congruence.
Qed.

Lemma list_files_spec (idx : nat) (files : list OutputFile) :
  map listed_index (list_files idx files) = seq idx (length files)
  /\ map listed_theme (list_files idx files) = map out_theme files
  /\ map listed_format (list_files idx files) = map out_format files.
Proof.
  revert idx. induction files as [|f rest IH]; intros idx; cbn; [auto|].
  destruct (IH (S idx)) as (H1 & H2 & H3). rewrite H1, H2, H3. auto.
Qed.

(** X18.  What polling shows.  A percentage, when there is one, lies between
    1 and 100; the estimate of the remaining time is never negative, and
    is there only for a job that has a start time and a percentage.  A
    completed job shows 100 percent, an estimate of 0, no ['file'] key, and
    its files by index, theme and format only, in their order - never a
    path.  A job in error shows no percentage and no estimate. *)
Theorem what_polling_shows (now : Z) (r : Registry) (task_id : string)
    (reply : ProgressReply) :
  api_progress now r task_id = Some reply ->
  (forall p, pr_percent reply = Some p -> 0 < p <= 100)
  /\ (forall eta, pr_eta_seconds reply = Some eta ->
        (0 <= eta)%Q
        /\ exists elapsed p,
             pr_elapsed_seconds reply = Some elapsed /\ 0 <= elapsed
             /\ pr_percent reply = Some p)
  /\ (pr_status reply = Some "completed" ->
      pr_percent reply = Some 100
      /\ pr_file reply = None
      /\ (forall eta, pr_eta_seconds reply = Some eta -> eta = 0%Q)
      /\ (forall stored, pr_files reply = Some (FilesStored stored) -> stored = [])
      /\ (forall listed, pr_files reply = Some (FilesListed listed) ->
            exists files,
              default None (js_files <$> progress_status r !! task_id) = Some files
              /\ map listed_index listed = seq 0 (length files)
              /\ map listed_theme listed = map out_theme files
              /\ map listed_format listed = map out_format files))
  /\ (pr_status reply = Some "error" ->
      pr_percent reply = None /\ pr_eta_seconds reply = None).
Proof.
  unfold api_progress. destruct (progress_status r !! task_id) as [status|]; [|discriminate].
  intros H. injection H as <-. cbn [pr_percent pr_eta_seconds pr_elapsed_seconds pr_status
                                   pr_file pr_files default fmap option_fmap option_map].
  split; [|split; [|split]].
  - unfold api_progress_percent. destruct (js_status status) as [s|]; [|discriminate].
    apply percent_of_range.
  - intros eta Heta.
    destruct (js_started_at status) as [started_at|]; [|discriminate].
    destruct (started_at =? 0); [discriminate|].
    destruct (api_progress_percent status) as [p|]; [|discriminate].
    destruct (0 <? p); [|discriminate]. injection Heta as <-.
    split; [apply max0_nonneg|]. exists (Z.max 0 (now - started_at)), p.
    split; [reflexivity|]. split; [lia|reflexivity].
  - intros Hs. unfold api_progress_percent. rewrite Hs. cbn [String.eqb Ascii.eqb Bool.eqb].
    change (percent_of "completed") with (Some 100).
    split; [reflexivity|]. split; [reflexivity|]. split; [|split].
    + intros eta Heta.
      destruct (js_started_at status) as [started_at|]; [|discriminate].
      destruct (started_at =? 0); [discriminate|].
      cbn [Z.ltb Z.compare] in Heta. injection Heta as <-.
      unfold max0, Qle_bool. cbn. rewrite Z.mul_0_r. reflexivity.
    + intros stored Hst. destruct (js_files status) as [[|f rest]|]; try discriminate.
      injection Hst as <-. reflexivity.
    + intros listed Hl. destruct (js_files status) as [[|f rest]|]; try discriminate.
      injection Hl as <-. exists (f :: rest). split; [reflexivity|].
      exact (list_files_spec 0 (f :: rest)).
  - intros Hs. unfold api_progress_percent. rewrite Hs.
    change (percent_of "error") with (@None Z).
    split; [reflexivity|]. destruct (js_started_at status) as [started_at|]; [|reflexivity].
    destruct (started_at =? 0); reflexivity.
Qed.

Lemma what_polling_shows_witness :
  exists reply,
    api_progress 160 (registry finished_job) "job" = Some reply
    /\ pr_status reply = Some "completed"
    /\ (forall p, pr_percent reply = Some p -> 0 < p <= 100).
Proof.
  destruct (api_progress 160 (registry finished_job) "job") as [reply|] eqn:E;
    [|vm_compute in E; discriminate E].
  exists reply. split; [reflexivity|]. split.
  - vm_compute in E. injection E as <-. reflexivity.
  - apply (what_polling_shows 160 (registry finished_job) "job" reply E).
Defined.

(* ===================================================================== *)
(** * Downloads and previews                                              *)
(* ===================================================================== *)

Lemma last_default {A} (l : list A) (d d' : A) :
  l <> [] -> List.last l d = List.last l d'.
Proof.
  induction l as [|a l IH]; [congruence|]. intros _.
  destruct l as [|b l]; [reflexivity|]. cbn [List.last] in *. apply IH. discriminate.
Qed.

Lemma nth_error_last {A} (f : A) (rest : list A) (chosen : A) :
  nth_error (f :: rest) (length rest) = Some chosen -> chosen = List.last rest f.
Proof.
  revert f. induction rest as [|g rest IH]; intros f E.
  - cbn in *. congruence.
  - cbn [length nth_error] in E. rewrite (IH g E).
    destruct rest as [|h rest]; [reflexivity|].
    change (List.last (g :: h :: rest) f) with (List.last (h :: rest) f).
    apply last_default. discriminate.
Qed.

Lemma file_at_in_bounds (f : OutputFile) (rest : list OutputFile) (q : FileQuery) :
  exists chosen,
    file_at (f :: rest) q = Ok chosen
    /\ In chosen (f :: rest)
    /\ (default 0 (q_index q) <= 0 -> chosen = f)
    /\ (Z.of_nat (length rest) <= default 0 (q_index q) -> chosen = List.last rest f).
Proof.
  unfold file_at. set (requested := default 0 (q_index q)).
  set (index := Z.max 0 (Z.min requested (Z.of_nat (length (f :: rest)) - 1))).
  assert (Hi : (Z.to_nat index < length (f :: rest))%nat).
  { subst index. cbn [length]. lia. }
  destruct (nth_error (f :: rest) (Z.to_nat index)) as [chosen|] eqn:E.
  - exists chosen. split; [reflexivity|]. split; [eapply nth_error_In; exact E|].
    split.
    + intros Hle. assert (Z.to_nat index = 0%nat) as H0 by (subst index; lia).
      rewrite H0 in E. cbn in E. congruence.
    + intros Hge.
      assert (Z.to_nat index = length rest) as Hn.
      { subst index. cbn [length]. lia. }
      rewrite Hn in E. apply nth_error_last in E. exact E.
  - apply nth_error_None in E. lia.
Qed.

(** X19.  For a completed job with posters, no index a client sends makes
    the download or the preview route fail: the index is clamped to the
    list, an index below 0 giving the first poster and an index past the
    end the last one.  Both routes pick the same poster; the download sends
    it as an attachment, the preview sends it inline with the type of its
    extension or answers 415, and a poster whose file is gone is answered
    with 404 by both. *)
Theorem downloads_stay_in_bounds (w : World) (task_id : string) (q : FileQuery)
    (status : JobStatus) (f : OutputFile) (rest : list OutputFile) :
  progress_status (registry w) !! task_id = Some status ->
  js_status status = Some "completed" ->
  js_files status = Some (f :: rest) ->
  exists chosen,
    In chosen (f :: rest)
    /\ (default 0 (q_index q) <= 0 -> chosen = f)
    /\ (Z.of_nat (length rest) <= default 0 (q_index q) -> chosen = List.last rest f)
    /\ api_download w task_id q
       = Ok match servable w (Some (out_file chosen)) with
            | Some path =>
                SendFile path (Some (download_name q (Some (out_theme chosen)))) None true
            | None => not_found
            end
    /\ exists answer,
         api_preview w task_id q = Ok answer
         /\ match servable w (Some (out_file chosen)) with
            | Some path =>
                answer = JsonError "Preview hanya tersedia untuk PNG/SVG/PDF" 415
                \/ exists mimetype,
                     answer = SendFile path None (Some mimetype) false
                     /\ In (lower (splitext_ext path), mimetype)
                          [(".png", "image/png"); (".svg", "image/svg+xml");
                           (".pdf", "application/pdf")]
            | None => answer = not_found
            end.
Proof.
  intros Hjob Hstatus Hfiles.
  destruct (file_at_in_bounds f rest q) as (chosen & Hat & Hin & Hfirst & Hlast).
  exists chosen. split; [exact Hin|]. split; [exact Hfirst|]. split; [exact Hlast|].
  unfold api_download, api_preview.
  rewrite Hjob, Hstatus, Hfiles, Hat. cbn [fmap option_fmap option_map default].
  cbn [String.eqb Ascii.eqb Bool.eqb].
  split.
  - destruct (servable w (Some (out_file chosen))); reflexivity.
  - destruct (servable w (Some (out_file chosen))) as [path|].
    + destruct (isin (lower (splitext_ext path)) [".png"; ".svg"; ".pdf"]) eqn:Ein;
        cbn [negb].
      * eexists. split; [reflexivity|]. right.
        unfold isin in Ein. cbn [existsb] in Ein.
        destruct (String.eqb (lower (splitext_ext path)) ".png") eqn:E1.
        { apply String.eqb_eq in E1. rewrite E1. eexists. split; [reflexivity|].
          left. reflexivity. }
        destruct (String.eqb (lower (splitext_ext path)) ".svg") eqn:E2.
        { apply String.eqb_eq in E2. rewrite E2. eexists. split; [reflexivity|].
          right. left. reflexivity. }
        destruct (String.eqb (lower (splitext_ext path)) ".pdf") eqn:E3;
          [|discriminate].
        apply String.eqb_eq in E3. rewrite E3. eexists. split; [reflexivity|].
        right. right. left. reflexivity.
      * eexists. split; [reflexivity|]. left. reflexivity.
    + eexists. split; reflexivity.
Qed.

Lemma downloads_stay_in_bounds_witness :
  exists chosen,
    In chosen two_posters
    /\ (default 0 (q_index {| q_index := Some 7; q_data := None |}) <= 0 ->
        chosen = {| out_file := "tmp0.png"; out_theme := "noir"; out_format := "png" |})
    /\ (Z.of_nat 1 <= default 0 (q_index {| q_index := Some 7; q_data := None |}) ->
        chosen = {| out_file := "tmp1.png"; out_theme := "ocean"; out_format := "png" |})
    /\ api_download finished_job "job" {| q_index := Some 7; q_data := None |}
       = Ok match servable finished_job (Some (out_file chosen)) with
            | Some path =>
                SendFile path
                  (Some (download_name {| q_index := Some 7; q_data := None |}
                           (Some (out_theme chosen)))) None true
            | None => not_found
            end
    /\ exists answer,
         api_preview finished_job "job" {| q_index := Some 7; q_data := None |} = Ok answer
         /\ match servable finished_job (Some (out_file chosen)) with
            | Some path =>
                answer = JsonError "Preview hanya tersedia untuk PNG/SVG/PDF" 415
                \/ exists mimetype,
                     answer = SendFile path None (Some mimetype) false
                     /\ In (lower (splitext_ext path), mimetype)
                          [(".png", "image/png"); (".svg", "image/svg+xml");
                           (".pdf", "application/pdf")]
            | None => answer = not_found
            end.
Proof.
  apply (downloads_stay_in_bounds finished_job "job" {| q_index := Some 7; q_data := None |}
           (dict_update (dict_update no_fields (starting 100))
              (completed (Some "tmp1.png") two_posters))
           {| out_file := "tmp0.png"; out_theme := "noir"; out_format := "png" |}
           [{| out_file := "tmp1.png"; out_theme := "ocean"; out_format := "png" |}]);
    vm_compute; reflexivity.
Defined.

(* ===================================================================== *)
(** * Places the geocoder does not know                                   *)
(* ===================================================================== *)

Lemma cache_get_temp_outputs (env : Env) (name : string) (w : World) :
  temp_outputs (world_after env (cache_get name) w) = temp_outputs w.
Proof.
  unfold world_after, cache_get. cbn [bind act run step perform]. rewrite tick_disk.
  destruct (disk w !! cache_file name) as [[obj|]|] eqn:E; cbn [run call step perform snd];
    rewrite ?tick_disk, ?E; reflexivity.
Qed.

Lemma get_coordinates_unknown (env : Env) (city country : string) (w : World) :
  cached_value (disk w) (coords_key city country) = Ok PyNone ->
  geocode env (city +:+ ", " +:+ country) = Ok None ->
  exists w',
    run env (get_coordinates city country) w
    = (Err (ValueError ("Could not find coordinates for " +:+ city +:+ ", " +:+ country)),
       w')
    /\ disk w' = disk w /\ temp_outputs w' = temp_outputs w.
Proof.
  intros Hcache Hgeo. unfold get_coordinates.
  rewrite run_bind, run_split, cache_get_result.
  fold (coords_key city country). rewrite Hcache.
  cbn [truth lift bind].
  rewrite run_bind, run_act. cbn [fst snd].
  rewrite run_bind, run_act. cbn [fst snd].
  rewrite run_bind, run_call.
  match goal with
  | |- context [fst (step env (geolocator_geocode ?q) ?w3)] =>
      change (fst (step env (geolocator_geocode q) w3)) with (geocode env q)
  end.
  rewrite Hgeo. cbn [run].
  eexists. split; [reflexivity|]. split.
  - unfold step. cbn [perform snd].
    repeat first [rewrite tick_disk | progress cbn [disk emit]].
    apply cache_get_disk.
  - transitivity (temp_outputs (world_after env (cache_get (coords_key city country)) w));
      [reflexivity|apply cache_get_temp_outputs].
Qed.

(** X20.  A request for a city and country that the geocoder does not know
    (and that is not in the cache) does not end with the message the
    orchestrator keeps for that case: [get_coordinates] raises instead of
    returning [None], so the job ends in ["error"] with the message of the
    outer handler, ["Error tidak terduga: Could not find coordinates for
    <city>, <country>"].  Nothing is written to the cache and no output file
    is created. *)
Theorem unknown_place_ends_unexpectedly (env : Env) (proc : Process)
    (schedule : list nat) (task_id : string) (data : RequestData) (w : World)
    (city country : string) :
  rejection env data = None ->
  location_mode data = ByGeocoding ->
  kota data = Some city ->
  negara data = Some country ->
  cached_value (disk w) (coords_key city country) = Ok PyNone ->
  geocode env (city +:+ ", " +:+ country) = Ok None ->
  (exists job,
     progress_status (registry (snd (create_poster_async env proc schedule task_id
                                       data w))) !! task_id = Some job
     /\ js_status job = Some "error"
     /\ js_message job
        = Some ("Error tidak terduga: Could not find coordinates for "
                +:+ city +:+ ", " +:+ country))
  /\ disk (snd (create_poster_async env proc schedule task_id data w)) = disk w
  /\ temp_outputs (snd (create_poster_async env proc schedule task_id data w))
     = temp_outputs w.
Proof.
  intros Hrej Hmode Hcity Hcountry Hcache Hgeo.
  assert (Hprep : exists w',
            run env (prepare task_id data) w
            = (Err (ValueError ("Could not find coordinates for " +:+ city +:+ ", "
                                +:+ country)), w')
            /\ disk w' = disk w /\ temp_outputs w' = temp_outputs w).
  { unfold prepare, get_available_themes.
    rewrite run_bind, run_act. cbn [fst snd].
    rewrite run_bind, run_act. cbn [fst snd].
    rewrite run_bind, run_act. cbn [fst snd].
    rewrite run_bind, run_act. cbn [fst snd].
    match goal with
    | |- context [fst (step env listdir_themes ?w3)] =>
        change (fst (step env listdir_themes w3)) with (map fst (themes_dir env))
    end.
    unfold rejection in Hrej.
    destruct (negb (String.eqb (tema data) "custom")
              && negb (existsb (String.eqb (tema data)) (map fst (themes_dir env))));
      [discriminate|].
    rewrite Hrej. rewrite run_bind, run_act. cbn [fst snd].
    rewrite run_bind. unfold resolve_location. rewrite Hmode, Hcity, Hcountry.
    rewrite run_bind, run_act. cbn [fst snd]. rewrite run_bind.
    match goal with
    | |- context [run env (get_coordinates city country) ?w6] =>
        destruct (get_coordinates_unknown env city country w6 Hcache Hgeo)
          as (w7 & -> & Hdisk & Htemp)
    end.
    exists w7. split; [reflexivity|]. split; [rewrite Hdisk|rewrite Htemp]; reflexivity. }
  destruct Hprep as (w' & Hrun & Hdisk & Htemp).
  unfold create_poster_async, jtry, jbind. rewrite Hrun. cbn [str_exc].
  replace (String.eqb ("Could not find coordinates for " +:+ city +:+ ", " +:+ country)
             "cancelled") with false by reflexivity.
  rewrite run_act. cbn [snd]. split; [|split].
  - destruct (update_sets_status env task_id "error"
                ("Error tidak terduga: Could not find coordinates for "
                 +:+ city +:+ ", " +:+ country) w') as (job & Hjob & Hs & Hm).
    exists job. auto.
  - rewrite <- Hdisk. reflexivity.
  - rewrite <- Htemp. reflexivity.
Qed.

Lemma unknown_place_ends_unexpectedly_witness :
  (exists job,
     progress_status (registry (snd (create_poster_async nowhere default_process []
                                       "job" by_city fresh_world))) !! "job" = Some job
     /\ js_status job = Some "error"
     /\ js_message job
        = Some ("Error tidak terduga: Could not find coordinates for "
                +:+ "Atlantis" +:+ ", " +:+ "Nowhere"))
  /\ disk (snd (create_poster_async nowhere default_process [] "job" by_city fresh_world))
     = disk fresh_world
  /\ temp_outputs (snd (create_poster_async nowhere default_process [] "job" by_city
                          fresh_world))
     = temp_outputs fresh_world.
Proof.
  apply (unknown_place_ends_unexpectedly nowhere default_process [] "job" by_city
           fresh_world "Atlantis" "Nowhere"); reflexivity.
Defined.

(* ===================================================================== *)
(** * The location a request resolves to                                  *)
(* ===================================================================== *)



Section Asks.

Context (target : option Request).

Ltac quiet :=
  repeat constructor; intros req H; discriminate H.



End Asks.



Section Resolution.

Context (env : Env) (task_id : string).



End Resolution.

(* ===================================================================== *)
(** * Code that only appends to the log                                   *)
(* ===================================================================== *)


Section Appends.

Context (env : Env).












End Appends.





(* ===================================================================== *)
(** * The render phases of a poster                                      *)
(* ===================================================================== *)

Lemma phases_app (evs evs' : list Event) :
  phases (evs ++ evs') = phases evs ++ phases evs'.
Proof. apply omap_app. Qed.

Lemma phases_none (evs : list Event) :
  Forall (fun ev => phase_of ev = None) evs -> phases evs = [].
Proof.
  induction 1 as [|ev evs Hev _ IH]; [reflexivity|].
  unfold phases in *. cbn [omap list_omap]. rewrite Hev. exact IH.
Qed.

Lemma phases_pool (evs : list Event) :
  Forall (pool_event (fun ev => phase_of ev = None)) evs -> phases evs = [].
Proof.
  intros H. apply phases_none. eapply Forall_impl; [exact H|].
  intros ev [Hev|[i ->]]; [exact Hev|reflexivity].
Qed.

Section Phases.

Context (env : Env).

Lemma in_order_bind {A B} (todo todo' : list string) (p : Prog A) (k : A -> Prog B) :
  in_order todo p -> (forall x, in_order todo' (k x)) ->
  in_order (todo ++ todo') (bind p k).
Proof.
  intros Hp Hk. induction Hp as [r|l e|l l' X a h -> Hh IH]; cbn [bind].
  - apply Hk.
  - constructor.
  - econstructor; [|exact IH]. rewrite app_assoc. reflexivity.
Qed.

Lemma in_order_run {R} (todo : list string) (p : Prog R) :
  in_order todo p -> reports_in_order todo (run env p).
Proof.
  intros Hp. induction Hp as [r|l e|l l' X a k -> Hk IH]; intros w; cbn [run].
  - exists []. rewrite app_nil_r. split; [reflexivity|]. split; [apply prefix_nil|].
    reflexivity.
  - exists []. rewrite app_nil_r. split; [reflexivity|]. split; [apply prefix_nil|].
    discriminate.
  - pose proof (step_logged env a w) as H1.
    destruct (step env a w) as [x w1]. cbn [snd] in H1.
    destruct (IH x w1) as (evs & H2 & Hpre & Hall).
    exists (logged a ++ evs). rewrite H2, H1, app_assoc. split; [reflexivity|].
    rewrite phases_app. split; [apply prefix_app, Hpre|].
    intros r Hr. rewrite (Hall r Hr). reflexivity.
Qed.

(** Code that phases nothing. *)
Lemma quiet_run {R} (p : Prog R) :
  confined (fun ev => phase_of ev = None) p -> reports_in_order [] (run env p).
Proof.
  intros Hp w. destruct (confined_run _ env p w Hp) as (evs & Hlog & Hevs).
  exists evs. rewrite (phases_none evs Hevs). split; [exact Hlog|].
  split; [apply prefix_nil|reflexivity].
Qed.

Lemma quiet_pool {R} (schedule : list nat) (tasks : list (Prog R)) :
  Forall (confined (fun ev => phase_of ev = None)) tasks ->
  reports_in_order [] (jpool env schedule tasks).
Proof.
  intros Hc w. unfold jpool, pool.
  destruct (interleave_spec env _ schedule tasks w Hc) as (evs1 & L1 & Q1 & C1 & _).
  destruct (interleave env schedule tasks w) as [tasks1 w1]. cbn [fst snd] in *.
  destruct (join_all_spec env _ 0 tasks1 w1 C1) as (evs2 & L2 & Q2 & _).
  destruct (join_all env 0 tasks1 w1) as [rs w2]. cbn [fst snd] in *.
  exists (evs1 ++ evs2). rewrite L2, L1, app_assoc. split; [reflexivity|].
  rewrite phases_app, (phases_pool evs1 Q1), (phases_pool evs2 Q2).
  split; [apply prefix_nil|reflexivity].
Qed.

Lemma quiet_future {A} (i : nat) (futures : list (Result A)) :
  reports_in_order [] (future i futures).
Proof.
  intros w. exists []. rewrite app_nil_r. unfold future, result, jret, jraise.
  destruct (futures !! i) as [[a|e]|]; cbn [fst snd];
    (split; [reflexivity|]); (split; [apply prefix_nil|reflexivity]).
Qed.

Lemma raising_in_order {A} (todo : list string) (e : Exc) :
  reports_in_order (A := A) todo (jraise e).
Proof.
  intros w. exists []. rewrite app_nil_r. unfold jraise. cbn [fst snd].
  split; [reflexivity|]. split; [apply prefix_nil|discriminate].
Qed.

Lemma reports_in_order_bind {A B} (todo todo' : list string) (m : Job A)
    (f : A -> Job B) :
  reports_in_order todo m -> (forall a, reports_in_order todo' (f a)) ->
  reports_in_order (todo ++ todo') (jbind m f).
Proof.
  intros Hm Hf w. unfold jbind. destruct (Hm w) as (evs & Hlog & Hpre & Hall).
  destruct (m w) as [[a|e] w1]; cbn [fst snd] in *.
  - destruct (Hf a w1) as (evs' & Hlog' & Hpre' & Hall').
    exists (evs ++ evs'). rewrite Hlog', Hlog, app_assoc. split; [reflexivity|].
    rewrite phases_app, (Hall a eq_refl). split; [apply prefix_app, Hpre'|].
    intros b Hb. rewrite (Hall' b Hb). reflexivity.
  - exists evs. split; [exact Hlog|]. split; [apply prefix_app_r, Hpre|discriminate].
Qed.

End Phases.

Lemma confined_report (P : Event -> Prop) (progress_cb : option ProgressCb)
    (status message : string) :
  P (EProgressCb status message) ->
  confined P (create_map_poster.report progress_cb status message).
Proof.
  intros H. unfold create_map_poster.report. destruct progress_cb as [cb|]; [|constructor].
  apply confined_try_except; [|intros e; constructor].
  apply confined_call. repeat constructor. exact H.
Qed.

Lemma in_order_report (cb : ProgressCb) (status message : string) :
  in_order (phases [EProgressCb status message])
    (create_map_poster.report (Some cb) status message).
Proof.
  unfold create_map_poster.report. cbn [call try_except].
  econstructor; [cbn [logged]; rewrite app_nil_r; reflexivity|].
  intros [[]|e]; cbn [try_except]; constructor.
Qed.

Lemma in_order_render (stage : string) : in_order [] (call (render stage)).
Proof. econstructor; [reflexivity|]. intros [[]|e]; constructor. Qed.

Lemma in_order_print (msg : string) : in_order [] (act (print msg)).
Proof. econstructor; [reflexivity|]. intros []. constructor. Qed.

(** A reported phase: the report, then the stage of the renderer. *)
Lemma in_order_phase {R} (cb : ProgressCb) (status message stage : string)
    (todo : list string) (k : Prog R) :
  String.prefix "render_" status = true ->
  in_order todo k ->
  in_order (status :: todo)
    (create_map_poster.report (Some cb) status message;; call (render stage);; k).
Proof.
  intros Hstatus Hk.
  apply (in_order_bind [status] todo).
  { pose proof (in_order_report cb status message) as H.
    unfold phases in H. cbn [omap list_omap phase_of] in H. rewrite Hstatus in H.
    exact H. }
  intros _. apply (in_order_bind [] todo); [apply in_order_render|].
  intros _. exact Hk.
Qed.

Lemma quiet_fetcher (proc : Process) (f : Fetch) (cache_cb : option CacheCb) :
  confined (fun ev => phase_of ev = None) (fetcher proc f cache_cb).
Proof.
  apply confined_fetcher.
  - intros [] H; try destruct H; reflexivity.
  - reflexivity.
Qed.

(** X21.  [create_poster] reports its render phases to the progress
    callback in one order - [render_setup], [render_layers_water],
    [render_layers_parks], [render_boundary], [render_roads], then
    [render_gradients] and [render_text] unless the poster is clean, then
    [render_save].  Whatever the provider, the disk, the callbacks and the
    renderer do, the phases reported are the first of that order, and when
    [create_poster] returns all of them have been reported.  (The poster
    is asked for as its callers do: by a boundary, or by a point together
    with a distance.) *)
Theorem render_phases_come_in_order (env : Env) (proc : Process) (schedule : list nat)
    (city country : string) (around : option (Point * Z))
    (output_file : string) (boundary : option GeoDataFrame) (clean : bool)
    (cb : ProgressCb) (cache_cb : option CacheCb) (w : World) :
  exists evs,
    log (snd (create_poster env proc schedule city country
                (fst <$> around) (snd <$> around) output_file
                boundary clean (Some cb) cache_cb w)) = log w ++ evs
    /\ phases evs `prefix_of` render_phases clean
    /\ (fst (create_poster env proc schedule city country
               (fst <$> around) (snd <$> around) output_file
               boundary clean (Some cb) cache_cb w) = Ok tt ->
        phases evs = render_phases clean).
Proof.
  assert (H : reports_in_order (render_phases clean)
                (create_poster env proc schedule city country
                   (fst <$> around) (snd <$> around) output_file
                   boundary clean (Some cb) cache_cb)).
  { unfold create_poster.
    assert (Hunpack : forall (k : Point * Z -> Prog PyObj),
              (forall pd, confined (fun ev => phase_of ev = None) (k pd)) ->
              confined (fun ev => phase_of ev = None)
                (bind (unpack (fst <$> around) (snd <$> around)) k)).
    { intros k Hk. apply confined_bind; [|exact Hk].
      unfold unpack. destruct around as [[point dist]|]; constructor. }
    apply (reports_in_order_bind [] (render_phases clean)).
    { apply quiet_run. apply confined_bind; [apply confined_act; repeat constructor|].
      intros _.
      destruct boundary, around as [[point dist]|];
        first [apply confined_call; constructor|constructor]. }
    intros fetch_boundary. apply (reports_in_order_bind [] (render_phases clean)).
    { apply quiet_run. apply confined_bind; [apply confined_report; reflexivity|].
      intros _. destruct fetch_boundary as [b|].
      - exact (quiet_fetcher proc (FetchGraphFromPolygon b) cache_cb).
      - apply Hunpack. intros pd.
        exact (quiet_fetcher proc (FetchGraph (fst pd) (snd pd)) cache_cb). }
    intros G. apply (reports_in_order_bind [] (render_phases clean)).
    { apply quiet_run, confined_report. reflexivity. }
    intros _. apply (reports_in_order_bind [] (render_phases clean)).
    { apply quiet_pool. constructor; [|constructor; [|constructor]].
      - destruct fetch_boundary as [b|].
        + exact (quiet_fetcher proc (FetchFeaturesFromPolygon b water_tags "water")
                   cache_cb).
        + apply Hunpack. intros pd.
          exact (quiet_fetcher proc (FetchFeatures (fst pd) (snd pd) water_tags "water")
                   cache_cb).
      - apply confined_bind; [apply confined_report; reflexivity|]. intros _.
        destruct fetch_boundary as [b|].
        + exact (quiet_fetcher proc (FetchFeaturesFromPolygon b parks_tags "parks")
                   cache_cb).
        + apply Hunpack. intros pd.
          exact (quiet_fetcher proc (FetchFeatures (fst pd) (snd pd) parks_tags "parks")
                   cache_cb). }
    intros futures. apply (reports_in_order_bind [] (render_phases clean));
      [apply quiet_future|].
    intros water. apply (reports_in_order_bind [] (render_phases clean));
      [apply quiet_future|].
    intros parks. destruct (is_None G); [apply raising_in_order|].
    apply in_order_run.
    apply (in_order_bind [] (render_phases clean)); [apply in_order_print|]. intros _.
    apply (in_order_bind [] (render_phases clean)); [apply in_order_print|]. intros _.
    unfold render_phases. cbn [app].
    do 4 (apply in_order_phase; [reflexivity|]).
    apply (in_order_bind [] ("render_roads" :: _)); [apply in_order_print|]. intros _.
    apply in_order_phase; [reflexivity|].
    assert (Hsave : in_order ["render_save"]
              (act (print ("Saving to " +:+ output_file +:+ "..."));;
               create_map_poster.report (Some cb) "render_save"
                 "Menyimpan hasil poster...";;
               call (render "save");;
               act (print ("✓ Done! Poster saved as " +:+ output_file)))).
    { apply (in_order_bind [] ["render_save"]); [apply in_order_print|]. intros _.
      apply in_order_phase; [reflexivity|]. apply in_order_print. }
    destruct clean; cbn [app].
    - apply (in_order_bind [] ["render_save"]); [constructor|]. intros _.
      apply (in_order_bind [] ["render_save"]); [constructor|]. intros _. exact Hsave.
    - apply (in_order_bind ["render_gradients"] ["render_text"; "render_save"]).
      { apply (in_order_bind ["render_gradients"] []);
          [exact (in_order_report cb "render_gradients" _)|].
        intros _. apply in_order_render. }
      intros _. apply (in_order_bind ["render_text"] ["render_save"]).
      { apply (in_order_bind ["render_text"] []);
          [exact (in_order_report cb "render_text" _)|].
        intros _. apply in_order_render. }
      intros _. exact Hsave. }
  destruct (H w) as (evs & Hlog & Hpre & Hall). exists evs.
  split; [exact Hlog|]. split; [exact Hpre|apply Hall].
Qed.
